(** * create-gitlab-webhooks: a shallow embedding of [create-webhooks.ts]

    The script reads a manifest of repository paths, expands wildcard group
    entries through the GitLab API and, for every repository, removes the
    webhook that already points at the configured destination URL and creates
    a fresh one.

    Conventions of the embedding:
    - A JavaScript string is the [string] of the bytes of its UTF-8 encoding
      (every well-formed string has one, and a file read as ['utf-8'] is
      well formed); [===] on strings is [String.eqb], and a separator below
      U+0080 cuts the bytes where it cuts the characters.
    - JavaScript arrays are [list]s; [Array.prototype.find], [.map], [.pop],
      [.join], [.concat] are the list functions below.
    - The remote API and the file system are collaborators.  Code is written
      once over an interface ([GitlabApi], [HttpApi]); every invocation of the
      interface is recorded in a call log, the way a test double observes it.
    - [async]/[await] is sequential here (every promise is awaited at once), so
      the code runs in a state-and-exception monad [M].
    - Console output is not part of the model. *)

From Stdlib Require Import ZArith Ascii List Lia Bool.
From stdpp Require Import gmap strings list fin_maps.

Open Scope Z_scope.

(* ===================================================================== *)
(** * JavaScript string and array primitives used by the script           *)
(* ===================================================================== *)

Module Js.

(** [s.split(sep)] for a separator of one byte (a character below U+0080, as
    the slash and the newline are): the segments between the occurrences of
    [sep]; never the empty array ([''.split('/')] is ['']). *)
Fixpoint split (sep : ascii) (s : string) : list string :=
  match s with
  | EmptyString => [EmptyString]
  | String c rest =>
      if Ascii.eqb c sep then EmptyString :: split sep rest
      else match split sep rest with
           | seg :: segs => String c seg :: segs
           | [] => [String c EmptyString]
           end
  end.

(** [parts.join(sep)]. *)
Fixpoint join (sep : string) (parts : list string) : string :=
  match parts with
  | [] => EmptyString
  | [p] => p
  | p :: ps => p +:+ sep +:+ join sep ps
  end.

(** [parts.pop()]: the removed last element ([undefined], here [None], on the
    empty array) together with the array as it is left. *)
Definition pop {A : Type} (parts : list A) : option A * list A :=
  match rev parts with
  | [] => (None, [])
  | x :: before => (Some x, rev before)
  end.

(** The non-null assertion [e!] is erased by the compiler; an [undefined]
    that slips through prints as the text below in a template literal and is
    different from every manifest token the script compares it with. *)
Definition nonNull (v : option string) : string :=
  match v with
  | Some s => s
  | None => "undefined"
  end.

(** The string of a sequence of bytes. *)
Definition utf8 (bytes : list N) : string :=
  String.string_of_list_ascii (map ascii_of_N bytes).

(** White space as [String.prototype.trim] sees it -- the WhiteSpace and
    LineTerminator characters of ECMAScript -- each by its UTF-8 bytes: TAB,
    LF, VT, FF, CR, SPACE, U+00A0, U+1680, U+2000 to U+200A, U+2028, U+2029,
    U+202F, U+205F, U+3000 and U+FEFF. *)
Definition whiteSpace : list string :=
  Eval cbv in
    map utf8
      [ [9]; [10]; [11]; [12]; [13]; [32];
        [194; 160];
        [225; 154; 128];
        [226; 128; 128]; [226; 128; 129]; [226; 128; 130]; [226; 128; 131];
        [226; 128; 132]; [226; 128; 133]; [226; 128; 134]; [226; 128; 135];
        [226; 128; 136]; [226; 128; 137]; [226; 128; 138];
        [226; 128; 168]; [226; 128; 169];
        [226; 128; 175];
        [226; 129; 159];
        [227; 128; 128];
        [239; 187; 191] ]%N.

Definition isWhiteSpace (c : string) : bool := existsb (String.eqb c) whiteSpace.

(** Removes from the front of the bytes every character, of one, two or
    three bytes, that [white] accepts. *)
Fixpoint strip (white : string -> bool) (s : string) : string :=
  match s with
  | EmptyString => s
  | String a r1 =>
      if white (String a EmptyString) then strip white r1
      else
        match r1 with
        | EmptyString => s
        | String b r2 =>
            if white (String a (String b EmptyString)) then strip white r2
            else
              match r2 with
              | EmptyString => s
              | String c r3 =>
                  if white (String a (String b (String c EmptyString)))
                  then strip white r3
                  else s
              end
        end
  end.

Definition revString (s : string) : string :=
  String.string_of_list_ascii (rev (String.list_ascii_of_string s)).

Definition trimStart (s : string) : string := strip isWhiteSpace s.

(** From the end the bytes of a character are met last byte first. *)
Definition trimEnd (s : string) : string :=
  revString (strip (fun c => isWhiteSpace (revString c)) (revString s)).

Definition trim (s : string) : string := trimEnd (trimStart s).

(** Truthiness of a string: every string but the empty one. *)
Definition truthy (s : string) : bool :=
  match s with
  | EmptyString => false
  | String _ _ => true
  end.

(** Does the string contain the character (one below U+0080)? *)
Fixpoint contains (c : ascii) (s : string) : bool :=
  match s with
  | EmptyString => false
  | String d rest => Ascii.eqb d c || contains c rest
  end.

(** A JSON-like value and an object literal (keys in source order). *)
Inductive Value :=
| VBool (b : bool)
| VStr (s : string)
| VNum (n : Z).

Definition Object := list (string * Value).

Fixpoint get (key : string) (o : Object) : option Value :=
  match o with
  | [] => None
  | (k, v) :: rest => if String.eqb k key then Some v else get key rest
  end.

End Js.

(* ===================================================================== *)
(** * Data model                                                          *)
(* ===================================================================== *)

(** [interface Webhook]: the required fields.  The optional fields of the
    interface ([name?], [created_at?], ...) are never read or written by the
    script and are left out. *)
Module Webhook.
Record t := mk {
  id : Z;
  url : string;
  push_events : bool;
  merge_requests_events : bool;
  issues_events : bool;
  enable_ssl_verification : bool;
  tag_push_events : bool;
  pipeline_events : bool;
  wiki_page_events : bool;
  deployment_events : bool;
  feature_flag_events : bool;
  job_events : bool;
  releases_events : bool;
  emoji_events : bool;
  resource_access_token_events : bool;
  vulnerability_events : bool
}.
End Webhook.
Abbreviation Webhook := Webhook.t.

(** [interface Project]. *)
Module Project.
Record t := mk {
  id : Z;
  path_with_namespace : string;
  name : string;
  path : string
}.
End Project.
Abbreviation Project := Project.t.

(** The element type of what [getAllGroupRepositories] returns,
    [{ groupPath: string; repoName: string }]. *)
Module RepositoryRef.
Record t := mk { groupPath : string; repoName : string }.
End RepositoryRef.
Abbreviation RepositoryRef := RepositoryRef.t.

(** [process.env], the four variables the script reads. *)
Module Env.
Record t := mk {
  GITLAB_URL : option string;
  GITLAB_PAT : option string;
  WEBHOOK_URL : option string;
  REPOS_FILE : option string
}.
End Env.

(** [process.env.X || dflt]: an unset or empty variable takes the default. *)
Definition orDefault (v : option string) (dflt : string) : string :=
  match v with
  | Some s => if Js.truthy s then s else dflt
  | None => dflt
  end.

(** [!v] for an environment variable. *)
Definition missing (v : option string) : bool :=
  match v with
  | Some s => negb (Js.truthy s)
  | None => true
  end.

(** Static part of the webhook URL that should be masked. *)
Definition MASKED_WEBHOOK_PART : string := "secret-token".

(* ===================================================================== *)
(** * Effects: remote calls, exceptions, the call log                     *)
(* ===================================================================== *)

(** What a rejected promise or a throwing built-in carries. *)
Inductive Error :=
| HttpError (status : Z)
| NetworkError
| FileError.

Inductive Result (A : Type) :=
| Ok (a : A)
| Throw (e : Error).
Arguments Ok {A} a.
Arguments Throw {A} e.

Definition isOk {A : Type} (r : Result A) : bool :=
  match r with
  | Ok _ => true
  | Throw _ => false
  end.

(** One request to the remote, as either client issues it.  The first four
    are the methods of the [gitlab] client library, the other five the REST
    routes the [axios] variant of the script addresses. *)
Inductive Call :=
| ProjectHooks_all (projectPath : string)
| ProjectHooks_remove (projectPath : string) (hookId : Z)
| ProjectHooks_add (projectPath : string) (url : string) (options : Js.Object)
| Groups_projects (groupPath : string) (options : Js.Object)
| GET_project (projectPath : string)
| GET_project_hooks (projectId : Z)
| DELETE_project_hook (projectId : Z) (hookId : Z)
| POST_project_hooks (projectId : Z) (body : Js.Object)
| GET_group_projects (groupPath : string) (params : Js.Object).

(** The world the script runs in: the remote's state and the log of the calls
    made so far, oldest first, each with whether it completed ([true]) or
    failed ([false]). *)
Record World (S : Type) := mkWorld {
  remote : S;
  log : list (Call * bool)
}.
Arguments mkWorld {S} remote log.
Arguments remote {S} w.
Arguments log {S} w.

Definition init {S : Type} (s : S) : World S := mkWorld s [].

(** Sequential code with exceptions over a world.  A thrown exception keeps
    the world as the calls before it left it. *)
Definition M (S A : Type) : Type := World S -> World S * Result A.

Definition ret {S A : Type} (a : A) : M S A := fun w => (w, Ok a).

Definition throw {S A : Type} (e : Error) : M S A := fun w => (w, Throw e).

Definition bind {S A B : Type} (m : M S A) (k : A -> M S B) : M S B :=
  fun w =>
    match m w with
    | (w', Ok a) => k a w'
    | (w', Throw e) => (w', Throw e)
    end.

(** [try { m } catch (error) { handler(error) }]. *)
Definition tryCatch {S A : Type} (m : M S A) (handler : Error -> M S A) : M S A :=
  fun w =>
    match m w with
    | (w', Ok a) => (w', Ok a)
    | (w', Throw e) => handler e w'
    end.

Declare Scope js_scope.
Delimit Scope js_scope with js.
Notation "x <- m ;; k" := (bind m (fun x => k))
  (at level 100, m at next level, right associativity) : js_scope.
Notation "m ;;; k" := (bind m (fun _ => k))
  (at level 100, right associativity) : js_scope.
Open Scope js_scope.

(** [for (const x of xs) { await body(x) }]. *)
Fixpoint forOf {S A : Type} (xs : list A) (body : A -> M S unit) : M S unit :=
  match xs with
  | [] => ret tt
  | x :: rest => body x ;;; forOf rest body
  end.

(** A call of the remote through the client: run it and record it. *)
Definition invoke {S A : Type} (c : Call) (op : S -> S * Result A) : M S A :=
  fun w =>
    let '(s', r) := op (remote w) in
    (mkWorld s' (log w ++ [(c, isOk r)]), r).

(** The [gitlab] client library, as far as the script uses it. *)
Class GitlabApi (S : Type) := {
  projectHooksAll : string -> S -> S * Result (list Webhook);
  projectHooksRemove : string -> Z -> S -> S * Result unit;
  projectHooksAdd : string -> string -> Js.Object -> S -> S * Result Webhook;
  groupsProjects : string -> Js.Object -> S -> S * Result (list Project)
}.

(** The REST routes the [axios] variant requests, one operation per route
    template; the interpolated values are the arguments. *)
Class HttpApi (S : Type) := {
  getProject : string -> S -> S * Result Project;
  getProjectHooks : Z -> S -> S * Result (list Webhook);
  deleteProjectHook : Z -> Z -> S -> S * Result unit;
  postProjectHooks : Z -> Js.Object -> S -> S * Result Webhook;
  getGroupProjects : string -> Js.Object -> S -> S * Result (list Project)
}.

(* ===================================================================== *)
(** * [src/create-webhooks.ts]: the script over the [gitlab] client       *)
(* ===================================================================== *)

Module GitlabClient.
Section Script.

Context {S : Type} {api : GitlabApi S}.

(** The module-level constants, after the start-up checks. *)
Variable encodedWebhookUrl : string.
Variable REPOS_FILE : string.

(** [fs.readFileSync(name, 'utf-8')]. *)
Variable readFileSync : string -> Result string.

(** [logApiCall(operation, apiCall, requestDetails)]: runs [apiCall], prints
    around it, and rethrows what it throws.  [requestDetails] only feeds the
    console. *)
Definition logApiCall {T : Type} (operation : string) (apiCall : M S T) : M S T :=
  tryCatch apiCall (fun error => throw error).

Definition webhookConfig : Js.Object :=
  [ ("url", Js.VStr encodedWebhookUrl);
    ("push_events", Js.VBool true);
    ("merge_requests_events", Js.VBool true);
    ("issues_events", Js.VBool true);
    ("enable_ssl_verification", Js.VBool true);
    ("token", Js.VStr MASKED_WEBHOOK_PART) ].

Definition createWebhook (groupPath repoName : string) : M S Webhook :=
  tryCatch
    (let projectPath := groupPath +:+ "/" +:+ repoName in
     existingWebhooks <-
       logApiCall "Get Project Hooks"
         (invoke (ProjectHooks_all projectPath) (projectHooksAll projectPath)) ;;
     let existingWebhook :=
       find (fun hook => String.eqb (Webhook.url hook) encodedWebhookUrl)
            existingWebhooks in
     match existingWebhook with
     | Some existingWebhook =>
         logApiCall "Delete Project Hook"
           (invoke (ProjectHooks_remove projectPath (Webhook.id existingWebhook))
                   (projectHooksRemove projectPath (Webhook.id existingWebhook)))
     | None => ret tt
     end ;;;
     webhook <-
       logApiCall "Create Project Hook"
         (invoke (ProjectHooks_add projectPath encodedWebhookUrl webhookConfig)
                 (projectHooksAdd projectPath encodedWebhookUrl webhookConfig)) ;;
     ret webhook)
    (fun error => throw error).

Definition groupOptions : Js.Object :=
  [ ("include_subgroups", Js.VBool true); ("per_page", Js.VNum 100) ].

Definition getAllGroupRepositories (groupPath : string) : M S (list RepositoryRef) :=
  tryCatch
    (projects <-
       logApiCall "Get Group Projects"
         (invoke (Groups_projects groupPath groupOptions)
                 (groupsProjects groupPath groupOptions)) ;;
     let repositories :=
       map (fun project =>
              let fullPath := Project.path_with_namespace project in
              let parts := Js.split "/" fullPath in
              let '(last, parts) := Js.pop parts in
              let repoName := Js.nonNull last in
              let groupPath := Js.join "/" parts in
              RepositoryRef.mk groupPath repoName)
           projects in
     ret repositories)
    (fun error => throw error).

(** The body of the loop over the manifest lines. *)
Definition processLine (line : string) : M S unit :=
  let parts := Js.split "/" line in
  let '(last, parts) := Js.pop parts in
  let repoName := Js.nonNull last in
  let groupPath := Js.join "/" parts in
  if String.eqb repoName "*" then
    repositories <- getAllGroupRepositories groupPath ;;
    forOf repositories
      (fun repo =>
         createWebhook (RepositoryRef.groupPath repo) (RepositoryRef.repoName repo) ;;;
         ret tt)
  else
    createWebhook groupPath repoName ;;; ret tt.

Definition manifestLines (content : string) : list string :=
  List.filter (fun line => Js.truthy (Js.trim line)) (Js.split "010" content).

(** [processRepositories()]: the exit status the process ends with, [1]
    from [process.exit(1)] in the handler and [0] when the function runs to
    its end and the process finishes on its own. *)
Definition processRepositories : World S -> World S * Z :=
  fun w =>
    match
      (content <- (fun w => (w, readFileSync REPOS_FILE)) ;;
       let lines := manifestLines content in
       forOf lines processLine) w
    with
    | (w', Ok _) => (w', 0)
    | (w', Throw _) => (w', 1)
    end.

End Script.

(** The script from its first line: the start-up checks of the environment,
    then [processRepositories()].  [validUrl u] says whether [new URL(u)]
    returns rather than throws.  [GITLAB_URL] and the token configure the
    client, which is the interface instance here. *)
Definition main {S : Type} {api : GitlabApi S}
    (env : Env.t) (validUrl : string -> bool)
    (readFileSync : string -> Result string) : World S -> World S * Z :=
  fun w =>
    let GITLAB_URL := orDefault (Env.GITLAB_URL env) "https://gitlab.com" in
    let REPOS_FILE := orDefault (Env.REPOS_FILE env) "repos.txt" in
    if missing (Env.GITLAB_PAT env) then (w, 1)
    else
      match Env.WEBHOOK_URL env with
      | None => (w, 1)
      | Some WEBHOOK_URL =>
          if negb (Js.truthy WEBHOOK_URL) then (w, 1)
          else if validUrl WEBHOOK_URL then
            let encodedWebhookUrl := WEBHOOK_URL in
            processRepositories encodedWebhookUrl REPOS_FILE readFileSync w
          else (w, 1)
      end.

End GitlabClient.

(* ===================================================================== *)
(** * The revision of the script that calls the REST API through [axios]  *)
(* ===================================================================== *)

Module AxiosClient.
Section Script.

Context {S : Type} {api : HttpApi S}.

Variable encodedWebhookUrl : string.
Variable REPOS_FILE : string.
Variable readFileSync : string -> Result string.

Definition getProjectId (projectPath : string) : M S Z :=
  tryCatch
    (response <- invoke (GET_project projectPath) (getProject projectPath) ;;
     ret (Project.id response))
    (fun error => throw error).

Definition webhookConfig : Js.Object :=
  [ ("url", Js.VStr encodedWebhookUrl);
    ("push_events", Js.VBool true);
    ("merge_requests_events", Js.VBool true);
    ("issues_events", Js.VBool true);
    ("enable_ssl_verification", Js.VBool true);
    ("token", Js.VStr MASKED_WEBHOOK_PART) ].

Definition createWebhook (groupPath repoName : string) : M S Webhook :=
  tryCatch
    (let projectPath := groupPath +:+ "/" +:+ repoName in
     projectId <- getProjectId projectPath ;;
     existingWebhooks <-
       invoke (GET_project_hooks projectId) (getProjectHooks projectId) ;;
     let existingWebhook :=
       find (fun hook => String.eqb (Webhook.url hook) encodedWebhookUrl)
            existingWebhooks in
     match existingWebhook with
     | Some existingWebhook =>
         invoke (DELETE_project_hook projectId (Webhook.id existingWebhook))
                (deleteProjectHook projectId (Webhook.id existingWebhook))
     | None => ret tt
     end ;;;
     webhook <-
       invoke (POST_project_hooks projectId webhookConfig)
              (postProjectHooks projectId webhookConfig) ;;
     ret webhook)
    (fun error => throw error).

Definition perPage : Z := 100.

Definition pageParams (page : Z) : Js.Object :=
  [ ("page", Js.VNum page);
    ("per_page", Js.VNum perPage);
    ("include_subgroups", Js.VBool true) ].

(** The [while (true)] loop of [getAllGroupRepositories], from the state
    [(page, allProjects)].  [fuel] bounds the number of iterations;
    [None] is returned when it runs out before the loop breaks. *)
Fixpoint fetchPages (fuel : nat) (groupPath : string) (page : Z)
    (allProjects : list Project) : M S (option (list Project)) :=
  match fuel with
  | O => ret None
  | Datatypes.S fuel' =>
      projects <-
        invoke (GET_group_projects groupPath (pageParams page))
               (getGroupProjects groupPath (pageParams page)) ;;
      let allProjects := allProjects ++ projects in
      if Z.of_nat (length projects) <? perPage then ret (Some allProjects)
      else
        let page := page + 1 in
        fetchPages fuel' groupPath page allProjects
  end.

Definition getAllGroupRepositories (fuel : nat) (groupPath : string)
    : M S (option (list RepositoryRef)) :=
  tryCatch
    (done <- fetchPages fuel groupPath 1 [] ;;
     match done with
     | None => ret None
     | Some allProjects =>
         let repositories :=
           map (fun project =>
                  let fullPath := Project.path_with_namespace project in
                  let parts := Js.split "/" fullPath in
                  let '(last, parts) := Js.pop parts in
                  let repoName := Js.nonNull last in
                  let groupPath := Js.join "/" parts in
                  RepositoryRef.mk groupPath repoName)
               allProjects in
         ret (Some repositories)
     end)
    (fun error => throw error).

(** [for (const x of xs) { await body(x) }] for a body that may not come
    back (it holds the paging loop): [None] as soon as one iteration does
    not. *)
Fixpoint forOfFuel {A : Type} (xs : list A) (body : A -> M S (option unit))
    : M S (option unit) :=
  match xs with
  | [] => ret (Some tt)
  | x :: rest =>
      done <- body x ;;
      match done with
      | None => ret None
      | Some _ => forOfFuel rest body
      end
  end.

(** The body of the loop over the manifest lines; [fuel] is handed to the
    paging loop of a wildcard line. *)
Definition processLine (fuel : nat) (line : string) : M S (option unit) :=
  let parts := Js.split "/" line in
  let '(last, parts) := Js.pop parts in
  let repoName := Js.nonNull last in
  let groupPath := Js.join "/" parts in
  if String.eqb repoName "*" then
    done <- getAllGroupRepositories fuel groupPath ;;
    match done with
    | None => ret None
    | Some repositories =>
        forOf repositories
          (fun repo =>
             createWebhook (RepositoryRef.groupPath repo)
                           (RepositoryRef.repoName repo) ;;;
             ret tt) ;;;
        ret (Some tt)
    end
  else
    createWebhook groupPath repoName ;;; ret (Some tt).

(** [processRepositories()]: the exit status, [Some 1] from [process.exit(1)]
    in the handler, [Some 0] when the function runs to its end, [None] when
    a paging loop is still running after [fuel] iterations. *)
Definition processRepositories (fuel : nat) : World S -> World S * option Z :=
  fun w =>
    match
      (content <- (fun w => (w, readFileSync REPOS_FILE)) ;;
       let lines :=
         List.filter (fun line => Js.truthy (Js.trim line)) (Js.split "010" content) in
       forOfFuel lines (processLine fuel)) w
    with
    | (w', Ok (Some _)) => (w', Some 0)
    | (w', Ok None) => (w', None)
    | (w', Throw _) => (w', Some 1)
    end.

End Script.

(** The script from its first line, as in the other revision; the [--debug]
    switch only adds console output. *)
Definition main {S : Type} {api : HttpApi S}
    (env : Env.t) (validUrl : string -> bool)
    (readFileSync : string -> Result string) (fuel : nat)
    : World S -> World S * option Z :=
  fun w =>
    let GITLAB_URL := orDefault (Env.GITLAB_URL env) "https://gitlab.com" in
    let REPOS_FILE := orDefault (Env.REPOS_FILE env) "repos.txt" in
    if missing (Env.GITLAB_PAT env) then (w, Some 1)
    else
      match Env.WEBHOOK_URL env with
      | None => (w, Some 1)
      | Some WEBHOOK_URL =>
          if negb (Js.truthy WEBHOOK_URL) then (w, Some 1)
          else if validUrl WEBHOOK_URL then
            let encodedWebhookUrl := WEBHOOK_URL in
            processRepositories encodedWebhookUrl REPOS_FILE readFileSync fuel w
          else (w, Some 1)
      end.

End AxiosClient.

(* ===================================================================== *)
(** * The older revision of the script over the [gitlab] client           *)
(* ===================================================================== *)

(** It differs from [GitlabClient] in the reconciler only: no logging
    wrapper around the calls, and the options handed to [ProjectHooks.add]
    do not repeat the url. *)
Module LegacyClient.
Section Script.

Context {S : Type} {api : GitlabApi S}.

Variable encodedWebhookUrl : string.

Definition addOptions : Js.Object :=
  [ ("push_events", Js.VBool true);
    ("merge_requests_events", Js.VBool true);
    ("issues_events", Js.VBool true);
    ("enable_ssl_verification", Js.VBool true);
    ("token", Js.VStr MASKED_WEBHOOK_PART) ].

Definition createWebhook (groupPath repoName : string) : M S Webhook :=
  tryCatch
    (let projectPath := groupPath +:+ "/" +:+ repoName in
     existingWebhooks <-
       invoke (ProjectHooks_all projectPath) (projectHooksAll projectPath) ;;
     let existingWebhook :=
       find (fun hook => String.eqb (Webhook.url hook) encodedWebhookUrl)
            existingWebhooks in
     match existingWebhook with
     | Some existingWebhook =>
         invoke (ProjectHooks_remove projectPath (Webhook.id existingWebhook))
                (projectHooksRemove projectPath (Webhook.id existingWebhook))
     | None => ret tt
     end ;;;
     webhook <-
       invoke (ProjectHooks_add projectPath encodedWebhookUrl addOptions)
              (projectHooksAdd projectPath encodedWebhookUrl addOptions) ;;
     ret webhook)
    (fun error => throw error).

End Script.
End LegacyClient.

(* ===================================================================== *)
(** * A test double of the remote                                          *)
(* ===================================================================== *)

(** An in-memory stand-in for the GitLab server, answering both clients.
    It keeps what the interface contracts name: projects addressed by path
    or by numeric id, the webhooks of each project in creation order with
    server-assigned ids, and the projects below each group.  [faults] is a
    script of outages: the next request fails with a network error when the
    head of the script is [true]; once the script is used up no request
    fails for that reason. *)
Module Double.

Record t := mk {
  projects : gmap string Z;
  hooks : gmap Z (list Webhook);
  groups : gmap string (list Project);
  next_id : Z;
  faults : list bool
}.

Definition withFaults (s : t) (f : list bool) : t :=
  mk (projects s) (hooks s) (groups s) (next_id s) f.

Definition withHooks (s : t) (h : gmap Z (list Webhook)) (n : Z) : t :=
  mk (projects s) h (groups s) n (faults s).

(** Every request first consumes one entry of the outage script. *)
Definition request {A : Type} (handler : t -> t * Result A) (s : t) : t * Result A :=
  match faults s with
  | [] => handler s
  | true :: rest => (withFaults s rest, Throw NetworkError)
  | false :: rest => handler (withFaults s rest)
  end.

Definition flag (key : string) (dflt : bool) (body : Js.Object) : bool :=
  match Js.get key body with
  | Some (Js.VBool b) => b
  | _ => dflt
  end.

(** The webhook the server stores for a request body; flags absent from the
    body take the server's defaults. *)
Definition newHook (id : Z) (url : string) (body : Js.Object) : Webhook :=
  Webhook.mk id url
    (flag "push_events" true body)
    (flag "merge_requests_events" false body)
    (flag "issues_events" false body)
    (flag "enable_ssl_verification" true body)
    (flag "tag_push_events" false body)
    (flag "pipeline_events" false body)
    (flag "wiki_page_events" false body)
    (flag "deployment_events" false body)
    (flag "feature_flag_events" false body)
    (flag "job_events" false body)
    (flag "releases_events" false body)
    (flag "emoji_events" false body)
    (flag "resource_access_token_events" false body)
    (flag "vulnerability_events" false body).

(** [GET /projects/:path]. *)
Definition showProject (projectPath : string) (s : t) : t * Result Project :=
  match projects s !! projectPath with
  | Some pid => (s, Ok (Project.mk pid projectPath "" ""))
  | None => (s, Throw (HttpError 404))
  end.

(** [GET /projects/:id/hooks]. *)
Definition listHooks (pid : Z) (s : t) : t * Result (list Webhook) :=
  match hooks s !! pid with
  | Some l => (s, Ok l)
  | None => (s, Throw (HttpError 404))
  end.

(** [DELETE /projects/:id/hooks/:hook_id]. *)
Definition deleteHook (pid hookId : Z) (s : t) : t * Result unit :=
  match hooks s !! pid with
  | Some l =>
      if existsb (fun h => Webhook.id h =? hookId) l then
        (withHooks s
           (<[pid := List.filter (fun h => negb (Webhook.id h =? hookId)) l]> (hooks s))
           (next_id s),
         Ok tt)
      else (s, Throw (HttpError 404))
  | None => (s, Throw (HttpError 404))
  end.

(** [POST /projects/:id/hooks]. *)
Definition createHook (pid : Z) (body : Js.Object) (s : t) : t * Result Webhook :=
  match hooks s !! pid with
  | Some l =>
      match Js.get "url" body with
      | Some (Js.VStr url) =>
          let h := newHook (next_id s) url body in
          (withHooks s (<[pid := l ++ [h]]> (hooks s)) (next_id s + 1), Ok h)
      | _ => (s, Throw (HttpError 400))
      end
  | None => (s, Throw (HttpError 404))
  end.

Definition numParam (key : string) (dflt : Z) (params : Js.Object) : Z :=
  match Js.get key params with
  | Some (Js.VNum n) => n
  | _ => dflt
  end.

(** [GET /groups/:path/projects?page=..&per_page=..]: one page. *)
Definition listGroupProjects (groupPath : string) (params : Js.Object) (s : t)
    : t * Result (list Project) :=
  match groups s !! groupPath with
  | Some l =>
      let page := numParam "page" 1 params in
      let per := numParam "per_page" 20 params in
      (s, Ok (take (Z.to_nat per) (drop (Z.to_nat ((page - 1) * per)) l)))
  | None => (s, Throw (HttpError 404))
  end.

(** What the client library does with a project path: resolve it, then
    address the project. *)
Definition byPath {A : Type} (projectPath : string) (op : Z -> t -> t * Result A)
    (s : t) : t * Result A :=
  match projects s !! projectPath with
  | Some pid => op pid s
  | None => (s, Throw (HttpError 404))
  end.

(** [ProjectHooks.add(projectPath, url, options)] posts [{ url, ...options }]. *)
Definition addBody (url : string) (options : Js.Object) : Js.Object :=
  match Js.get "url" options with
  | Some _ => options
  | None => ("url", Js.VStr url) :: options
  end.

(** [Groups.projects(groupPath, options)]: the library follows the pages
    itself and hands back all projects of the group. *)
Definition allGroupProjects (groupPath : string) (options : Js.Object) (s : t)
    : t * Result (list Project) :=
  match groups s !! groupPath with
  | Some l => (s, Ok l)
  | None => (s, Throw (HttpError 404))
  end.

#[global] Instance gitlab : GitlabApi t := {
  projectHooksAll projectPath := request (byPath projectPath listHooks);
  projectHooksRemove projectPath hookId :=
    request (byPath projectPath (fun pid => deleteHook pid hookId));
  projectHooksAdd projectPath url options :=
    request (byPath projectPath (fun pid => createHook pid (addBody url options)));
  groupsProjects groupPath options := request (allGroupProjects groupPath options)
}.

#[global] Instance http : HttpApi t := {
  getProject projectPath := request (showProject projectPath);
  getProjectHooks pid := request (listHooks pid);
  deleteProjectHook pid hookId := request (deleteHook pid hookId);
  postProjectHooks pid body := request (createHook pid body);
  getGroupProjects groupPath params := request (listGroupProjects groupPath params)
}.

(** The webhooks of the project at a path, if the project exists. *)
Definition hooksAt (s : t) (projectPath : string) : option (list Webhook) :=
  match projects s !! projectPath with
  | Some pid => hooks s !! pid
  | None => None
  end.

(** Server-assigned ids are unique within a project and below the next id
    the server will assign. *)
Definition wf (s : t) : Prop :=
  map_Forall
    (fun _ l => NoDup (map Webhook.id l) /\ Forall (fun h => Webhook.id h < next_id s) l)
    (hooks s).

End Double.

(* ===================================================================== *)
(** * Vocabulary of the statements                                        *)
(* ===================================================================== *)

(** ** The call log *)

(** All calls of a stretch of the log completed. *)
Definition clean (d : list (Call * bool)) : Prop := Forall (fun e => e.2 = true) d.

(** A stretch of the log is orderly for an outcome when a failed call, if
    there is one, is the last call and the outcome is the exception. *)
Definition orderly {A : Type} (d : list (Call * bool)) (r : Result A) : Prop :=
  clean d \/ (isOk r = false /\ exists d0 c, d = d0 ++ [(c, false)] /\ clean d0).

Definition Orderly {S A : Type} (m : M S A) : Prop :=
  forall w, exists d, log (m w).1 = log w ++ d /\ orderly d (m w).2.

(** Every call a computation adds to the log satisfies [P]. *)
Definition Emits {S A : Type} (P : Call -> Prop) (m : M S A) : Prop :=
  forall w, exists d, log (m w).1 = log w ++ d /\ Forall (fun e => P e.1) d.

(** A stretch of the log is strict for an outcome when all its calls
    completed and the outcome is a result, or all but the last completed,
    the last failed and the outcome is the exception. *)
Definition strict {A : Type} (d : list (Call * bool)) (r : Result A) : Prop :=
  match r with
  | Ok _ => clean d
  | Throw _ => exists d0 c, d = d0 ++ [(c, false)] /\ clean d0
  end.

Definition Strict {S A : Type} (m : M S A) : Prop :=
  forall w, exists d, log (m w).1 = log w ++ d /\ strict d (m w).2.

(** Nothing is left of the string once its leading white space is gone. *)
Definition blank (s : string) : bool := negb (Js.truthy (Js.trimStart s)).

(** The string is a sequence of white-space characters. *)
Definition whiteOnly (s : string) : Prop :=
  exists ws : list string,
    Forall (fun c => In c Js.whiteSpace) ws
    /\ s = fold_right String.append "" ws.

(** If the call posts a webhook, its body is the fixed configuration for the
    destination. *)
Definition fixedPost (dest : string) (c : Call) : Prop :=
  match c with
  | POST_project_hooks _ body =>
      body = [ ("url", Js.VStr dest);
               ("push_events", Js.VBool true);
               ("merge_requests_events", Js.VBool true);
               ("issues_events", Js.VBool true);
               ("enable_ssl_verification", Js.VBool true);
               ("token", Js.VStr "secret-token") ]
  | _ => True
  end.

(** The call is the lookup of the project path, or a webhook request
    addressed to the numeric id [pid]. *)
Definition addressedTo (projectPath : string) (pid : Z) (c : Call) : Prop :=
  match c with
  | GET_project q => q = projectPath
  | GET_project_hooks i | DELETE_project_hook i _ | POST_project_hooks i _ => i = pid
  | _ => False
  end.

(** The call as the older revision issues it: a create call carries the
    options without the url. *)
Definition legacyCall (c : Call) : Call :=
  match c with
  | ProjectHooks_add p url options =>
      ProjectHooks_add p url
        (List.filter (fun kv => negb (String.eqb kv.1 "url")) options)
  | _ => c
  end.

(** The call lists the projects of a group. *)
Definition isListing (e : Call * bool) : bool :=
  match e.1 with
  | Groups_projects _ _ | GET_group_projects _ _ => true
  | _ => false
  end.

(** The call is one of the three webhook calls, on the given project. *)
Definition hookCallOn (projectPath : string) (c : Call) : Prop :=
  match c with
  | ProjectHooks_all p | ProjectHooks_remove p _ | ProjectHooks_add p _ _ =>
      p = projectPath
  | _ => False
  end.

(** The project path addressed for a full path that was cut at its last
    slash and joined again: the full path itself when it holds a slash, a
    slash and the full path when it holds none (the empty group path is
    joined to the name like any other). *)
Definition reconciledPath (fullPath : string) : string :=
  if Js.contains "/" fullPath then fullPath else "/" +:+ fullPath.

(** The calls one project of an expansion accounts for: a fetch of the
    webhooks at its reconciled path first, and webhook calls on that path
    only. *)
Definition projectCalls (project : Project) (d : list (Call * bool)) : Prop :=
  (exists ok rest,
      d = (ProjectHooks_all (reconciledPath (Project.path_with_namespace project)), ok)
          :: rest)
  /\ Forall (fun e => hookCallOn (reconciledPath (Project.path_with_namespace project)) e.1)
            d.

(** The stretches of a loop that ran to its end, or stopped in its last
    stretch: either there are [n] stretches and every call completed, or the
    last call of the last stretch failed and every call before completed. *)
Definition stopsAtFailure {A : Type} (n : nat) (ds : list (list (Call * bool)))
    (r : Result A) : Prop :=
  match r with
  | Ok _ => length ds = n /\ Forall clean ds
  | Throw _ =>
      exists ds0 d0 c,
        ds = ds0 ++ [d0 ++ [(c, false)]] /\ Forall clean ds0 /\ clean d0
  end.

(** The call a manifest line starts with: the listing of its group for a
    wildcard, the fetch of the webhooks of its project otherwise. *)
Definition firstCallOf (line : string) : Call :=
  let segs := Js.split "/" line in
  let groupPath := Js.join "/" (removelast segs) in
  let repoName := List.last segs "" in
  if String.eqb repoName "*" then Groups_projects groupPath GitlabClient.groupOptions
  else ProjectHooks_all (groupPath +:+ "/" +:+ repoName).

(** The calls one manifest line accounts for begin with its first call. *)
Definition lineCalls (line : string) (d : list (Call * bool)) : Prop :=
  exists ok rest, d = (firstCallOf line, ok) :: rest.

(** If the call creates a webhook, it carries the destination URL and the
    fixed configuration. *)
Definition fixedCreate (dest : string) (c : Call) : Prop :=
  match c with
  | ProjectHooks_add _ url options =>
      url = dest /\
      options = [ ("url", Js.VStr dest);
                  ("push_events", Js.VBool true);
                  ("merge_requests_events", Js.VBool true);
                  ("issues_events", Js.VBool true);
                  ("enable_ssl_verification", Js.VBool true);
                  ("token", Js.VStr "secret-token") ]
  | _ => True
  end.

(** The entry of the log is a delete call. *)
Definition isRemove (e : Call * bool) : bool :=
  match e.1 with
  | ProjectHooks_remove _ _ => true
  | _ => false
  end.

(** The entry of the log is a [DELETE] request. *)
Definition isDelete (e : Call * bool) : bool :=
  match e.1 with
  | DELETE_project_hook _ _ => true
  | _ => false
  end.

(** ** One reconciliation over any remote *)

Section Reconciliation.

Context {S : Type} {api : GitlabApi S}.
Variable dest : string.
Variables groupPath repoName : string.

Local Abbreviation projectPath := (groupPath +:+ "/" +:+ repoName).
Local Abbreviation matches := (fun hook => String.eqb (Webhook.url hook) dest).
Local Abbreviation config := (GitlabClient.webhookConfig dest).

(** One reconciliation, as a relation between the world before and the
    outcome: which calls were answered how. *)
Inductive Reconciled (w : World S) : World S -> Result Webhook -> Prop :=
| FetchFails s1 e :
    projectHooksAll projectPath (remote w) = (s1, Throw e) ->
    Reconciled w
      (mkWorld s1 (log w ++ [(ProjectHooks_all projectPath, false)])) (Throw e)
| NoMatch s1 existing s3 res :
    projectHooksAll projectPath (remote w) = (s1, Ok existing) ->
    find matches existing = None ->
    projectHooksAdd projectPath dest config s1 = (s3, res) ->
    Reconciled w
      (mkWorld s3 (log w ++ [ (ProjectHooks_all projectPath, true);
                              (ProjectHooks_add projectPath dest config, isOk res) ]))
      res
| DeleteFails s1 existing hook s2 e :
    projectHooksAll projectPath (remote w) = (s1, Ok existing) ->
    find matches existing = Some hook ->
    projectHooksRemove projectPath (Webhook.id hook) s1 = (s2, Throw e) ->
    Reconciled w
      (mkWorld s2 (log w ++ [ (ProjectHooks_all projectPath, true);
                              (ProjectHooks_remove projectPath (Webhook.id hook), false) ]))
      (Throw e)
| Replaced s1 existing hook s2 s3 res :
    projectHooksAll projectPath (remote w) = (s1, Ok existing) ->
    find matches existing = Some hook ->
    projectHooksRemove projectPath (Webhook.id hook) s1 = (s2, Ok tt) ->
    projectHooksAdd projectPath dest config s2 = (s3, res) ->
    Reconciled w
      (mkWorld s3 (log w ++ [ (ProjectHooks_all projectPath, true);
                              (ProjectHooks_remove projectPath (Webhook.id hook), true);
                              (ProjectHooks_add projectPath dest config, isOk res) ]))
      res.

End Reconciliation.

(** The part of [processRepositories] inside its [try]. *)
Definition manifestRun {S : Type} {api : GitlabApi S} (dest file : string)
    (readFileSync : string -> Result string) : M S unit :=
  content <- (fun w => (w, readFileSync file)) ;;
  forOf (GitlabClient.manifestLines content) (GitlabClient.processLine dest).

(** The part of the [axios] revision's [processRepositories] inside its
    [try], and the exit status its outcome stands for. *)
Definition axiosRun {S : Type} {api : HttpApi S} (dest file : string)
    (readFileSync : string -> Result string) (fuel : nat) : M S (option unit) :=
  content <- (fun w => (w, readFileSync file)) ;;
  AxiosClient.forOfFuel
    (List.filter (fun line => Js.truthy (Js.trim line)) (Js.split "010" content))
    (AxiosClient.processLine dest fuel).

Definition exitStatus (r : Result (option unit)) : option Z :=
  match r with
  | Ok (Some _) => Some 0
  | Ok None => None
  | Throw _ => Some 1
  end.

(** ** Paging *)

(** The remote answers the page requests for a group from page [page] on
    with the pages [pages]: every page but the last holds at least a full
    page of projects, the last one fewer. *)
Inductive Paged {S : Type} {api : HttpApi S} (g : string)
    : Z -> S -> list (list Project) -> S -> Prop :=
| LastPage page s s' projects :
    getGroupProjects g (AxiosClient.pageParams page) s = (s', Ok projects) ->
    Z.of_nat (length projects) < 100 ->
    Paged g page s [projects] s'
| FullPage page s s1 s' projects pages :
    getGroupProjects g (AxiosClient.pageParams page) s = (s1, Ok projects) ->
    100 <= Z.of_nat (length projects) ->
    Paged g (page + 1) s1 pages s' ->
    Paged g page s (projects :: pages) s'.

(** The remote answers the page requests for a group from page [page] on
    with [n] full pages and then fails the next request with [e]. *)
Inductive PagedThenFails {S : Type} {api : HttpApi S} (g : string)
    : Z -> S -> nat -> S -> Error -> Prop :=
| FailsNow page s s' e :
    getGroupProjects g (AxiosClient.pageParams page) s = (s', Throw e) ->
    PagedThenFails g page s 0 s' e
| FullThenFails page s s1 s' projects n e :
    getGroupProjects g (AxiosClient.pageParams page) s = (s1, Ok projects) ->
    100 <= Z.of_nat (length projects) ->
    PagedThenFails g (page + 1) s1 n s' e ->
    PagedThenFails g page s (Datatypes.S n) s' e.

(** [n] completed page requests for consecutive pages, each of size 100. *)
Fixpoint pageRequests (g : string) (page : Z) (n : nat) : list (Call * bool) :=
  match n with
  | O => []
  | Datatypes.S n' =>
      (GET_group_projects g
         [ ("page", Js.VNum page);
           ("per_page", Js.VNum 100);
           ("include_subgroups", Js.VBool true) ], true)
      :: pageRequests g (page + 1) n'
  end.

(** The reference the script derives from a project. *)
Definition refOf (project : Project) : RepositoryRef :=
  let segs := Js.split "/" (Project.path_with_namespace project) in
  RepositoryRef.mk (Js.join "/" (removelast segs)) (List.last segs "").

(** The pages a catalog of projects is served in: full pages of 100, then
    the rest (possibly empty). *)
Fixpoint chunks (fuel : nat) (l : list Project) : list (list Project) :=
  match fuel with
  | O => [l]
  | Datatypes.S fuel' =>
      if (length l <? 100)%nat then [l]
      else take 100 l :: chunks fuel' (drop 100 l)
  end.

(** ** The double *)

(** The webhooks of a list that point at the destination, and the others. *)
Definition matching (dest : string) (l : list Webhook) : list Webhook :=
  List.filter (fun h => String.eqb (Webhook.url h) dest) l.

Definition others (dest : string) (l : list Webhook) : list Webhook :=
  List.filter (fun h => negb (String.eqb (Webhook.url h) dest)) l.

(** Two states of the double with the same data (the outage script aside). *)
Definition same (s s' : Double.t) : Prop :=
  Double.projects s' = Double.projects s
  /\ Double.hooks s' = Double.hooks s
  /\ Double.groups s' = Double.groups s
  /\ Double.next_id s' = Double.next_id s.

(** What one reconciliation does to the double, by outcome: nothing
    ([Untouched]); a webhook appended when none matched ([Added]); the first
    match removed and nothing created because the create call failed
    ([Deleted]); the first match removed and a webhook appended ([Swapped]). *)
Inductive Effect (dest p : string) (s : Double.t)
    : Double.t -> Result Webhook -> Prop :=
| Untouched s' e :
    same s s' -> Effect dest p s s' (Throw e)
| Added pid l h s' :
    Double.projects s !! p = Some pid ->
    Double.hooks s !! pid = Some l ->
    Forall (fun x => Webhook.url x <> dest) l ->
    Webhook.url h = dest ->
    Webhook.id h = Double.next_id s ->
    Double.projects s' = Double.projects s ->
    Double.hooks s' = <[pid := l ++ [h]]> (Double.hooks s) ->
    Double.next_id s' = Double.next_id s + 1 ->
    Effect dest p s s' (Ok h)
| Deleted pid pre hook post s' e :
    Double.projects s !! p = Some pid ->
    Double.hooks s !! pid = Some (pre ++ hook :: post) ->
    Webhook.url hook = dest ->
    Forall (fun x => Webhook.url x <> dest) pre ->
    Double.projects s' = Double.projects s ->
    Double.hooks s' = <[pid := pre ++ post]> (Double.hooks s) ->
    Double.next_id s' = Double.next_id s ->
    Effect dest p s s' (Throw e)
| Swapped pid pre hook post h s' :
    Double.projects s !! p = Some pid ->
    Double.hooks s !! pid = Some (pre ++ hook :: post) ->
    Webhook.url hook = dest ->
    Forall (fun x => Webhook.url x <> dest) pre ->
    Webhook.url h = dest ->
    Webhook.id h = Double.next_id s ->
    Double.projects s' = Double.projects s ->
    Double.hooks s' = <[pid := pre ++ post ++ [h]]> (Double.hooks s) ->
    Double.next_id s' = Double.next_id s + 1 ->
    Effect dest p s s' (Ok h).

(** The webhooks with another url than the destination are the same in
    both states, project by project. *)
Definition Frame (dest : string) (s s' : Double.t) : Prop :=
  forall (pid : Z) (l : list Webhook),
    Double.hooks s !! pid = Some l ->
    exists l', Double.hooks s' !! pid = Some l' /\ others dest l' = others dest l.

(** No project has fewer webhooks on the destination in the second state
    than in the first, and paths name the same projects. *)
Definition Grows (dest : string) (s s' : Double.t) : Prop :=
  Double.projects s' = Double.projects s
  /\ forall (pid : Z) (l : list Webhook),
      Double.hooks s !! pid = Some l ->
      exists l', Double.hooks s' !! pid = Some l'
                 /\ (length (matching dest l) <= length (matching dest l'))%nat.

(** The project at the path holds a webhook on the destination. *)
Definition installed (dest : string) (s : Double.t) (projectPath : string) : Prop :=
  exists l, Double.hooksAt s projectPath = Some l /\ matching dest l <> [].

(** A computation keeps the double well formed and relates the state it
    starts from to the state it leaves by [R] -- always, or only when it
    returns ([onSuccess]). *)
Definition Relates {A : Type} (R : Double.t -> Double.t -> Prop) (onSuccess : bool)
    (m : M Double.t A) : Prop :=
  forall w,
    Double.wf (remote w) ->
    Double.wf (remote (m w).1)
    /\ ((onSuccess = true -> isOk (m w).2 = true) -> R (remote w) (remote (m w).1)).

#[global] Instance wf_dec (s : Double.t) : Decision (Double.wf s).
Proof. unfold Double.wf. apply _. Defined.

(** ** A small remote to run the script on *)

Definition demoUrl : string := "https://hooks.example.com/in".

Definition hookAt (id : Z) (url : string) : Webhook := Double.newHook id url [].

Definition demoProject : Project := Project.mk 2 "teamB/sub/x" "x" "x".

(** Three projects: [teamA/svcA] with a foreign webhook and two webhooks on
    the destination, [teamB/sub/x] without webhooks, [teamB/y] with a webhook
    whose url differs from the destination in letter case only; the group
    [teamB] with its two projects and a group [big] of a hundred. *)
Definition demo : Double.t :=
  Double.mk
    (list_to_map [("teamA/svcA", 1); ("teamB/sub/x", 2); ("teamB/y", 3)])
    (list_to_map
       [ (1, [ hookAt 10 "https://other.example.com/";
               hookAt 11 demoUrl;
               hookAt 12 demoUrl ]);
         (2, []);
         (3, [hookAt 13 "https://hooks.example.com/IN"]) ])
    (list_to_map
       [ ("teamB", [demoProject; Project.mk 3 "teamB/y" "y" "y"]);
         ("big", repeat demoProject 100) ])
    100 [].

Definition demoEnv : Env.t :=
  Env.mk None (Some "glpat-demo") (Some demoUrl) None.

(** The manifest file [repos.txt] with the given content, and nothing else. *)
Definition demoFile (content : string) (name : string) : Result string :=
  if String.eqb name "repos.txt" then Ok content else Throw FileError.

(* ===================================================================== *)
(** * Facts about the string primitives                                   *)
(* ===================================================================== *)

Section StringFacts.

Lemma append_cons (x : ascii) (a b : string) : String x a +:+ b = String x (a +:+ b).
Proof. reflexivity. Qed.

Lemma append_empty_l (a : string) : "" +:+ a = a.
Proof. reflexivity. Qed.

Lemma append_assoc (a b c : string) : (a +:+ b) +:+ c = a +:+ (b +:+ c).
Proof.
  induction a as [|x a IH]; [reflexivity |].
  rewrite !append_cons. now f_equal.
Qed.

Lemma split_nonempty (sep : ascii) (s : string) : Js.split sep s <> [].
Proof.
  destruct s as [|c rest]; simpl; [discriminate |].
  destruct (Ascii.eqb c sep); [discriminate |].
  destruct (Js.split sep rest); discriminate.
Qed.

Lemma split_no_sep (sep : ascii) (s : string) :
  Js.contains sep s = false -> Js.split sep s = [s].
Proof.
  induction s as [|c rest IH]; simpl; [reflexivity |].
  intros H. apply orb_false_iff in H as [Hc Hrest].
  rewrite Hc, (IH Hrest). reflexivity.
Qed.

Lemma split_app (sep : ascii) (a b : string) :
  Js.split sep (a +:+ String sep b) = Js.split sep a ++ Js.split sep b.
Proof.
  induction a as [|c a IH]; [rewrite append_empty_l | rewrite append_cons]; simpl.
  - now rewrite Ascii.eqb_refl.
  - destruct (Ascii.eqb c sep); [now rewrite IH |].
    rewrite IH. pose proof (split_nonempty sep a) as Hne.
    destruct (Js.split sep a); [congruence | reflexivity].
Qed.

Lemma join_split (sep : ascii) (s : string) :
  Js.join (String sep "") (Js.split sep s) = s.
Proof.
  induction s as [|c rest IH]; simpl; [reflexivity |].
  destruct (Ascii.eqb_spec c sep) as [->|Hne].
  - pose proof (split_nonempty sep rest) as Hne.
    destruct (Js.split sep rest) as [|seg segs]; [congruence |].
    change (Js.join (String sep "") ("" :: seg :: segs))
      with ("" +:+ String sep "" +:+ Js.join (String sep "") (seg :: segs)).
    now rewrite IH.
  - destruct (Js.split sep rest) as [|seg segs] eqn:E.
    + now destruct (split_nonempty sep rest).
    + destruct segs as [|seg' segs]; simpl in *; rewrite <- IH; reflexivity.
Qed.

Lemma split_segments (sep : ascii) (s : string) :
  Forall (fun seg => Js.contains sep seg = false) (Js.split sep s).
Proof.
  induction s as [|c rest IH]; simpl.
  - repeat constructor.
  - destruct (Ascii.eqb c sep) eqn:Ec.
    + constructor; [reflexivity | exact IH].
    + destruct (Js.split sep rest) as [|seg segs].
      * repeat constructor. simpl. now rewrite Ec.
      * inversion IH; subst. constructor; [|assumption].
        simpl. rewrite Ec. assumption.
Qed.

Lemma join_snoc (sep : string) (parts : list string) (x : string) :
  parts <> [] ->
  Js.join sep (parts ++ [x]) = Js.join sep parts +:+ sep +:+ x.
Proof.
  induction parts as [|p ps IH]; [congruence |]. intros _.
  destruct ps as [|q ps].
  - reflexivity.
  - change (Js.join sep ((p :: q :: ps) ++ [x]))
      with (p +:+ sep +:+ Js.join sep ((q :: ps) ++ [x])).
    rewrite IH by discriminate.
    change (Js.join sep (p :: q :: ps)) with (p +:+ sep +:+ Js.join sep (q :: ps)).
    now rewrite !append_assoc.
Qed.

Lemma pop_snoc {A : Type} (parts : list A) (x : A) :
  Js.pop (parts ++ [x]) = (Some x, parts).
Proof. unfold Js.pop. rewrite rev_app_distr. simpl. now rewrite rev_involutive. Qed.

Lemma pop_last {A : Type} (parts : list A) (d : A) :
  parts <> [] -> Js.pop parts = (Some (List.last parts d), removelast parts).
Proof.
  intros Hne. rewrite (app_removelast_last d Hne) at 1. apply pop_snoc.
Qed.

(** What [split('/')], [pop()] and [join('/')] make of a path. *)
Lemma pop_split (s : string) :
  Js.pop (Js.split "/" s)
  = (Some (List.last (Js.split "/" s) ""), removelast (Js.split "/" s)).
Proof. apply pop_last, split_nonempty. Qed.

(** The last segment holds no slash; a path with a slash is the group path,
    a slash and the last segment; a path without one is its own last segment
    under the empty group path. *)
Lemma path_segments (s : string) :
  let segs := Js.split "/" s in
  let r := List.last segs "" in
  let g := Js.join "/" (removelast segs) in
  Js.contains "/" r = false
  /\ (Js.contains "/" s = true -> s = g +:+ "/" +:+ r)
  /\ (Js.contains "/" s = false -> g = "" /\ r = s).
Proof.
  cbv zeta.
  pose proof (split_nonempty "/" s) as Hne.
  pose proof (split_segments "/" s) as HF.
  pose proof (join_split "/" s) as Hj.
  pose proof (split_no_sep "/" s) as Hno.
  destruct (exists_last Hne) as (xs & x & E). rewrite E in *. clear E Hne.
  rewrite last_last, removelast_last.
  apply Forall_app in HF as [_ HF]. pose proof (Forall_inv HF) as Hx.
  split; [exact Hx |]. split.
  - intros Hs. destruct xs as [|p ps].
    + simpl in Hj. congruence.
    + rewrite join_snoc in Hj by discriminate. now symmetry.
  - intros Hs. specialize (Hno Hs).
    destruct xs as [|p ps]; [| destruct ps; discriminate].
    simpl in Hno. inversion Hno. now split.
Qed.

(** Conversely: a group path, a slash and a slash-free name split back into
    the two. *)
Lemma pop_split_path (g r : string) :
  Js.contains "/" r = false ->
  Js.pop (Js.split "/" (g +:+ "/" +:+ r)) = (Some r, Js.split "/" g).
Proof.
  intros Hr. change ("/" +:+ r) with (String "/" r).
  rewrite split_app, (split_no_sep _ _ Hr). apply pop_snoc.
Qed.

End StringFacts.

(* ===================================================================== *)
(** * Facts about the effects                                             *)
(* ===================================================================== *)

Section MonadFacts.

Context {S : Type}.

Lemma tryCatch_rethrow {A : Type} (m : M S A) (w : World S) :
  tryCatch m (fun error => throw error) w = m w.
Proof. unfold tryCatch, throw. destruct (m w) as [w' [a|e]]; reflexivity. Qed.

Lemma bind_ok {A B : Type} (m : M S A) (k : A -> M S B) w w' a :
  m w = (w', Ok a) -> bind m k w = k a w'.
Proof. intros H. unfold bind. now rewrite H. Qed.

Lemma bind_throw {A B : Type} (m : M S A) (k : A -> M S B) w w' e :
  m w = (w', Throw e) -> bind m k w = (w', Throw e).
Proof. intros H. unfold bind. now rewrite H. Qed.

Lemma invoke_run {A : Type} (c : Call) (op : S -> S * Result A) w s' r :
  op (remote w) = (s', r) ->
  invoke c op w = (mkWorld s' (log w ++ [(c, isOk r)]), r).
Proof. intros H. unfold invoke. now rewrite H. Qed.

End MonadFacts.

(** The four ways one reconciliation can go, by what the remote answers. *)
Section CreateWebhookRuns.

Context {S : Type} {api : GitlabApi S}.
Variable dest : string.
Variables groupPath repoName : string.

Local Abbreviation projectPath := (groupPath +:+ "/" +:+ repoName).
Local Abbreviation matches := (fun hook => String.eqb (Webhook.url hook) dest).
Local Abbreviation config := (GitlabClient.webhookConfig dest).

Lemma createWebhook_fetch_fails (w : World S) s1 e :
  projectHooksAll projectPath (remote w) = (s1, Throw e) ->
  GitlabClient.createWebhook dest groupPath repoName w
  = (mkWorld s1 (log w ++ [(ProjectHooks_all projectPath, false)]), Throw e).
Proof.
  intros Hall. unfold GitlabClient.createWebhook, GitlabClient.logApiCall.
  rewrite tryCatch_rethrow.
  erewrite bind_throw; [reflexivity |].
  rewrite tryCatch_rethrow. now rewrite (invoke_run _ _ _ _ _ Hall).
Qed.

Lemma createWebhook_no_match (w : World S) s1 existing s3 res :
  projectHooksAll projectPath (remote w) = (s1, Ok existing) ->
  find matches existing = None ->
  projectHooksAdd projectPath dest config s1 = (s3, res) ->
  GitlabClient.createWebhook dest groupPath repoName w
  = (mkWorld s3 (log w ++ [ (ProjectHooks_all projectPath, true);
                            (ProjectHooks_add projectPath dest config, isOk res) ]),
     res).
Proof.
  intros Hall Hfind Hadd. unfold GitlabClient.createWebhook, GitlabClient.logApiCall.
  rewrite tryCatch_rethrow.
  erewrite bind_ok; [| rewrite tryCatch_rethrow; apply (invoke_run _ _ _ _ _ Hall)].
  rewrite Hfind. unfold bind at 1. unfold ret at 1.
  unfold bind. rewrite tryCatch_rethrow.
  erewrite invoke_run by (simpl; exact Hadd). simpl.
  rewrite <- app_assoc. destruct res; reflexivity.
Qed.

Lemma createWebhook_delete_fails (w : World S) s1 existing hook s2 e :
  projectHooksAll projectPath (remote w) = (s1, Ok existing) ->
  find matches existing = Some hook ->
  projectHooksRemove projectPath (Webhook.id hook) s1 = (s2, Throw e) ->
  GitlabClient.createWebhook dest groupPath repoName w
  = (mkWorld s2 (log w ++ [ (ProjectHooks_all projectPath, true);
                            (ProjectHooks_remove projectPath (Webhook.id hook), false) ]),
     Throw e).
Proof.
  intros Hall Hfind Hdel. unfold GitlabClient.createWebhook, GitlabClient.logApiCall.
  rewrite tryCatch_rethrow.
  erewrite bind_ok; [| rewrite tryCatch_rethrow; apply (invoke_run _ _ _ _ _ Hall)].
  rewrite Hfind.
  erewrite bind_throw; [reflexivity |].
  rewrite tryCatch_rethrow. erewrite invoke_run by (simpl; exact Hdel). simpl.
  now rewrite <- app_assoc.
Qed.

Lemma createWebhook_match (w : World S) s1 existing hook s2 s3 res :
  projectHooksAll projectPath (remote w) = (s1, Ok existing) ->
  find matches existing = Some hook ->
  projectHooksRemove projectPath (Webhook.id hook) s1 = (s2, Ok tt) ->
  projectHooksAdd projectPath dest config s2 = (s3, res) ->
  GitlabClient.createWebhook dest groupPath repoName w
  = (mkWorld s3 (log w ++ [ (ProjectHooks_all projectPath, true);
                            (ProjectHooks_remove projectPath (Webhook.id hook), true);
                            (ProjectHooks_add projectPath dest config, isOk res) ]),
     res).
Proof.
  intros Hall Hfind Hdel Hadd. unfold GitlabClient.createWebhook, GitlabClient.logApiCall.
  rewrite tryCatch_rethrow.
  erewrite bind_ok; [| rewrite tryCatch_rethrow; apply (invoke_run _ _ _ _ _ Hall)].
  rewrite Hfind.
  erewrite bind_ok;
    [| rewrite tryCatch_rethrow; apply invoke_run; simpl; exact Hdel].
  unfold bind. rewrite tryCatch_rethrow.
  erewrite invoke_run by (simpl; exact Hadd). simpl.
  rewrite <- !app_assoc. destruct res; reflexivity.
Qed.

Lemma createWebhook_cases (w : World S) :
  Reconciled dest groupPath repoName w
               (GitlabClient.createWebhook dest groupPath repoName w).1
               (GitlabClient.createWebhook dest groupPath repoName w).2.
Proof.
  destruct (projectHooksAll projectPath (remote w)) as [s1 [existing|e]] eqn:Hall.
  - destruct (find matches existing) as [hook|] eqn:Hfind.
    + destruct (projectHooksRemove projectPath (Webhook.id hook) s1)
        as [s2 [[]|e]] eqn:Hdel.
      * destruct (projectHooksAdd projectPath dest config s2) as [s3 res] eqn:Hadd.
        rewrite (createWebhook_match _ _ _ _ _ _ _ Hall Hfind Hdel Hadd).
        eapply Replaced; eassumption.
      * rewrite (createWebhook_delete_fails _ _ _ _ _ _ Hall Hfind Hdel).
        eapply DeleteFails; eassumption.
    + destruct (projectHooksAdd projectPath dest config s1) as [s3 res] eqn:Hadd.
      rewrite (createWebhook_no_match _ _ _ _ _ Hall Hfind Hadd).
      eapply NoMatch; eassumption.
  - rewrite (createWebhook_fetch_fails _ _ _ Hall). now apply FetchFails.
Qed.

End CreateWebhookRuns.

(** ** Two invariants of the call log *)

Section LogFacts.

Context {S : Type}.

Lemma Orderly_ret {A : Type} (a : A) : Orderly (ret a : M S A).
Proof. intros w. exists []. simpl. rewrite app_nil_r. split; [reflexivity|]. left. constructor. Qed.

Lemma Orderly_lift {A : Type} (r : Result A) : Orderly (fun w : World S => (w, r)).
Proof. intros w. exists []. simpl. rewrite app_nil_r. split; [reflexivity|]. left. constructor. Qed.

Lemma Orderly_invoke {A : Type} (c : Call) (op : S -> S * Result A) :
  Orderly (invoke c op).
Proof.
  intros w. unfold invoke. destruct (op (remote w)) as [s' r]. simpl.
  exists [(c, isOk r)]. split; [reflexivity |].
  destruct r as [a|e]; simpl.
  - left. repeat constructor.
  - right. split; [reflexivity |]. exists [], c. split; [reflexivity | constructor].
Qed.

Lemma Orderly_bind {A B : Type} (m : M S A) (k : A -> M S B) :
  Orderly m -> (forall a, Orderly (k a)) -> Orderly (bind m k).
Proof.
  intros Hm Hk w. unfold bind.
  destruct (Hm w) as (d1 & Hlog1 & Ho1).
  destruct (m w) as [w1 [a|e]]; simpl in *.
  - destruct (Hk a w1) as (d2 & Hlog2 & Ho2).
    exists (d1 ++ d2). rewrite Hlog2, Hlog1, app_assoc. split; [reflexivity |].
    destruct Ho1 as [Hc1 | [Hno _]]; [| discriminate].
    destruct Ho2 as [Hc2 | (Hr & d0 & c & -> & Hc0)].
    + left. now apply Forall_app.
    + right. split; [exact Hr |]. exists (d1 ++ d0), c.
      rewrite app_assoc. split; [reflexivity | now apply Forall_app].
  - exists d1. split; [exact Hlog1 |]. destruct Ho1 as [Hc | Hf]; [now left | now right].
Qed.

Lemma Orderly_tryCatch {A : Type} (m : M S A) :
  Orderly m -> Orderly (tryCatch m (fun error => throw error)).
Proof. intros Hm w. rewrite tryCatch_rethrow. apply Hm. Qed.

Lemma Orderly_forOf {A : Type} (xs : list A) (body : A -> M S unit) :
  (forall x, Orderly (body x)) -> Orderly (forOf xs body).
Proof.
  intros Hb. induction xs as [|x xs IH]; simpl.
  - apply Orderly_ret.
  - apply Orderly_bind; [apply Hb | intros _; exact IH].
Qed.

Lemma Emits_ret {A : Type} P (a : A) : Emits P (ret a : M S A).
Proof. intros w. exists []. simpl. rewrite app_nil_r. split; [reflexivity | constructor]. Qed.

Lemma Emits_lift {A : Type} P (r : Result A) : Emits P (fun w : World S => (w, r)).
Proof. intros w. exists []. simpl. rewrite app_nil_r. split; [reflexivity | constructor]. Qed.

Lemma Emits_invoke {A : Type} (P : Call -> Prop) (c : Call) (op : S -> S * Result A) :
  P c -> Emits P (invoke c op).
Proof.
  intros Hc w. unfold invoke. destruct (op (remote w)) as [s' r]. simpl.
  exists [(c, isOk r)]. split; [reflexivity | repeat constructor; exact Hc].
Qed.

Lemma Emits_bind {A B : Type} P (m : M S A) (k : A -> M S B) :
  Emits P m -> (forall a, Emits P (k a)) -> Emits P (bind m k).
Proof.
  intros Hm Hk w. unfold bind.
  destruct (Hm w) as (d1 & Hlog1 & H1).
  destruct (m w) as [w1 [a|e]]; simpl in *.
  - destruct (Hk a w1) as (d2 & Hlog2 & H2).
    exists (d1 ++ d2). rewrite Hlog2, Hlog1, app_assoc.
    split; [reflexivity | now apply Forall_app].
  - now exists d1.
Qed.

Lemma Emits_tryCatch {A : Type} P (m : M S A) :
  Emits P m -> Emits P (tryCatch m (fun error => throw error)).
Proof. intros Hm w. rewrite tryCatch_rethrow. apply Hm. Qed.

Lemma Emits_forOf {A : Type} P (xs : list A) (body : A -> M S unit) :
  (forall x, Emits P (body x)) -> Emits P (forOf xs body).
Proof.
  intros Hb. induction xs as [|x xs IH]; simpl.
  - apply Emits_ret.
  - apply Emits_bind; [apply Hb | intros _; exact IH].
Qed.

Lemma Emits_weaken {A : Type} (P Q : Call -> Prop) (m : M S A) :
  (forall c, P c -> Q c) -> Emits P m -> Emits Q m.
Proof.
  intros HPQ Hm w. destruct (Hm w) as (d & Hlog & Hd). exists d.
  split; [exact Hlog |]. eapply Forall_impl; [exact Hd |]. intros e. apply HPQ.
Qed.

End LogFacts.

(* ===================================================================== *)
(** * The script over any remote                                          *)
(* ===================================================================== *)

Section ScriptFacts.

Context {S : Type} {api : GitlabApi S}.
Variable dest : string.

Lemma logApiCall_run {T : Type} (operation : string) (m : M S T) (w : World S) :
  GitlabClient.logApiCall operation m w = m w.
Proof. apply tryCatch_rethrow. Qed.

Lemma Orderly_createWebhook g r : Orderly (GitlabClient.createWebhook dest g r).
Proof.
  apply Orderly_tryCatch, Orderly_bind.
  - apply Orderly_tryCatch, Orderly_invoke.
  - intros existing. apply Orderly_bind.
    + destruct (find _ existing).
      * apply Orderly_tryCatch, Orderly_invoke.
      * apply Orderly_ret.
    + intros _. apply Orderly_bind.
      * apply Orderly_tryCatch, Orderly_invoke.
      * intros h. apply Orderly_ret.
Qed.

Lemma Orderly_getAllGroupRepositories g :
  Orderly (GitlabClient.getAllGroupRepositories g).
Proof.
  apply Orderly_tryCatch, Orderly_bind.
  - apply Orderly_tryCatch, Orderly_invoke.
  - intros projects. apply Orderly_ret.
Qed.

Lemma Orderly_processLine line : Orderly (GitlabClient.processLine dest line).
Proof.
  unfold GitlabClient.processLine. destruct (Js.pop _) as [last parts].
  destruct (String.eqb _ _).
  - apply Orderly_bind; [apply Orderly_getAllGroupRepositories |].
    intros refs. apply Orderly_forOf. intros ref.
    apply Orderly_bind; [apply Orderly_createWebhook | intros _; apply Orderly_ret].
  - apply Orderly_bind; [apply Orderly_createWebhook | intros _; apply Orderly_ret].
Qed.

Lemma Emits_createWebhook_on g r :
  Emits (hookCallOn (g +:+ "/" +:+ r)) (GitlabClient.createWebhook dest g r).
Proof.
  apply Emits_tryCatch, Emits_bind.
  - apply Emits_tryCatch, Emits_invoke. reflexivity.
  - intros existing. apply Emits_bind.
    + destruct (find _ existing).
      * apply Emits_tryCatch, Emits_invoke. reflexivity.
      * apply Emits_ret.
    + intros _. apply Emits_bind.
      * apply Emits_tryCatch, Emits_invoke. reflexivity.
      * intros h. apply Emits_ret.
Qed.

Lemma Emits_createWebhook_fixed g r :
  Emits (fixedCreate dest) (GitlabClient.createWebhook dest g r).
Proof.
  apply Emits_tryCatch, Emits_bind.
  - apply Emits_tryCatch, Emits_invoke. exact I.
  - intros existing. apply Emits_bind.
    + destruct (find _ existing).
      * apply Emits_tryCatch, Emits_invoke. exact I.
      * apply Emits_ret.
    + intros _. apply Emits_bind.
      * apply Emits_tryCatch, Emits_invoke. split; reflexivity.
      * intros h. apply Emits_ret.
Qed.

Lemma Emits_processLine_fixed line :
  Emits (fixedCreate dest) (GitlabClient.processLine dest line).
Proof.
  unfold GitlabClient.processLine. destruct (Js.pop _) as [last parts].
  destruct (String.eqb _ _).
  - apply Emits_bind.
    + apply Emits_tryCatch, Emits_bind.
      * apply Emits_tryCatch, Emits_invoke. exact I.
      * intros projects. apply Emits_ret.
    + intros refs. apply Emits_forOf. intros ref.
      apply Emits_bind; [apply Emits_createWebhook_fixed | intros _; apply Emits_ret].
  - apply Emits_bind; [apply Emits_createWebhook_fixed | intros _; apply Emits_ret].
Qed.

Lemma processRepositories_run file readFileSync (w : World S) :
  GitlabClient.processRepositories dest file readFileSync w
  = ((manifestRun dest file readFileSync w).1,
     if isOk (manifestRun dest file readFileSync w).2 then 0 else 1).
Proof.
  unfold GitlabClient.processRepositories. fold (manifestRun dest file readFileSync).
  destruct (manifestRun dest file readFileSync w) as [w' [[]|e]]; reflexivity.
Qed.

Lemma Orderly_manifestRun file readFileSync :
  Orderly (manifestRun dest file readFileSync).
Proof.
  apply Orderly_bind; [apply Orderly_lift |].
  intros content. apply Orderly_forOf, Orderly_processLine.
Qed.

Lemma Emits_manifestRun_fixed file readFileSync :
  Emits (fixedCreate dest) (manifestRun dest file readFileSync).
Proof.
  apply Emits_bind; [apply Emits_lift |].
  intros content. apply Emits_forOf, Emits_processLine_fixed.
Qed.

End ScriptFacts.

(** A failed call in an orderly stretch is its last call, and the outcome is
    the exception. *)
Lemma orderly_failed_last {A : Type} (d : list (Call * bool)) (r : Result A)
    pre c post :
  orderly d r -> d = pre ++ (c, false) :: post -> post = [] /\ isOk r = false.
Proof.
  intros [Hclean | (Hr & d0 & c0 & -> & Hclean)] Hd.
  - subst d. apply Forall_app in Hclean as [_ Hc].
    apply Forall_inv in Hc. discriminate.
  - split; [| exact Hr].
    destruct post as [|x post] using rev_ind; [reflexivity |]. exfalso.
    change (pre ++ (c, false) :: post ++ [x])
      with (pre ++ ((c, false) :: post) ++ [x]) in Hd.
    rewrite app_assoc in Hd. apply app_inj_tail in Hd as [Hd _].
    subst d0. apply Forall_app in Hclean as [_ Hc].
    apply Forall_inv in Hc. discriminate.
Qed.

Section FindFacts.

Variable dest : string.

Local Abbreviation matches := (fun hook => String.eqb (Webhook.url hook) dest).

Lemma find_first (l : list Webhook) (h : Webhook) :
  find matches l = Some h <->
  exists pre post, l = pre ++ h :: post /\ Webhook.url h = dest
                   /\ Forall (fun x => Webhook.url x <> dest) pre.
Proof.
  induction l as [|x l IH]; simpl.
  - split; [discriminate |]. intros (pre & post & E & _). now destruct pre.
  - destruct (String.eqb_spec (Webhook.url x) dest) as [Hx|Hx].
    + split.
      * intros [= ->]. exists [], l. repeat split; [assumption | constructor].
      * intros (pre & post & E & Hh & Hpre). destruct pre as [|y pre].
        -- simpl in E. congruence.
        -- simpl in E. injection E as -> ->. apply Forall_inv in Hpre. contradiction.
    + rewrite IH. split.
      * intros (pre & post & -> & Hh & Hpre). exists (x :: pre), post.
        repeat split; [assumption | now constructor].
      * intros (pre & post & E & Hh & Hpre). destruct pre as [|y pre].
        -- simpl in E. injection E as -> ->. contradiction.
        -- simpl in E. injection E as -> ->. exists pre, post.
           repeat split; [assumption | now apply Forall_inv_tail in Hpre].
Qed.

Lemma find_nothing (l : list Webhook) :
  find matches l = None <-> Forall (fun x => Webhook.url x <> dest) l.
Proof.
  induction l as [|x l IH]; simpl.
  - split; [constructor | reflexivity].
  - destruct (String.eqb_spec (Webhook.url x) dest) as [Hx|Hx].
    + split; [discriminate |]. intros HF. apply Forall_inv in HF. contradiction.
    + rewrite IH. split.
      * now constructor.
      * apply Forall_inv_tail.
Qed.

Lemma find_present (l : list Webhook) :
  (exists h, In h l /\ Webhook.url h = dest) -> exists h, find matches l = Some h.
Proof.
  intros (h & Hin & Hh). destruct (find matches l) as [h'|] eqn:E; [now exists h' |].
  apply find_nothing in E. rewrite List.Forall_forall in E. now destruct (E h Hin).
Qed.

End FindFacts.

(** C6: every webhook the script creates carries the destination URL
    unchanged, push, merge-request and issue events and SSL verification set
    to true, no other flag, and the hard-coded token, whatever the
    environment supplies. *)
Theorem created_webhook_is_fixed :
  forall (S : Type) (api : GitlabApi S) (env : Env.t) (validUrl : string -> bool)
         (readFileSync : string -> Result string) (s : S),
    Forall
      (fun e =>
         forall projectPath url options,
           e.1 = ProjectHooks_add projectPath url options ->
           Env.WEBHOOK_URL env = Some url /\
           options = [ ("url", Js.VStr url);
                       ("push_events", Js.VBool true);
                       ("merge_requests_events", Js.VBool true);
                       ("issues_events", Js.VBool true);
                       ("enable_ssl_verification", Js.VBool true);
                       ("token", Js.VStr "secret-token") ])
      (log (GitlabClient.main env validUrl readFileSync (init s)).1).
Proof.
  intros S api env validUrl readFileSync s. unfold GitlabClient.main.
  destruct (missing (Env.GITLAB_PAT env)); [constructor |].
  destruct (Env.WEBHOOK_URL env) as [dest|]; [| constructor].
  destruct (negb (Js.truthy dest)); [constructor |].
  destruct (validUrl dest); [| constructor].
  rewrite processRepositories_run. simpl.
  destruct (Emits_manifestRun_fixed dest
              (orDefault (Env.REPOS_FILE env) "repos.txt") readFileSync (init s))
    as (d & -> & Hd).
  simpl. eapply Forall_impl; [exact Hd |].
  intros [c ok] Hc projectPath url options E. simpl in *. subst c.
  destruct Hc as [-> ->]. split; reflexivity.
Qed.

(** C7: when a call to the remote fails during a run -- a fetch, a delete or
    a create, for whichever repository -- that call is the last call of the
    run and the process exits with status 1: no later manifest entry or
    repository is touched and nothing is re-created after a failed create. *)
Theorem failed_call_ends_run :
  forall (S : Type) (api : GitlabApi S) (env : Env.t) (validUrl : string -> bool)
         (readFileSync : string -> Result string) (s : S)
         (pre post : list (Call * bool)) (c : Call),
    log (GitlabClient.main env validUrl readFileSync (init s)).1
      = pre ++ (c, false) :: post ->
    post = [] /\ (GitlabClient.main env validUrl readFileSync (init s)).2 = 1.
Proof.
  intros S api env validUrl readFileSync s pre post c. unfold GitlabClient.main.
  assert (Hnil : forall l : list (Call * bool), [] = pre ++ (c, false) :: l -> False)
    by (intros l E; now destruct pre).
  destruct (missing (Env.GITLAB_PAT env)); [intros E; now destruct (Hnil _ E) |].
  destruct (Env.WEBHOOK_URL env) as [dest|]; [| intros E; now destruct (Hnil _ E)].
  destruct (negb (Js.truthy dest)); [intros E; now destruct (Hnil _ E) |].
  destruct (validUrl dest); [| intros E; now destruct (Hnil _ E)].
  rewrite processRepositories_run. simpl.
  destruct (Orderly_manifestRun dest
              (orDefault (Env.REPOS_FILE env) "repos.txt") readFileSync (init s))
    as (d & Hlog & Hd).
  rewrite Hlog. simpl. intros E.
  destruct (orderly_failed_last _ _ _ _ _ Hd E) as [-> Hr].
  split; [reflexivity |]. now rewrite Hr.
Qed.

Section LineFacts.

Context {S : Type} {api : GitlabApi S}.
Variable dest : string.

Lemma discard_run {A : Type} (m : M S A) (w : World S) :
  (m ;;; ret tt) w
  = ((m w).1, match (m w).2 with Ok _ => Ok tt | Throw e => Throw e end).
Proof. unfold bind, ret. destruct (m w) as [w' [a|e]]; reflexivity. Qed.

Lemma processLine_direct_run (line : string) (w : World S) :
  List.last (Js.split "/" line) "" <> "*" ->
  GitlabClient.processLine dest line w
  = (GitlabClient.createWebhook dest
       (Js.join "/" (removelast (Js.split "/" line)))
       (List.last (Js.split "/" line) "") ;;; ret tt) w.
Proof.
  intros Hlast. unfold GitlabClient.processLine. rewrite pop_split.
  cbv beta iota zeta. unfold Js.nonNull.
  apply String.eqb_neq in Hlast. now rewrite Hlast.
Qed.

Lemma processLine_wildcard_run (line : string) (w : World S) :
  List.last (Js.split "/" line) "" = "*" ->
  GitlabClient.processLine dest line w
  = (repositories <-
       GitlabClient.getAllGroupRepositories
         (Js.join "/" (removelast (Js.split "/" line))) ;;
     forOf repositories
       (fun repo =>
          GitlabClient.createWebhook dest
            (RepositoryRef.groupPath repo) (RepositoryRef.repoName repo) ;;;
          ret tt)) w.
Proof.
  intros Hlast. unfold GitlabClient.processLine. rewrite pop_split.
  cbv beta iota zeta. unfold Js.nonNull. now rewrite Hlast.
Qed.

(** A line written as group path, slash, slash-free name that is not the
    star is reconciled as that group path and that name. *)
Lemma processLine_path (g r : string) (w : World S) :
  Js.contains "/" r = false ->
  r <> "*" ->
  GitlabClient.processLine dest (g +:+ "/" +:+ r) w
  = (GitlabClient.createWebhook dest g r ;;; ret tt) w.
Proof.
  intros Hr Hstar. unfold GitlabClient.processLine.
  rewrite (pop_split_path g r Hr). cbv beta iota zeta. unfold Js.nonNull.
  apply String.eqb_neq in Hstar. rewrite Hstar. now rewrite join_split.
Qed.

(** The filter of the manifest keeps every line that is not blank. *)
Lemma manifestLines_keeps (content line : string) :
  In line (Js.split "010" content) ->
  Js.truthy (Js.trim line) = true ->
  In line (GitlabClient.manifestLines content).
Proof. intros Hin Hkeep. apply filter_In. now split. Qed.

(** The expansion over the client library is a single call, with page size
    100 and subgroups included; the library does the paging. *)
Lemma getAllGroupRepositories_call g (w : World S) :
  exists ok,
    log (GitlabClient.getAllGroupRepositories g w).1
    = log w ++ [ (Groups_projects g
                    [ ("include_subgroups", Js.VBool true);
                      ("per_page", Js.VNum 100) ], ok) ].
Proof.
  unfold GitlabClient.getAllGroupRepositories, GitlabClient.logApiCall.
  rewrite tryCatch_rethrow. unfold bind. rewrite tryCatch_rethrow.
  unfold invoke.
  destruct (groupsProjects g GitlabClient.groupOptions (remote w)) as [s' [ps|e]];
    simpl; eexists; reflexivity.
Qed.

(** Every reconciliation begins by fetching the webhooks of the project. *)
Lemma createWebhook_first_call g r (w : World S) :
  exists ok rest,
    log (GitlabClient.createWebhook dest g r w).1
      = log w ++ (ProjectHooks_all (g +:+ "/" +:+ r), ok) :: rest
    /\ (ok = false ->
        rest = [] /\ isOk (GitlabClient.createWebhook dest g r w).2 = false).
Proof.
  destruct (createWebhook_cases dest g r w); simpl; eexists _, _;
    (split; [reflexivity | try discriminate]).
  intros _. now split.
Qed.

Lemma getAllGroupRepositories_ok g (w : World S) s1 projects :
  groupsProjects g GitlabClient.groupOptions (remote w) = (s1, Ok projects) ->
  GitlabClient.getAllGroupRepositories g w
  = (mkWorld s1 (log w ++ [(Groups_projects g GitlabClient.groupOptions, true)]),
     Ok (map refOf projects)).
Proof.
  intros Hcall. unfold GitlabClient.getAllGroupRepositories, GitlabClient.logApiCall.
  rewrite tryCatch_rethrow.
  erewrite bind_ok; [| rewrite tryCatch_rethrow; apply (invoke_run _ _ _ _ _ Hcall)].
  unfold ret. simpl. do 2 f_equal.
  apply map_ext. intros project. unfold refOf. now rewrite pop_split.
Qed.

Lemma getAllGroupRepositories_fails g (w : World S) s1 e :
  groupsProjects g GitlabClient.groupOptions (remote w) = (s1, Throw e) ->
  GitlabClient.getAllGroupRepositories g w
  = (mkWorld s1 (log w ++ [(Groups_projects g GitlabClient.groupOptions, false)]),
     Throw e).
Proof.
  intros Hcall. unfold GitlabClient.getAllGroupRepositories, GitlabClient.logApiCall.
  rewrite tryCatch_rethrow.
  erewrite bind_throw; [reflexivity |].
  rewrite tryCatch_rethrow. apply (invoke_run _ _ _ _ _ Hcall).
Qed.

(** The loop over the references of an expansion makes webhook calls only. *)
Lemma Emits_reconcile_all (refs : list RepositoryRef) :
  Emits (fun c => exists p, hookCallOn p c)
    (forOf refs
       (fun repo =>
          GitlabClient.createWebhook dest
            (RepositoryRef.groupPath repo) (RepositoryRef.repoName repo) ;;;
          ret tt)).
Proof.
  apply Emits_forOf. intros ref. apply Emits_bind; [| intros _; apply Emits_ret].
  eapply Emits_weaken; [| apply Emits_createWebhook_on]. intros c Hc. eauto.
Qed.

(** A loop that came through its first entries goes on with the others. *)
Lemma forOf_app {A : Type} (xs ys : list A) (body : A -> M S unit) (w w1 : World S) :
  forOf xs body w = (w1, Ok tt) ->
  forOf (xs ++ ys) body w = forOf ys body w1.
Proof.
  revert w. induction xs as [|x xs IH]; intros w Hrun; cbn [app forOf] in *.
  - unfold ret in Hrun. now injection Hrun as ->.
  - destruct (body x w) as [w' [[]|e]] eqn:Hx.
    + rewrite (bind_ok _ _ _ _ _ Hx) in Hrun. rewrite (bind_ok _ _ _ _ _ Hx).
      now apply IH.
    + rewrite (bind_throw _ _ _ _ _ Hx) in Hrun. discriminate.
Qed.

(** A line without a slash, other than the star, is the repository with the
    empty group path. *)
Lemma processLine_bare (line : string) (w : World S) :
  Js.contains "/" line = false ->
  line <> "*" ->
  GitlabClient.processLine dest line w
  = (GitlabClient.createWebhook dest "" line ;;; ret tt) w.
Proof.
  intros Hno Hstar. destruct (path_segments line) as (_ & _ & Hparts).
  destruct (Hparts Hno) as [Hg Hr].
  rewrite processLine_direct_run by (rewrite Hr; exact Hstar).
  now rewrite Hg, Hr.
Qed.

Lemma bare_line_rejected (line : string) (w : World S) :
  Js.contains "/" line = false ->
  line <> "*" ->
  isOk (projectHooksAll ("/" +:+ line) (remote w)).2 = false ->
  isOk (GitlabClient.processLine dest line w).2 = false.
Proof.
  intros Hno Hstar Hrej. rewrite (processLine_bare line w Hno Hstar), discard_run.
  destruct (projectHooksAll ("/" +:+ line) (remote w)) as [s1 [l|e]] eqn:Hall;
    [discriminate Hrej |].
  now rewrite (createWebhook_fetch_fails dest "" line w s1 e Hall).
Qed.

Lemma forOf_rejected (lines : list string) (line : string) :
  Js.contains "/" line = false ->
  line <> "*" ->
  (forall s, isOk (projectHooksAll ("/" +:+ line) s).2 = false) ->
  In line lines ->
  forall w, isOk (forOf lines (GitlabClient.processLine dest) w).2 = false.
Proof.
  intros Hno Hstar Hrej. induction lines as [|x xs IH]; intros Hin w;
    [contradiction |].
  cbn [forOf]. destruct (GitlabClient.processLine dest x w) as [w1 [[]|e]] eqn:Hx.
  - rewrite (bind_ok _ _ _ _ _ Hx). destruct Hin as [->|Hin]; [| now apply IH].
    pose proof (bare_line_rejected line w Hno Hstar (Hrej (remote w))) as Hfail.
    rewrite Hx in Hfail. discriminate.
  - now rewrite (bind_throw _ _ _ _ _ Hx).
Qed.

(** The lone star is the wildcard on the empty group path: it begins with
    the listing of that group. *)
Lemma processLine_lone_star (w : World S) :
  GitlabClient.processLine dest "*" w
  = (repositories <- GitlabClient.getAllGroupRepositories "" ;;
     forOf repositories
       (fun repo =>
          GitlabClient.createWebhook dest
            (RepositoryRef.groupPath repo) (RepositoryRef.repoName repo) ;;;
          ret tt)) w
  /\ exists ok rest,
      log (GitlabClient.processLine dest "*" w).1
      = log w ++ (Groups_projects "" GitlabClient.groupOptions, ok) :: rest.
Proof.
  pose proof (processLine_wildcard_run "*" w eq_refl) as Hrun.
  change (Js.join "/" (removelast (Js.split "/" "*"))) with "" in Hrun.
  split; [exact Hrun |]. rewrite Hrun.
  destruct (getAllGroupRepositories_call "" w) as (ok & Hlist).
  destruct (GitlabClient.getAllGroupRepositories "" w) as [w1 [repos|e]] eqn:Hexp;
    simpl in Hlist.
  - rewrite (bind_ok _ _ _ _ _ Hexp).
    assert (Hloop : Emits (fun _ => True)
                      (forOf repos
                         (fun repo =>
                            GitlabClient.createWebhook dest
                              (RepositoryRef.groupPath repo)
                              (RepositoryRef.repoName repo) ;;;
                            ret tt))).
    { apply Emits_forOf. intros ref.
      apply Emits_bind; [| intros _; apply Emits_ret].
      eapply Emits_weaken; [| apply Emits_createWebhook_on]. intros c _. exact I. }
    destruct (Hloop w1) as (d & Hlog & _).
    exists ok, d. rewrite Hlog, Hlist, <- app_assoc. reflexivity.
  - rewrite (bind_throw _ _ _ _ _ Hexp). exists ok, []. exact Hlist.
Qed.

End LineFacts.

(** C3: in one reconciliation whose fetch returned [existing]: if a webhook
    of [existing] has exactly the destination URL, the first such webhook is
    deleted by its id, and the create call is issued only after that delete
    has completed (a failed delete is the last call); if none has, no delete
    call is issued and the create call follows the fetch at once. *)
Theorem delete_precedes_create :
  forall (S : Type) (api : GitlabApi S) (dest g r : string) (w : World S)
         (s1 : S) (existing : list Webhook),
    projectHooksAll (g +:+ "/" +:+ r) (remote w) = (s1, Ok existing) ->
    let p := g +:+ "/" +:+ r in
    let create := ProjectHooks_add p dest (GitlabClient.webhookConfig dest) in
    let after := log (GitlabClient.createWebhook dest g r w).1 in
    ((exists h, In h existing /\ Webhook.url h = dest) ->
     exists pre hook post,
       existing = pre ++ hook :: post
       /\ Webhook.url hook = dest
       /\ Forall (fun h => Webhook.url h <> dest) pre
       /\ (after = log w ++ [ (ProjectHooks_all p, true);
                              (ProjectHooks_remove p (Webhook.id hook), false) ]
           \/ exists ok,
               after = log w ++ [ (ProjectHooks_all p, true);
                                  (ProjectHooks_remove p (Webhook.id hook), true);
                                  (create, ok) ]))
    /\ (Forall (fun h => Webhook.url h <> dest) existing ->
        exists ok, after = log w ++ [ (ProjectHooks_all p, true); (create, ok) ]).
Proof.
  intros S api dest g r w s1 existing Hall p create after. subst p create after.
  split.
  - intros Hex. apply (find_present dest) in Hex as [hook Hfind].
    pose proof Hfind as Hfirst.
    apply find_first in Hfirst as (pre & post & -> & Hurl & Hpre).
    exists pre, hook, post. repeat split; try assumption.
    destruct (createWebhook_cases dest g r w) as
      [s e H1 | s ex s3 res H1 H2 H3 | s ex hk s2 e H1 H2 H3
       | s ex hk s2 s3 res H1 H2 H3 H4];
      rewrite Hall in H1; try discriminate; injection H1 as <- <-;
      rewrite Hfind in H2; try discriminate; injection H2 as <-; simpl.
    + now left.
    + right. now exists (isOk res).
  - intros Hnone. apply find_nothing in Hnone.
    destruct (createWebhook_cases dest g r w) as
      [s e H1 | s ex s3 res H1 H2 H3 | s ex hk s2 e H1 H2 H3
       | s ex hk s2 s3 res H1 H2 H3 H4];
      rewrite Hall in H1; try discriminate; injection H1 as <- <-;
      rewrite Hnone in H2; try discriminate; simpl.
    now exists (isOk res).
Qed.

(** C4: a manifest line whose last slash-separated segment is not the star
    is reconciled as exactly one repository -- group path the segments before
    the last joined by slashes, repository name the last segment -- and the
    only calls made for it are the webhook calls on that repository: none to
    list a group. *)
Theorem direct_entry_resolution :
  forall (S : Type) (api : GitlabApi S) (dest line : string) (w : World S),
    List.last (Js.split "/" line) "" <> "*" ->
    let groupPath := Js.join "/" (removelast (Js.split "/" line)) in
    let repoName := List.last (Js.split "/" line) "" in
    GitlabClient.processLine dest line w
    = (GitlabClient.createWebhook dest groupPath repoName ;;; ret tt) w
    /\ exists d,
        log (GitlabClient.processLine dest line w).1 = log w ++ d
        /\ Forall (fun e => hookCallOn (groupPath +:+ "/" +:+ repoName) e.1) d.
Proof.
  intros S api dest line w Hlast groupPath repoName.
  rewrite (processLine_direct_run dest line w Hlast). fold groupPath repoName.
  split; [reflexivity |]. rewrite discard_run. simpl.
  apply Emits_createWebhook_on.
Qed.

(** C5: what a wildcard expansion returns is one reference per project the
    remote listed, in the listed order, each cut from the project's own
    [path_with_namespace]: the name is its last segment (free of slashes),
    the group path the segments before it joined by slashes -- the group the
    expansion was asked for plays no part. *)
Theorem expansion_uses_project_paths :
  forall (S : Type) (api : GitlabApi S) (g : string) (w : World S)
         (s' : S) (projects : list Project),
    groupsProjects g GitlabClient.groupOptions (remote w) = (s', Ok projects) ->
    exists refs,
      (GitlabClient.getAllGroupRepositories g w).2 = Ok refs
      /\ Forall2
           (fun project ref =>
              let full := Project.path_with_namespace project in
              RepositoryRef.repoName ref = List.last (Js.split "/" full) ""
              /\ RepositoryRef.groupPath ref
                 = Js.join "/" (removelast (Js.split "/" full))
              /\ Js.contains "/" (RepositoryRef.repoName ref) = false
              /\ (Js.contains "/" full = true ->
                  full = RepositoryRef.groupPath ref +:+ "/"
                         +:+ RepositoryRef.repoName ref))
           projects refs.
Proof.
  intros S api g w s' projects Hcall.
  unfold GitlabClient.getAllGroupRepositories, GitlabClient.logApiCall.
  rewrite tryCatch_rethrow.
  erewrite bind_ok; [| rewrite tryCatch_rethrow; apply (invoke_run _ _ _ _ _ Hcall)].
  eexists. split; [reflexivity |].
  clear Hcall. induction projects as [|project projects IH]; simpl; constructor.
  - rewrite pop_split. simpl.
    destruct (path_segments (Project.path_with_namespace project)) as (H1 & H2 & _).
    repeat split; assumption.
  - exact IH.
Qed.

(** C8 (as amended): a manifest line without a slash, other than the lone
    star, is not skipped and not validated: it is reconciled as the
    repository with the empty group path and the whole line as name, so the
    first call made for it fetches the webhooks of the project path that is
    a slash followed by the line, and when that call fails nothing more is
    called for the line and the line throws.  Wherever the line stands in
    the manifest: once the entries before it came through, a failure of the
    line ends the run there with exit status 1; and on a remote that rejects
    the path, no run over a manifest holding the line ends with status 0.
    The lone star is a wildcard on the empty group path, on every remote:
    its first call lists that group. *)
Theorem line_without_slash :
  forall (S : Type) (api : GitlabApi S) (dest line : string) (w : World S),
    Js.contains "/" line = false ->
    line <> "*" ->
    GitlabClient.processLine dest line w
    = (GitlabClient.createWebhook dest "" line ;;; ret tt) w
    /\ (exists ok rest,
          log (GitlabClient.processLine dest line w).1
            = log w ++ (ProjectHooks_all ("/" +:+ line), ok) :: rest
          /\ (ok = false ->
              rest = [] /\ isOk (GitlabClient.processLine dest line w).2 = false))
    /\ (forall (file : string) (readFileSync : string -> Result string)
               (content : string) (before after : list string) (w0 : World S),
          readFileSync file = Ok content ->
          GitlabClient.manifestLines content = before ++ line :: after ->
          forOf before (GitlabClient.processLine dest) w0 = (w, Ok tt) ->
          isOk (GitlabClient.processLine dest line w).2 = false ->
          GitlabClient.processRepositories dest file readFileSync w0
          = ((GitlabClient.processLine dest line w).1, 1))
    /\ ((forall s : S, isOk (projectHooksAll ("/" +:+ line) s).2 = false) ->
        forall (file : string) (readFileSync : string -> Result string)
               (content : string) (w0 : World S),
          readFileSync file = Ok content ->
          In line (GitlabClient.manifestLines content) ->
          (GitlabClient.processRepositories dest file readFileSync w0).2 = 1)
    /\ (GitlabClient.processLine dest "*" w
        = (repositories <- GitlabClient.getAllGroupRepositories "" ;;
           forOf repositories
             (fun repo =>
                GitlabClient.createWebhook dest
                  (RepositoryRef.groupPath repo) (RepositoryRef.repoName repo) ;;;
                ret tt)) w
        /\ exists ok rest,
            log (GitlabClient.processLine dest "*" w).1
            = log w ++ (Groups_projects "" GitlabClient.groupOptions, ok) :: rest).
Proof.
  intros S api dest line w Hno Hstar.
  pose proof (processLine_bare dest line w Hno Hstar) as Hrun.
  split; [exact Hrun |]. split; [| split; [| split]].
  - destruct (createWebhook_first_call dest "" line w) as (ok & rest & Hlog & Hfail).
    exists ok, rest. rewrite Hrun, discard_run. simpl. split; [exact Hlog |].
    intros Hok. destruct (Hfail Hok) as [-> Hres]. split; [reflexivity |].
    destruct (GitlabClient.createWebhook dest "" line w).2; [discriminate | reflexivity].
  - intros file readFileSync content before after w0 Hread Hlines Hbefore Hfail.
    destruct (GitlabClient.processLine dest line w) as [w' [[]|e]] eqn:Hline;
      [discriminate Hfail |].
    assert (Hm : manifestRun dest file readFileSync w0 = (w', Throw e)).
    { unfold manifestRun. erewrite bind_ok by (now rewrite Hread).
      rewrite Hlines, (forOf_app _ _ _ _ _ Hbefore). cbn [forOf].
      apply bind_throw. exact Hline. }
    now rewrite processRepositories_run, Hm.
  - intros Hrej file readFileSync content w0 Hread Hin.
    rewrite processRepositories_run. simpl.
    assert (Hm : manifestRun dest file readFileSync w0
                 = forOf (GitlabClient.manifestLines content)
                     (GitlabClient.processLine dest) w0).
    { unfold manifestRun. now erewrite bind_ok by (now rewrite Hread). }
    now rewrite Hm, (forOf_rejected dest _ line Hno Hstar Hrej Hin w0).
  - apply processLine_lone_star.
Qed.

(* ===================================================================== *)
(** * The script against the test double                                  *)
(* ===================================================================== *)

Section DoubleFacts.

Import Double.

Lemma same_refl s : same s s.
Proof. now repeat split. Qed.

Lemma same_trans s1 s2 s3 : same s1 s2 -> same s2 s3 -> same s1 s3.
Proof. unfold same. intros (?&?&?&?) (?&?&?&?). repeat split; congruence. Qed.

Lemma same_withFaults s f : same s (withFaults s f).
Proof. now repeat split. Qed.

Lemma same_hooksAt s s' p : same s s' -> hooksAt s' p = hooksAt s p.
Proof. intros (Hp & Hh & _). unfold hooksAt. now rewrite Hp, Hh. Qed.

Lemma same_wf s s' : same s s' -> wf s -> wf s'.
Proof. intros (_ & Hh & _ & Hn). unfold wf. now rewrite Hh, Hn. Qed.

Lemma request_inv {A : Type} (handler : t -> t * Result A) s s' r :
  request handler s = (s', r) ->
  exists s0, same s s0
             /\ ((s' = s0 /\ r = Throw NetworkError) \/ handler s0 = (s', r)).
Proof.
  unfold request. destruct (faults s) as [|[] rest]; intros H.
  - exists s. split; [apply same_refl | now right].
  - exists (withFaults s rest). split; [apply same_withFaults |].
    left. now injection H as <- <-.
  - exists (withFaults s rest). split; [apply same_withFaults | now right].
Qed.

Lemma request_quiet {A : Type} (handler : t -> t * Result A) s :
  faults s = [] -> request handler s = handler s.
Proof. intros H. unfold request. now rewrite H. Qed.

Lemma all_inv p s s1 r :
  projectHooksAll p s = (s1, r) ->
  same s s1 /\ (forall l, r = Ok l -> hooksAt s p = Some l).
Proof.
  intros H. apply request_inv in H as (s0 & Hsame & [[-> ->] | H]).
  - split; [exact Hsame | discriminate].
  - unfold byPath, listHooks in H. rewrite <- (same_hooksAt _ _ p Hsame).
    unfold hooksAt. destruct (projects s0 !! p) as [pid|].
    + destruct (hooks s0 !! pid); injection H as <- <-;
        (split; [exact Hsame | congruence]).
    + injection H as <- <-. split; [exact Hsame | discriminate].
Qed.

Lemma remove_inv p i s s2 r :
  projectHooksRemove p i s = (s2, r) ->
  match r with
  | Ok _ =>
      exists pid l,
        projects s !! p = Some pid /\ hooks s !! pid = Some l
        /\ projects s2 = projects s
        /\ hooks s2
           = <[pid := List.filter (fun h => negb (Webhook.id h =? i)) l]> (hooks s)
        /\ groups s2 = groups s
        /\ next_id s2 = next_id s
  | Throw _ => same s s2
  end.
Proof.
  intros H. apply request_inv in H as (s0 & (Hp & Hh & Hg & Hn) & [[-> ->] | H]).
  - now repeat split.
  - unfold byPath, deleteHook in H. rewrite <- Hp, <- Hh.
    destruct (projects s0 !! p) as [pid|];
      [| injection H as <- <-; now repeat split].
    destruct (hooks s0 !! pid) as [l|] eqn:El;
      [| injection H as <- <-; now repeat split].
    destruct (existsb _ l); injection H as <- <-; [| now repeat split].
    exists pid, l. simpl. rewrite Hp, Hg, Hn. now repeat split.
Qed.

Lemma add_inv p dest s s3 r :
  projectHooksAdd p dest (GitlabClient.webhookConfig dest) s = (s3, r) ->
  match r with
  | Ok h =>
      exists pid l,
        projects s !! p = Some pid /\ hooks s !! pid = Some l
        /\ Webhook.url h = dest /\ Webhook.id h = next_id s
        /\ projects s3 = projects s
        /\ hooks s3 = <[pid := l ++ [h]]> (hooks s)
        /\ groups s3 = groups s
        /\ next_id s3 = next_id s + 1
  | Throw _ => same s s3
  end.
Proof.
  intros H. apply request_inv in H as (s0 & (Hp & Hh & Hg & Hn) & [[-> ->] | H]).
  - now repeat split.
  - unfold byPath, createHook in H. rewrite <- Hp, <- Hh.
    destruct (projects s0 !! p) as [pid|];
      [| injection H as <- <-; now repeat split].
    destruct (hooks s0 !! pid) as [l|] eqn:El;
      [| injection H as <- <-; now repeat split].
    simpl in H. injection H as <- <-.
    exists pid, l. simpl. rewrite Hp, Hg, Hn. now repeat split.
Qed.

Lemma filter_keeps_all {A : Type} (f : A -> bool) (l : list A) :
  Forall (fun x => f x = true) l -> List.filter f l = l.
Proof.
  induction 1 as [|x l Hx _ IH]; simpl; [reflexivity |]. now rewrite Hx, IH.
Qed.

(** With unique ids, deleting by the id of one webhook removes that webhook
    and no other. *)
Lemma filter_other_ids (pre post : list Webhook) (hook : Webhook) :
  NoDup (map Webhook.id (pre ++ hook :: post)) ->
  List.filter (fun h => negb (Webhook.id h =? Webhook.id hook)) (pre ++ hook :: post)
  = pre ++ post.
Proof.
  intros Hnd. rewrite map_app in Hnd. simpl in Hnd.
  apply NoDup_app in Hnd as (_ & Hdisj & Hnd).
  apply NoDup_cons in Hnd as [Hnotin _].
  rewrite List.filter_app. simpl. rewrite Z.eqb_refl. simpl.
  rewrite !filter_keeps_all; [reflexivity | |];
    apply List.Forall_forall; intros x Hx; apply negb_true_iff, Z.eqb_neq; intros E.
  - apply Hnotin. rewrite <- E. apply list_elem_of_In. now apply in_map.
  - apply (Hdisj (Webhook.id x)).
    + apply list_elem_of_In. now apply in_map.
    + rewrite E. apply list_elem_of_here.
Qed.

End DoubleFacts.

Section DoubleRuns.

Import Double.

Variable dest : string.

Lemma hooksAt_lookup s p pid l :
  projects s !! p = Some pid -> hooksAt s p = Some l -> hooks s !! pid = Some l.
Proof. unfold hooksAt. now intros ->. Qed.

Lemma createWebhook_effect g r (w : World Double.t) :
  wf (remote w) ->
  Effect dest (g +:+ "/" +:+ r) (remote w)
    (remote (GitlabClient.createWebhook dest g r w).1)
    (GitlabClient.createWebhook dest g r w).2.
Proof.
  intros Hwf.
  destruct (createWebhook_cases dest g r w) as
    [s1 e H1 | s1 ex s3 res H1 H2 H3 | s1 ex hk s2 e H1 H2 H3
     | s1 ex hk s2 s3 res H1 H2 H3 H4]; simpl.
  - apply all_inv in H1 as [Hsame _]. now apply Untouched.
  - apply all_inv in H1 as [Hsame Hl]. specialize (Hl _ eq_refl).
    apply add_inv in H3. destruct res as [h|e].
    + destruct H3 as (pid & l & Hp & Hh & Hurl & Hid & Hp3 & Hh3 & _ & Hn3).
      destruct Hsame as (Ep & Eh & _ & En). rewrite Ep in *. rewrite Eh in *.
      rewrite En in *. pose proof (hooksAt_lookup _ _ _ _ Hp Hl) as Hlook.
      rewrite Hlook in Hh. injection Hh as <-. apply find_nothing in H2.
      eapply Added; eassumption.
    + apply Untouched. eapply same_trans; eassumption.
  - apply all_inv in H1 as [Hsame _]. apply remove_inv in H3.
    apply Untouched. eapply same_trans; eassumption.
  - apply all_inv in H1 as [Hsame Hl]. specialize (Hl _ eq_refl).
    apply remove_inv in H3 as (pid & l & Hp & Hh & Hp2 & Hh2 & _ & Hn2).
    destruct Hsame as (Ep & Eh & _ & En). rewrite Ep in *. rewrite Eh in *.
    rewrite En in *. pose proof (hooksAt_lookup _ _ _ _ Hp Hl) as Hlook.
    rewrite Hlook in Hh. injection Hh as <-.
    apply find_first in H2 as (pre & post & -> & Hurl & Hpre).
    destruct (Hwf _ _ Hlook) as [Hnd _].
    rewrite (filter_other_ids _ _ _ Hnd) in Hh2.
    apply add_inv in H4. destruct res as [h|e].
    + destruct H4 as (pid' & l' & Hp' & Hh' & Hurl' & Hid' & Hp3 & Hh3 & _ & Hn3).
      rewrite Hp2, Hp in Hp'. injection Hp' as <-.
      rewrite Hh2, lookup_insert_eq in Hh'. injection Hh' as <-.
      rewrite Hh2, insert_insert_eq, <- app_assoc in Hh3.
      eapply Swapped; try eassumption; congruence.
    + destruct H4 as (Ep3 & Eh3 & _ & En3).
      eapply Deleted; try eassumption; congruence.
Qed.

Local Abbreviation listOk n l :=
  (NoDup (map Webhook.id l) /\ Forall (fun h => Webhook.id h < n) l).

Lemma listOk_remove n (pre post : list Webhook) hook :
  listOk n (pre ++ hook :: post) -> listOk n (pre ++ post).
Proof.
  intros [Hnd Hlt]. split.
  - rewrite map_app in *. simpl in Hnd.
    apply NoDup_app in Hnd as (Hn_pre & Hdisj & Hn_post).
    apply NoDup_cons in Hn_post as [_ Hn_post].
    apply NoDup_app. repeat split; try assumption.
    intros x Hx Hx'. apply (Hdisj x Hx). now apply list_elem_of_further.
  - apply Forall_app in Hlt as [Hlt1 Hlt2]. apply Forall_inv_tail in Hlt2.
    now apply Forall_app.
Qed.

Lemma listOk_mono n (l : list Webhook) : listOk n l -> listOk (n + 1) l.
Proof.
  intros [Hnd Hlt]. split; [exact Hnd |].
  eapply Forall_impl; [exact Hlt |]. simpl. intros. lia.
Qed.

Lemma listOk_snoc n (l : list Webhook) h :
  listOk n l -> Webhook.id h = n -> listOk (n + 1) (l ++ [h]).
Proof.
  intros [Hnd Hlt] Hid. split.
  - rewrite map_app. apply NoDup_app. split; [exact Hnd |]. split.
    + intros x Hx [->|Hx']%elem_of_cons; [| now apply elem_of_nil in Hx'].
      apply list_elem_of_In, in_map_iff in Hx as (y & Ey & Hy).
      rewrite List.Forall_forall in Hlt. specialize (Hlt _ Hy). lia.
    + apply NoDup_singleton.
  - apply Forall_app. split.
    + eapply Forall_impl; [exact Hlt |]. simpl. intros. lia.
    + repeat constructor. lia.
Qed.

Lemma Effect_wf p s s' res : Effect dest p s s' res -> wf s -> wf s'.
Proof.
  intros [s1 e Hsame
         | pid l h s1 Hp Hh Hl Hurl Hid Hp1 Hh1 Hn1
         | pid pre hook post s1 e Hp Hh Hurl Hpre Hp1 Hh1 Hn1
         | pid pre hook post h s1 Hp Hh Hurl Hpre Hurl' Hid Hp1 Hh1 Hn1] Hwf.
  - eapply same_wf; eassumption.
  - unfold wf. rewrite Hh1, Hn1. apply map_Forall_insert_2.
    + apply listOk_snoc; [exact (Hwf _ _ Hh) | exact Hid].
    + intros i x Hx. apply listOk_mono. exact (Hwf _ _ Hx).
  - unfold wf. rewrite Hh1, Hn1. apply map_Forall_insert_2; [| exact Hwf].
    eapply listOk_remove. exact (Hwf _ _ Hh).
  - unfold wf. rewrite Hh1, Hn1. apply map_Forall_insert_2.
    + rewrite app_assoc. apply listOk_snoc; [| exact Hid].
      eapply listOk_remove. exact (Hwf _ _ Hh).
    + intros i x Hx. apply listOk_mono. exact (Hwf _ _ Hx).
Qed.

End DoubleRuns.

Section ListFacts.

Variable dest : string.

Lemma others_snoc_match (l : list Webhook) (h : Webhook) :
  Webhook.url h = dest -> others dest (l ++ [h]) = others dest l.
Proof.
  intros Hh. unfold others. rewrite List.filter_app. simpl.
  rewrite <- Hh, String.eqb_refl. simpl. apply app_nil_r.
Qed.

Lemma others_remove_match (pre post : list Webhook) (hook : Webhook) :
  Webhook.url hook = dest ->
  others dest (pre ++ hook :: post) = others dest (pre ++ post).
Proof.
  intros Hh. unfold others. rewrite !List.filter_app. simpl.
  now rewrite <- Hh, String.eqb_refl.
Qed.

Lemma matching_none (l : list Webhook) :
  Forall (fun x => Webhook.url x <> dest) l -> matching dest l = [].
Proof.
  induction 1 as [|x l Hx _ IH]; simpl; [reflexivity |].
  apply String.eqb_neq in Hx. now rewrite Hx.
Qed.

Lemma matching_app (l k : list Webhook) :
  matching dest (l ++ k) = matching dest l ++ matching dest k.
Proof. apply List.filter_app. Qed.

Lemma matching_one (h : Webhook) : Webhook.url h = dest -> matching dest [h] = [h].
Proof. intros <-. unfold matching. simpl. now rewrite String.eqb_refl. Qed.

Lemma matching_cons (h : Webhook) (l : list Webhook) :
  Webhook.url h = dest -> matching dest (h :: l) = h :: matching dest l.
Proof. intros <-. unfold matching. simpl. now rewrite String.eqb_refl. Qed.

(** The place of the first match in a list is determined by the list. *)
Lemma first_match_unique (pre pre' post post' : list Webhook) (h h' : Webhook) :
  pre ++ h :: post = pre' ++ h' :: post' ->
  Webhook.url h = dest -> Webhook.url h' = dest ->
  Forall (fun x => Webhook.url x <> dest) pre ->
  Forall (fun x => Webhook.url x <> dest) pre' ->
  pre = pre' /\ h = h' /\ post = post'.
Proof.
  revert pre'. induction pre as [|x pre IH]; intros [|y pre'] E Hh Hh' Hp Hp';
    simpl in E; injection E as -> E.
  - now subst.
  - apply Forall_inv in Hp'. contradiction.
  - apply Forall_inv in Hp. contradiction.
  - apply Forall_inv_tail in Hp. apply Forall_inv_tail in Hp'.
    destruct (IH pre' E Hh Hh' Hp Hp') as (-> & -> & ->). now repeat split.
Qed.

End ListFacts.

(** C10: reconciling a repository, however the run ends, leaves the webhooks
    whose url differs from the destination URL as they were -- on that
    repository and on every other one -- and every delete call it issues is
    on the reconciled repository, for the id of one of its webhooks whose url
    equals the destination URL. *)
Theorem other_webhooks_untouched :
  forall (dest g r : string) (w : World Double.t),
    Double.wf (remote w) ->
    let after := (GitlabClient.createWebhook dest g r w).1 in
    (forall (pid : Z) (l : list Webhook),
        Double.hooks (remote w) !! pid = Some l ->
        exists l', Double.hooks (remote after) !! pid = Some l'
                   /\ others dest l' = others dest l)
    /\ exists d,
        log after = log w ++ d
        /\ Forall
             (fun e =>
                forall q i,
                  e.1 = ProjectHooks_remove q i ->
                  q = g +:+ "/" +:+ r
                  /\ exists l h,
                      Double.hooksAt (remote w) q = Some l
                      /\ In h l /\ Webhook.id h = i /\ Webhook.url h = dest)
             d.
Proof.
  intros dest g r w Hwf after. subst after. split.
  - intros pid0 l0 Hl0.
    destruct (createWebhook_effect dest g r w Hwf) as
      [s1 e (_ & Hsame & _)
      | pid l h s1 Hp Hh Hl Hurl Hid Hp1 Hh1 Hn1
      | pid pre hook post s1 e Hp Hh Hurl Hpre Hp1 Hh1 Hn1
      | pid pre hook post h s1 Hp Hh Hurl Hpre Hurl' Hid Hp1 Hh1 Hn1].
    + exists l0. now rewrite Hsame.
    + rewrite Hh1. destruct (decide (pid = pid0)) as [<-|Hne].
      * rewrite lookup_insert_eq. eexists. split; [reflexivity |].
        rewrite Hh in Hl0. injection Hl0 as <-. now apply others_snoc_match.
      * rewrite lookup_insert_ne by exact Hne. now exists l0.
    + rewrite Hh1. destruct (decide (pid = pid0)) as [<-|Hne].
      * rewrite lookup_insert_eq. eexists. split; [reflexivity |].
        rewrite Hh in Hl0. injection Hl0 as <-. symmetry.
        now apply others_remove_match.
      * rewrite lookup_insert_ne by exact Hne. now exists l0.
    + rewrite Hh1. destruct (decide (pid = pid0)) as [<-|Hne].
      * rewrite lookup_insert_eq. eexists. split; [reflexivity |].
        rewrite Hh in Hl0. injection Hl0 as <-.
        rewrite app_assoc, (others_snoc_match _ _ _ Hurl'). symmetry.
        now apply others_remove_match.
      * rewrite lookup_insert_ne by exact Hne. now exists l0.
  - assert (Hdel : forall ex hk s1 q i,
               projectHooksAll (g +:+ "/" +:+ r) (remote w) = (s1, Ok ex) ->
               find (fun x => String.eqb (Webhook.url x) dest) ex = Some hk ->
               ProjectHooks_remove (g +:+ "/" +:+ r) (Webhook.id hk)
                 = ProjectHooks_remove q i ->
               q = g +:+ "/" +:+ r
               /\ exists l h, Double.hooksAt (remote w) q = Some l
                              /\ In h l /\ Webhook.id h = i /\ Webhook.url h = dest).
    { intros ex hk s1 q i H1 H2 E. injection E as <- <-. split; [reflexivity |].
      apply all_inv in H1 as [_ Hl]. specialize (Hl _ eq_refl).
      apply find_some in H2 as [Hin Heq]. apply String.eqb_eq in Heq.
      exists ex, hk. now repeat split. }
    destruct (createWebhook_cases dest g r w) as
      [s1 e H1 | s1 ex s3 res H1 H2 H3 | s1 ex hk s2 e H1 H2 H3
       | s1 ex hk s2 s3 res H1 H2 H3 H4];
      simpl; eexists; (split; [reflexivity |]).
    + constructor; [intros q i E; discriminate E | constructor].
    + constructor; [intros q i E; discriminate E |].
      constructor; [intros q i E; discriminate E | constructor].
    + constructor; [intros q i E; discriminate E |].
      constructor; [| constructor].
      simpl. intros q i E. eapply Hdel; eassumption.
    + constructor; [intros q i E; discriminate E |]. constructor.
      * simpl. intros q i E. eapply Hdel; eassumption.
      * constructor; [intros q i E; discriminate E | constructor].
Qed.

(** C9: when the webhooks of the repository are [pre ++ hook :: post] with
    [hook] the first one whose url equals the destination URL, one
    reconciliation removes at most that one webhook: afterwards the
    repository holds [pre], then [hook] or nothing, then [post] -- with any
    further webhook of the same url it contains -- then the created webhook
    if one was created; a run that succeeds has removed [hook] and created
    one.  At most one delete call is issued, and it names the id of
    [hook]. *)
Theorem only_first_match_deleted :
  forall (dest g r : string) (w : World Double.t)
         (pre post : list Webhook) (hook : Webhook),
    Double.wf (remote w) ->
    Double.hooksAt (remote w) (g +:+ "/" +:+ r) = Some (pre ++ hook :: post) ->
    Webhook.url hook = dest ->
    Forall (fun h => Webhook.url h <> dest) pre ->
    let out := GitlabClient.createWebhook dest g r w in
    (exists kept created,
        Double.hooksAt (remote out.1) (g +:+ "/" +:+ r)
          = Some (pre ++ kept ++ post ++ created)
        /\ (kept = [hook] \/ kept = [])
        /\ (created = []
            \/ exists h, created = [h] /\ Webhook.url h = dest /\ out.2 = Ok h)
        /\ (isOk out.2 = true -> kept = [] /\ created <> []))
    /\ exists d,
        log out.1 = log w ++ d
        /\ (forall q i ok,
               In (ProjectHooks_remove q i, ok) d ->
               q = g +:+ "/" +:+ r /\ i = Webhook.id hook)
        /\ (length (List.filter isRemove d) <= 1)%nat.
Proof.
  intros dest g r w pre post hook Hwf Hat Hhook Hpre out. subst out. split.
  - unfold Double.hooksAt in *.
    destruct (createWebhook_effect dest g r w Hwf) as
      [s1 e (Hsp & Hsh & _)
      | pid l h s1 Hp Hh Hl Hurl Hid Hp1 Hh1 Hn1
      | pid pre' hook' post' s1 e Hp Hh Hurl Hpre' Hp1 Hh1 Hn1
      | pid pre' hook' post' h s1 Hp Hh Hurl Hpre' Hurl' Hid Hp1 Hh1 Hn1].
    + exists [hook], []. rewrite Hsp, Hsh, Hat, app_nil_r.
      split; [reflexivity |]. split; [now left |]. split; [now left |]. discriminate.
    + exfalso. rewrite Hp, Hh in Hat. injection Hat as ->.
      apply Forall_app in Hl as [_ Hl]. apply Forall_inv in Hl. contradiction.
    + rewrite Hp, Hh in Hat. injection Hat as Hat.
      destruct (first_match_unique dest _ _ _ _ _ _ Hat Hurl Hhook Hpre' Hpre)
        as (-> & -> & ->).
      exists [], []. rewrite Hp1, Hp, Hh1, lookup_insert_eq, app_nil_r.
      split; [reflexivity |]. split; [now right |]. split; [now left |]. discriminate.
    + rewrite Hp, Hh in Hat. injection Hat as Hat.
      destruct (first_match_unique dest _ _ _ _ _ _ Hat Hurl Hhook Hpre' Hpre)
        as (-> & -> & ->).
      exists [], [h]. rewrite Hp1, Hp, Hh1, lookup_insert_eq.
      split; [reflexivity |]. split; [now right |].
      split; [right; now exists h |]. intros _. split; [reflexivity | discriminate].
  - assert (Hfind : find (fun x => String.eqb (Webhook.url x) dest)
                         (pre ++ hook :: post) = Some hook)
      by (apply find_first; now exists pre, post).
    destruct (createWebhook_cases dest g r w) as
      [s1 e H1 | s1 ex s3 res H1 H2 H3 | s1 ex hk s2 e H1 H2 H3
       | s1 ex hk s2 s3 res H1 H2 H3 H4];
      simpl; eexists; (split; [reflexivity |]); (split; [| simpl; lia]);
      intros q i ok Hin; simpl in Hin;
      repeat (destruct Hin as [Hin|Hin]; try discriminate); try contradiction;
      injection Hin as <- <- _; (split; [reflexivity |]);
      apply all_inv in H1 as [_ Hl]; specialize (Hl _ eq_refl);
      rewrite Hat in Hl; injection Hl as <-; congruence.
Qed.

Section Idempotence.

Import Double.

Variable dest : string.

(** A successful reconciliation leaves as many webhooks with the destination
    URL as there were, and one if there were none. *)
Lemma success_count p s s' res :
  Effect dest p s s' res ->
  isOk res = true ->
  exists l l',
    hooksAt s p = Some l /\ hooksAt s' p = Some l'
    /\ length (matching dest l') = Nat.max 1 (length (matching dest l)).
Proof.
  unfold hooksAt.
  intros [s1 e Hsame
         | pid l h s1 Hp Hh Hl Hurl Hid Hp1 Hh1 Hn1
         | pid pre hook post s1 e Hp Hh Hurl Hpre Hp1 Hh1 Hn1
         | pid pre hook post h s1 Hp Hh Hurl Hpre Hurl' Hid Hp1 Hh1 Hn1] Hok;
    try discriminate.
  - exists l, (l ++ [h]). rewrite Hp1, Hp, Hh1, lookup_insert_eq.
    repeat split; [assumption |].
    rewrite matching_app, (matching_none _ _ Hl), (matching_one _ _ Hurl).
    reflexivity.
  - exists (pre ++ hook :: post), (pre ++ post ++ [h]).
    rewrite Hp1, Hp, Hh1, lookup_insert_eq. repeat split; [assumption |].
    rewrite !matching_app, (matching_none _ _ Hpre), (matching_one _ _ Hurl').
    rewrite (matching_cons _ _ _ Hurl). simpl. rewrite length_app. simpl. lia.
Qed.

Lemma two_runs_count g r (w : World Double.t) :
  wf (remote w) ->
  isOk (GitlabClient.createWebhook dest g r w).2 = true ->
  isOk (GitlabClient.createWebhook dest g r
          (GitlabClient.createWebhook dest g r w).1).2 = true ->
  exists l l2,
    hooksAt (remote w) (g +:+ "/" +:+ r) = Some l
    /\ hooksAt
         (remote (GitlabClient.createWebhook dest g r
                    (GitlabClient.createWebhook dest g r w).1).1)
         (g +:+ "/" +:+ r) = Some l2
    /\ length (matching dest l2) = Nat.max 1 (length (matching dest l)).
Proof.
  intros Hwf Hok1 Hok2.
  pose proof (createWebhook_effect dest g r w Hwf) as E1.
  pose proof (Effect_wf _ _ _ _ _ E1 Hwf) as Hwf1.
  pose proof (createWebhook_effect dest g r _ Hwf1) as E2.
  destruct (success_count _ _ _ _ E1 Hok1) as (l & l1 & Hl & Hl1 & Hc1).
  destruct (success_count _ _ _ _ E2 Hok2) as (l1' & l2 & Hl1' & Hl2 & Hc2).
  rewrite Hl1 in Hl1'. injection Hl1' as <-.
  exists l, l2. repeat split; try assumption; lia.
Qed.

(** Without outages a reconciliation of an existing project succeeds. *)
Lemma all_quiet p s l :
  faults s = [] -> hooksAt s p = Some l -> projectHooksAll p s = (s, Ok l).
Proof.
  intros Hf Hat. simpl. rewrite (request_quiet _ _ Hf).
  unfold byPath, listHooks. unfold hooksAt in Hat.
  destruct (projects s !! p); [| discriminate]. now rewrite Hat.
Qed.

Lemma remove_quiet p s pid l h :
  faults s = [] ->
  projects s !! p = Some pid -> hooks s !! pid = Some l -> In h l ->
  projectHooksRemove p (Webhook.id h) s
  = (withHooks s
       (<[pid := List.filter (fun x => negb (Webhook.id x =? Webhook.id h)) l]>
          (hooks s))
       (next_id s),
     Ok tt).
Proof.
  intros Hf Hp Hh Hin. simpl. rewrite (request_quiet _ _ Hf).
  unfold byPath, deleteHook. rewrite Hp, Hh.
  assert (Hex : existsb (fun x => Webhook.id x =? Webhook.id h) l = true).
  { apply existsb_exists. exists h. split; [exact Hin | apply Z.eqb_refl]. }
  now rewrite Hex.
Qed.

Lemma add_quiet p s pid l :
  faults s = [] ->
  projects s !! p = Some pid -> hooks s !! pid = Some l ->
  projectHooksAdd p dest (GitlabClient.webhookConfig dest) s
  = (withHooks s
       (<[pid := l ++ [newHook (next_id s) dest (GitlabClient.webhookConfig dest)]]>
          (hooks s))
       (next_id s + 1),
     Ok (newHook (next_id s) dest (GitlabClient.webhookConfig dest))).
Proof.
  intros Hf Hp Hh. simpl. rewrite (request_quiet _ _ Hf).
  unfold byPath, createHook. now rewrite Hp, Hh.
Qed.

Lemma createWebhook_quiet g r (w : World Double.t) l :
  faults (remote w) = [] ->
  hooksAt (remote w) (g +:+ "/" +:+ r) = Some l ->
  isOk (GitlabClient.createWebhook dest g r w).2 = true
  /\ faults (remote (GitlabClient.createWebhook dest g r w).1) = [].
Proof.
  intros Hf Hat. pose proof (all_quiet _ _ _ Hf Hat) as Hall.
  unfold hooksAt in Hat.
  destruct (projects (remote w) !! (g +:+ "/" +:+ r)) as [pid|] eqn:Hp;
    [| discriminate].
  destruct (find (fun hook => String.eqb (Webhook.url hook) dest) l)
    as [hook|] eqn:Hfind.
  - pose proof (find_some _ _ Hfind) as [Hin _].
    pose proof (remove_quiet _ _ _ _ _ Hf Hp Hat Hin) as Hdel.
    erewrite createWebhook_match; try eassumption.
    2:{ apply add_quiet with (pid := pid); simpl;
          [exact Hf | exact Hp | apply lookup_insert_eq]. }
    simpl. now split.
  - erewrite createWebhook_no_match; try eassumption.
    2:{ apply add_quiet with (pid := pid); eassumption. }
    simpl. now split.
Qed.

(** Hence, without outages, reconciling an existing project twice always
    ends with max(1, n) webhooks on the destination. *)
Lemma reconcile_twice_total g r (w : World Double.t) l :
  wf (remote w) ->
  faults (remote w) = [] ->
  hooksAt (remote w) (g +:+ "/" +:+ r) = Some l ->
  exists l2,
    hooksAt
      (remote (GitlabClient.createWebhook dest g r
                 (GitlabClient.createWebhook dest g r w).1).1)
      (g +:+ "/" +:+ r) = Some l2
    /\ length (matching dest l2) = Nat.max 1 (length (matching dest l)).
Proof.
  intros Hwf Hf Hat.
  destruct (createWebhook_quiet g r w l Hf Hat) as [Hok1 Hf1].
  pose proof (createWebhook_effect dest g r w Hwf) as E1.
  destruct (success_count _ _ _ _ E1 Hok1) as (l0 & l1 & Hl0 & Hl1 & _).
  destruct (createWebhook_quiet g r _ l1 Hf1 Hl1) as [Hok2 _].
  destruct (two_runs_count g r w Hwf Hok1 Hok2) as (l' & l2 & Hl' & Hl2 & Hc).
  rewrite Hat in Hl'. injection Hl' as <-. now exists l2.
Qed.

End Idempotence.

(** C1 (as amended): when two reconciliations of the same repository in a
    row both succeed, the repository ends with max(1, n) webhooks whose url
    equals the destination URL, n being their number before the first run:
    exactly one when there was none or one, and still n when there were
    more. *)
Theorem reconcile_twice :
  forall (dest g r : string) (w : World Double.t),
    Double.wf (remote w) ->
    isOk (GitlabClient.createWebhook dest g r w).2 = true ->
    isOk (GitlabClient.createWebhook dest g r
            (GitlabClient.createWebhook dest g r w).1).2 = true ->
    exists l l2,
      Double.hooksAt (remote w) (g +:+ "/" +:+ r) = Some l
      /\ Double.hooksAt
           (remote (GitlabClient.createWebhook dest g r
                      (GitlabClient.createWebhook dest g r w).1).1)
           (g +:+ "/" +:+ r) = Some l2
      /\ length (matching dest l2) = Nat.max 1 (length (matching dest l))
      /\ ((length (matching dest l) <= 1)%nat -> length (matching dest l2) = 1%nat).
Proof.
  intros dest g r w Hwf Hok1 Hok2.
  destruct (two_runs_count dest g r w Hwf Hok1 Hok2) as (l & l2 & Hl & Hl2 & Hc).
  exists l, l2. repeat split; try assumption; lia.
Qed.

(* ===================================================================== *)
(** * Paging through a group (the [axios] variant)                         *)
(* ===================================================================== *)

Section Paging.

Context {S : Type} {api : HttpApi S}.

Lemma fetchPages_paged g page s pages s' :
  Paged g page s pages s' ->
  forall fuel lg acc,
    (length pages <= fuel)%nat ->
    AxiosClient.fetchPages fuel g page acc (mkWorld s lg)
    = (mkWorld s' (lg ++ pageRequests g page (length pages)),
       Ok (Some (acc ++ concat pages))).
Proof.
  induction 1 as [page s s' projects Hget Hshort
                 | page s s1 s' projects pages Hget Hfull Hrest IH];
    intros fuel lg acc Hfuel;
    (destruct fuel as [|fuel]; [simpl in Hfuel; lia |]); simpl.
  - erewrite bind_ok by (apply invoke_run; simpl; exact Hget).
    apply Z.ltb_lt in Hshort. unfold AxiosClient.perPage. rewrite Hshort.
    unfold ret. simpl. now rewrite app_nil_r.
  - erewrite bind_ok by (apply invoke_run; simpl; exact Hget).
    assert (Hge : (Z.of_nat (length projects) <? 100) = false)
      by (apply Z.ltb_ge; exact Hfull).
    unfold AxiosClient.perPage. rewrite Hge.
    rewrite IH by (simpl in Hfuel; lia). simpl.
    now rewrite <- !app_assoc.
Qed.

End Paging.

Section PagingRuns.

Context {S : Type} {api : HttpApi S}.

Lemma getAllGroupRepositories_paged g (w : World S) pages s' fuel :
  Paged g 1 (remote w) pages s' ->
  (length pages <= fuel)%nat ->
  AxiosClient.getAllGroupRepositories fuel g w
  = (mkWorld s' (log w ++ pageRequests g 1 (length pages)),
     Ok (Some (map refOf (concat pages)))).
Proof.
  intros Hpaged Hfuel.
  unfold AxiosClient.getAllGroupRepositories. rewrite tryCatch_rethrow.
  destruct w as [s lg]. simpl in Hpaged.
  erewrite bind_ok by (apply (fetchPages_paged _ _ _ _ _ Hpaged); exact Hfuel).
  unfold ret. simpl. do 3 f_equal.
  apply map_ext. intros project. unfold refOf. now rewrite pop_split.
Qed.

End PagingRuns.

Section WildcardLines.

Context {S : Type} {api : HttpApi S}.
Variable dest : string.

Lemma axios_processLine_wildcard (fuel : nat) (line : string) (w : World S) :
  List.last (Js.split "/" line) "" = "*" ->
  AxiosClient.processLine dest fuel line w
  = (done <-
       AxiosClient.getAllGroupRepositories fuel
         (Js.join "/" (removelast (Js.split "/" line))) ;;
     match done with
     | None => ret None
     | Some repositories =>
         forOf repositories
           (fun repo =>
              AxiosClient.createWebhook dest
                (RepositoryRef.groupPath repo) (RepositoryRef.repoName repo) ;;;
              ret tt) ;;;
         ret (Some tt)
     end) w.
Proof.
  intros Hlast. unfold AxiosClient.processLine. rewrite pop_split.
  cbv beta iota zeta. unfold Js.nonNull. now rewrite Hlast.
Qed.

End WildcardLines.

(** C2 (as amended): for a manifest line whose last segment is the star,
    with [g] the segments before it joined by slashes.

    In the [axios] revision: when the remote answers the page requests for
    [g] with [pages] -- full pages of at least 100 projects followed by one
    shorter page -- the expansion, given fuel for that many iterations,
    requests exactly the pages 1, 2, ... up to that first short page, each
    with page size 100 and subgroups included, and returns one reference per
    project of all pages, in page order; the line then reconciles these
    references in that order.

    In the [gitlab] client revision: the first call of the line is one
    [Groups.projects] call for [g], with subgroups included and page size
    100 and no page number, and no later call of the line lists a group,
    whatever that call answered; when it returns, the expansion yields one
    reference per returned project, in the returned order, and the line
    reconciles them in that order. *)
Theorem wildcard_line_expansion :
  forall (line g : string),
    List.last (Js.split "/" line) "" = "*" ->
    g = Js.join "/" (removelast (Js.split "/" line)) ->
    (forall (S : Type) (api : HttpApi S) (dest : string) (w : World S)
            (pages : list (list Project)) (s' : S) (fuel : nat),
        Paged g 1 (remote w) pages s' ->
        (length pages <= fuel)%nat ->
        AxiosClient.getAllGroupRepositories fuel g w
        = (mkWorld s' (log w ++ pageRequests g 1 (length pages)),
           Ok (Some (map refOf (concat pages))))
        /\ AxiosClient.processLine dest fuel line w
           = (forOf (map refOf (concat pages))
                (fun repo =>
                   AxiosClient.createWebhook dest
                     (RepositoryRef.groupPath repo) (RepositoryRef.repoName repo) ;;;
                   ret tt) ;;;
              ret (Some tt))
               (mkWorld s' (log w ++ pageRequests g 1 (length pages))))
    /\ (forall (S : Type) (api : GitlabApi S) (dest : string) (w : World S),
          (exists ok d,
              log (GitlabClient.processLine dest line w).1
              = log w ++ (Groups_projects g
                            [ ("include_subgroups", Js.VBool true);
                              ("per_page", Js.VNum 100) ], ok) :: d
              /\ Forall (fun e => isListing e = false) d)
          /\ forall (s1 : S) (projects : list Project),
              groupsProjects g
                [ ("include_subgroups", Js.VBool true); ("per_page", Js.VNum 100) ]
                (remote w) = (s1, Ok projects) ->
              GitlabClient.getAllGroupRepositories g w
              = (mkWorld s1
                   (log w ++ [ (Groups_projects g
                                  [ ("include_subgroups", Js.VBool true);
                                    ("per_page", Js.VNum 100) ], true) ]),
                 Ok (map refOf projects))
              /\ GitlabClient.processLine dest line w
                 = forOf (map refOf projects)
                     (fun repo =>
                        GitlabClient.createWebhook dest
                          (RepositoryRef.groupPath repo)
                          (RepositoryRef.repoName repo) ;;;
                        ret tt)
                     (mkWorld s1
                        (log w ++ [ (Groups_projects g
                                       [ ("include_subgroups", Js.VBool true);
                                         ("per_page", Js.VNum 100) ], true) ]))).
Proof.
  intros line g Hlast ->. split.
  - intros S api dest w pages s' fuel Hpaged Hfuel.
    pose proof (getAllGroupRepositories_paged _ w pages s' fuel Hpaged Hfuel) as Hexp.
    split; [exact Hexp |].
    rewrite (axios_processLine_wildcard dest fuel line w Hlast).
    now rewrite (bind_ok _ _ _ _ _ Hexp).
  - intros S api dest w.
    set (g := Js.join "/" (removelast (Js.split "/" line))).
    assert (Hreturned : forall s1 projects,
               groupsProjects g GitlabClient.groupOptions (remote w) = (s1, Ok projects) ->
               GitlabClient.getAllGroupRepositories g w
               = (mkWorld s1
                    (log w ++ [(Groups_projects g GitlabClient.groupOptions, true)]),
                  Ok (map refOf projects))
               /\ GitlabClient.processLine dest line w
                  = forOf (map refOf projects)
                      (fun repo =>
                         GitlabClient.createWebhook dest
                           (RepositoryRef.groupPath repo)
                           (RepositoryRef.repoName repo) ;;;
                         ret tt)
                      (mkWorld s1
                         (log w ++ [(Groups_projects g GitlabClient.groupOptions,
                                     true)]))).
    { intros s1 projects Hcall.
      pose proof (getAllGroupRepositories_ok _ w s1 projects Hcall) as Hexp.
      split; [exact Hexp |].
      rewrite (processLine_wildcard_run dest line w Hlast).
      now rewrite (bind_ok _ _ _ _ _ Hexp). }
    split; [| exact Hreturned].
    destruct (groupsProjects g GitlabClient.groupOptions (remote w))
      as [s1 [projects|e]] eqn:Hcall.
    + destruct (Hreturned s1 projects eq_refl) as [_ Hrun]. rewrite Hrun.
      destruct (Emits_reconcile_all dest (map refOf projects)
                  (mkWorld s1
                     (log w ++ [(Groups_projects g GitlabClient.groupOptions, true)])))
        as (d & Hlog & Hd).
      exists true, d. rewrite Hlog. simpl. rewrite <- app_assoc.
      split; [reflexivity |].
      eapply List.Forall_impl; [| exact Hd]. intros [c ok] (p & Hp).
      destruct c; simpl in *; (reflexivity || contradiction).
    + rewrite (processLine_wildcard_run dest line w Hlast).
      erewrite bind_throw by (apply getAllGroupRepositories_fails; exact Hcall).
      exists false, []. split; [reflexivity | constructor].
Qed.

(** On the double every group is finite, so the loop ends: a group of any
    size is served in [chunks] and the expansion returns all its projects. *)
Section FiniteGroups.

Import Double.

Lemma concat_chunks fuel (l : list Project) : concat (chunks fuel l) = l.
Proof.
  revert l. induction fuel as [|fuel IH]; intros l; simpl.
  - apply app_nil_r.
  - destruct (length l <? 100)%nat; simpl.
    + apply app_nil_r.
    + rewrite IH. apply take_drop.
Qed.

Lemma length_chunks fuel (l : list Project) :
  (length (chunks fuel l) <= Datatypes.S fuel)%nat.
Proof.
  revert l. induction fuel as [|fuel IH]; intros l; simpl; [lia |].
  destruct (length l <? 100)%nat; simpl; [lia |]. specialize (IH (drop 100 l)). lia.
Qed.

Lemma page_of_double s g (l : list Project) (k : nat) :
  groups s !! g = Some l ->
  faults s = [] ->
  getGroupProjects g (AxiosClient.pageParams (1 + Z.of_nat k)) s
  = (s, Ok (take 100 (drop (100 * k) l))).
Proof.
  intros Hg Hf. simpl. rewrite (request_quiet _ _ Hf).
  unfold listGroupProjects. rewrite Hg. unfold numParam. simpl.
  replace ((1 + Z.of_nat k - 1) * AxiosClient.perPage) with (Z.of_nat (100 * k))
    by (unfold AxiosClient.perPage; lia).
  rewrite Nat2Z.id. reflexivity.
Qed.

Lemma double_paged s g (l : list Project) :
  groups s !! g = Some l ->
  faults s = [] ->
  forall fuel k,
    (length (drop (100 * k) l) < 100 * (fuel + 1))%nat ->
    Paged g (1 + Z.of_nat k) s (chunks fuel (drop (100 * k) l)) s.
Proof.
  intros Hg Hf.
  assert (Hlast : forall k, (length (drop (100 * k) l) < 100)%nat ->
                            Paged g (1 + Z.of_nat k) s [drop (100 * k) l] s).
  { intros k Hlen. apply LastPage; [| lia].
    rewrite (page_of_double _ _ _ _ Hg Hf). now rewrite take_ge by lia. }
  induction fuel as [|fuel IH]; intros k Hlen; cbn [chunks].
  - apply Hlast. lia.
  - destruct (Nat.ltb_spec (length (drop (100 * k) l)) 100) as [Hshort|Hfull].
    + now apply Hlast.
    + eapply FullPage.
      * apply (page_of_double _ _ _ _ Hg Hf).
      * rewrite length_take. lia.
      * replace (1 + Z.of_nat k + 1) with (1 + Z.of_nat (Datatypes.S k)) by lia.
        rewrite drop_drop.
        replace (100 * k + 100)%nat with (100 * Datatypes.S k)%nat by lia.
        apply IH. rewrite !length_drop in *. lia.
Qed.

Lemma expansion_of_finite_group s g (l : list Project) lg :
  groups s !! g = Some l ->
  faults s = [] ->
  AxiosClient.getAllGroupRepositories (Datatypes.S (length l)) g (mkWorld s lg)
  = (mkWorld s (lg ++ pageRequests g 1 (length (chunks (length l) l))),
     Ok (Some (map refOf l))).
Proof.
  intros Hg Hf.
  assert (Hpaged : Paged g 1 s (chunks (length l) l) s).
  { apply (double_paged s g l Hg Hf (length l) 0).
    rewrite Nat.mul_0_r, drop_0. lia. }
  rewrite (getAllGroupRepositories_paged g (mkWorld s lg) _ s _ Hpaged)
    by apply length_chunks.
  now rewrite concat_chunks.
Qed.

End FiniteGroups.

(* ===================================================================== *)
(** * The reconciler of the [axios] variant                               *)
(* ===================================================================== *)

(** The variant resolves the numeric project id first and then follows the
    same steps: its log holds at most one [DELETE], for the id of the first
    fetched webhook whose url equals the destination URL. *)
Section AxiosReconciler.

Context {S : Type} {api : HttpApi S}.
Variable dest : string.

Lemma axios_createWebhook_deletes_first_match g r (w : World S) :
  exists d,
    log (AxiosClient.createWebhook dest g r w).1 = log w ++ d
    /\ (length (List.filter isDelete d) <= 1)%nat
    /\ forall pid i ok,
        In (DELETE_project_hook pid i, ok) d ->
        exists s0 project s1 existing hook,
          getProject (g +:+ "/" +:+ r) (remote w) = (s0, Ok project)
          /\ pid = Project.id project
          /\ getProjectHooks pid s0 = (s1, Ok existing)
          /\ find (fun h => String.eqb (Webhook.url h) dest) existing = Some hook
          /\ i = Webhook.id hook.
Proof.
  unfold AxiosClient.createWebhook, AxiosClient.getProjectId.
  rewrite tryCatch_rethrow. unfold bind at 1. rewrite tryCatch_rethrow.
  unfold bind at 1. unfold invoke at 1.
  destruct (getProject (g +:+ "/" +:+ r) (remote w)) as [s0 [project|e]] eqn:Hp;
    simpl.
  2:{ eexists. split; [reflexivity |]. split; [simpl; lia |].
      intros pid i ok [E|[]]. discriminate E. }
  unfold bind at 1. unfold invoke at 1. simpl.
  destruct (getProjectHooks (Project.id project) s0) as [s1 [existing|e]] eqn:Hh;
    simpl.
  2:{ rewrite <- app_assoc. eexists. split; [reflexivity |]. split; [simpl; lia |].
      intros pid i ok [E|[E|[]]]; discriminate E. }
  destruct (find _ existing) as [hook|] eqn:Hfind.
  - unfold bind at 1. unfold invoke at 1. simpl.
    destruct (deleteProjectHook (Project.id project) (Webhook.id hook) s1)
      as [s2 [[]|e]]; simpl.
    + unfold bind, invoke, ret. simpl.
      destruct (postProjectHooks (Project.id project)
                  (AxiosClient.webhookConfig dest) s2) as [s3 [h|e]]; simpl;
        rewrite <- !app_assoc; (eexists; split; [reflexivity |]);
        (split; [simpl; lia |]);
        intros pid i ok [E|[E|[E|[E|[]]]]]; try discriminate E;
        injection E as <- <- _; exists s0, project, s1, existing, hook;
        now repeat split.
    + rewrite <- !app_assoc. eexists. split; [reflexivity |].
      split; [simpl; lia |].
      intros pid i ok [E|[E|[E|[]]]]; try discriminate E.
      injection E as <- <- _. exists s0, project, s1, existing, hook.
      now repeat split.
  - unfold bind, invoke, ret. simpl.
    destruct (postProjectHooks (Project.id project)
                (AxiosClient.webhookConfig dest) s1) as [s3 [h|e]]; simpl;
      rewrite <- !app_assoc; (eexists; split; [reflexivity |]);
      (split; [simpl; lia |]);
      intros pid i ok [E|[E|[E|[]]]]; discriminate E.
Qed.

End AxiosReconciler.

(* ===================================================================== *)
(** * The statements at work on the small remote                          *)
(* ===================================================================== *)

Lemma demo_wf : Double.wf demo.
Proof. apply (bool_decide_unpack _). vm_compute. reflexivity. Defined.

(** [teamA/svcA] starts with two webhooks on the destination; two successful
    runs later it still has two, not one. *)
Lemma two_matches_survive_two_runs :
  Double.wf demo
  /\ isOk (GitlabClient.createWebhook demoUrl "teamA" "svcA" (init demo)).2 = true
  /\ isOk (GitlabClient.createWebhook demoUrl "teamA" "svcA"
             (GitlabClient.createWebhook demoUrl "teamA" "svcA" (init demo)).1).2
     = true
  /\ exists l2,
      Double.hooksAt
        (remote (GitlabClient.createWebhook demoUrl "teamA" "svcA"
                   (GitlabClient.createWebhook demoUrl "teamA" "svcA" (init demo)).1).1)
        "teamA/svcA" = Some l2
      /\ length (matching demoUrl l2) = 2%nat.
Proof.
  split; [exact demo_wf |]. split; [vm_compute; reflexivity |].
  split; [vm_compute; reflexivity |]. eexists. split; vm_compute; reflexivity.
Qed.

(** [teamB/y] has no webhook on the destination (its one webhook differs in
    letter case); two runs leave exactly one. *)
Lemma reconcile_twice_witness :
  exists l2,
    Double.hooksAt
      (remote (GitlabClient.createWebhook demoUrl "teamB" "y"
                 (GitlabClient.createWebhook demoUrl "teamB" "y" (init demo)).1).1)
      ("teamB" +:+ "/" +:+ "y") = Some l2
    /\ length (matching demoUrl l2) = 1%nat.
Proof.
  assert (Hok1 : isOk (GitlabClient.createWebhook demoUrl "teamB" "y" (init demo)).2
                 = true) by (vm_compute; reflexivity).
  assert (Hok2 : isOk (GitlabClient.createWebhook demoUrl "teamB" "y"
                         (GitlabClient.createWebhook demoUrl "teamB" "y"
                            (init demo)).1).2 = true) by (vm_compute; reflexivity).
  destruct (reconcile_twice demoUrl "teamB" "y" (init demo) demo_wf Hok1 Hok2)
    as (l & l2 & Hl & Hl2 & _ & Hone).
  exists l2. split; [exact Hl2 |]. apply Hone.
  vm_compute in Hl. injection Hl as <-. vm_compute. lia.
Defined.

Lemma wildcard_line_expansion_witness :
  AxiosClient.getAllGroupRepositories 2 "big" (init demo)
  = (mkWorld demo (log (init demo) ++ pageRequests "big" 1 2),
     Ok (Some (map refOf (concat [repeat demoProject 100; []]))))
  /\ GitlabClient.getAllGroupRepositories "big" (init demo)
     = (mkWorld demo
          (log (init demo)
           ++ [ (Groups_projects "big"
                   [ ("include_subgroups", Js.VBool true);
                     ("per_page", Js.VNum 100) ], true) ]),
        Ok (map refOf (repeat demoProject 100))).
Proof.
  destruct (wildcard_line_expansion "big/*" "big" eq_refl eq_refl) as [Haxios Hgitlab].
  assert (Hpaged : Paged "big" 1 (remote (init demo)) [repeat demoProject 100; []] demo).
  { apply FullPage with (s1 := demo);
      [vm_compute; reflexivity | vm_compute; discriminate |].
    apply LastPage; vm_compute; reflexivity. }
  assert (Hfuel : (length [repeat demoProject 100; []] <= 2)%nat) by (simpl; lia).
  assert (Hcall : groupsProjects "big"
                    [ ("include_subgroups", Js.VBool true); ("per_page", Js.VNum 100) ]
                    (remote (init demo))
                  = (demo, Ok (repeat demoProject 100))) by (vm_compute; reflexivity).
  split.
  - exact (proj1 (Haxios Double.t Double.http demoUrl (init demo) _ demo 2%nat
                     Hpaged Hfuel)).
  - exact (proj1 (proj2 (Hgitlab Double.t Double.gitlab demoUrl (init demo))
                    demo _ Hcall)).
Defined.

(** In the [gitlab] client revision the one listing of the group [big]
    returns a hundred projects -- not fewer than the page size -- and is
    followed by no request for a second page: the line makes that single
    listing call, without a page number. *)
Lemma full_listing_is_not_followed_up :
  groupsProjects "big"
    [ ("include_subgroups", Js.VBool true); ("per_page", Js.VNum 100) ] demo
  = (demo, Ok (repeat demoProject 100))
  /\ length (repeat demoProject 100) = 100%nat
  /\ List.filter isListing
       (log (GitlabClient.processLine demoUrl "big/*" (init demo)).1)
     = [ (Groups_projects "big"
            [ ("include_subgroups", Js.VBool true); ("per_page", Js.VNum 100) ],
          true) ].
Proof.
  split; [vm_compute; reflexivity |]. split; [reflexivity |].
  vm_compute. reflexivity.
Qed.

Lemma delete_precedes_create_witness :
  exists pre hook post,
    [ hookAt 10 "https://other.example.com/"; hookAt 11 demoUrl; hookAt 12 demoUrl ]
      = pre ++ hook :: post
    /\ Webhook.url hook = demoUrl
    /\ Forall (fun h => Webhook.url h <> demoUrl) pre
    /\ (log (GitlabClient.createWebhook demoUrl "teamA" "svcA" (init demo)).1
        = log (init demo)
          ++ [ (ProjectHooks_all ("teamA" +:+ "/" +:+ "svcA"), true);
               (ProjectHooks_remove ("teamA" +:+ "/" +:+ "svcA") (Webhook.id hook),
                false) ]
        \/ exists ok,
            log (GitlabClient.createWebhook demoUrl "teamA" "svcA" (init demo)).1
            = log (init demo)
              ++ [ (ProjectHooks_all ("teamA" +:+ "/" +:+ "svcA"), true);
                   (ProjectHooks_remove ("teamA" +:+ "/" +:+ "svcA") (Webhook.id hook),
                    true);
                   (ProjectHooks_add ("teamA" +:+ "/" +:+ "svcA") demoUrl
                      (GitlabClient.webhookConfig demoUrl), ok) ]).
Proof.
  assert (Hfetch : projectHooksAll ("teamA" +:+ "/" +:+ "svcA") (remote (init demo))
                   = (demo, Ok [ hookAt 10 "https://other.example.com/";
                                 hookAt 11 demoUrl; hookAt 12 demoUrl ]))
    by (vm_compute; reflexivity).
  destruct (delete_precedes_create Double.t Double.gitlab demoUrl "teamA" "svcA"
              (init demo) demo _ Hfetch) as [Hmatch _].
  apply Hmatch. exists (hookAt 11 demoUrl). split; [simpl; auto | reflexivity].
Defined.

Lemma direct_entry_resolution_witness :
  GitlabClient.processLine demoUrl "teamA/svcA" (init demo)
  = (GitlabClient.createWebhook demoUrl "teamA" "svcA" ;;; ret tt) (init demo).
Proof.
  assert (Hlast : List.last (Js.split "/" "teamA/svcA") "" <> "*")
    by (vm_compute; discriminate).
  destruct (direct_entry_resolution Double.t Double.gitlab demoUrl "teamA/svcA"
              (init demo) Hlast) as [Hrun _].
  exact Hrun.
Defined.

Lemma expansion_uses_project_paths_witness :
  exists refs,
    (GitlabClient.getAllGroupRepositories "teamB" (init demo)).2 = Ok refs
    /\ length refs = 2%nat.
Proof.
  assert (Hlist : groupsProjects "teamB" GitlabClient.groupOptions (remote (init demo))
                  = (demo, Ok [demoProject; Project.mk 3 "teamB/y" "y" "y"]))
    by (vm_compute; reflexivity).
  destruct (expansion_uses_project_paths Double.t Double.gitlab "teamB" (init demo)
              demo _ Hlist) as (refs & Hrefs & Hall).
  exists refs. split; [exact Hrefs |].
  apply Forall2_length in Hall. now rewrite <- Hall.
Defined.

(** The create call fails after the delete has completed: the failed create
    is the last call and the exit status is 1. *)
Lemma failed_call_ends_run_witness :
  ([] : list (Call * bool)) = []
  /\ (GitlabClient.main demoEnv (fun _ => true)
        (demoFile "teamA/svcA
teamB/*")
        (init (Double.withFaults demo [false; false; true]))).2 = 1.
Proof.
  apply (failed_call_ends_run Double.t Double.gitlab demoEnv (fun _ => true)
           (demoFile "teamA/svcA
teamB/*")
           (Double.withFaults demo [false; false; true])
           [ (ProjectHooks_all "teamA/svcA", true);
             (ProjectHooks_remove "teamA/svcA" 11, true) ]
           []
           (ProjectHooks_add "teamA/svcA" demoUrl (GitlabClient.webhookConfig demoUrl))).
  vm_compute. reflexivity.
Defined.

Lemma line_without_slash_witness :
  GitlabClient.processRepositories demoUrl "repos.txt"
    (demoFile "teamB/y
onlyname
teamA/svcA") (init demo)
  = ((GitlabClient.processLine demoUrl "onlyname"
        (forOf ["teamB/y"] (GitlabClient.processLine demoUrl) (init demo)).1).1, 1).
Proof.
  assert (Hstar : "onlyname" <> "*") by discriminate.
  destruct (line_without_slash Double.t Double.gitlab demoUrl "onlyname"
              (forOf ["teamB/y"] (GitlabClient.processLine demoUrl) (init demo)).1
              eq_refl Hstar) as (_ & _ & Hends & _).
  apply (Hends "repos.txt" _ "teamB/y
onlyname
teamA/svcA" ["teamB/y"] ["teamA/svcA"] (init demo)).
  - reflexivity.
  - vm_compute. reflexivity.
  - vm_compute. reflexivity.
  - vm_compute. reflexivity.
Defined.

(** The lone star has no slash either, and is expanded as a wildcard on the
    empty group path: no project path made of a slash and the line reaches
    the remote. *)
Lemma star_line_is_expanded :
  Js.contains "/" "*" = false
  /\ log (GitlabClient.processLine demoUrl "*" (init demo)).1
     = [ (Groups_projects ""
            [ ("include_subgroups", Js.VBool true); ("per_page", Js.VNum 100) ],
          false) ]
  /\ GitlabClient.processLine demoUrl "*" (init demo)
     <> (GitlabClient.createWebhook demoUrl "" "*" ;;; ret tt) (init demo).
Proof.
  split; [reflexivity |]. split; [vm_compute; reflexivity |].
  vm_compute. discriminate.
Qed.

Lemma only_first_match_deleted_witness :
  exists kept created,
    Double.hooksAt
      (remote (GitlabClient.createWebhook demoUrl "teamA" "svcA" (init demo)).1)
      ("teamA" +:+ "/" +:+ "svcA")
    = Some ([hookAt 10 "https://other.example.com/"]
            ++ kept ++ [hookAt 12 demoUrl] ++ created)
    /\ kept = [] /\ created <> [].
Proof.
  assert (Hat : Double.hooksAt (remote (init demo)) ("teamA" +:+ "/" +:+ "svcA")
                = Some ([hookAt 10 "https://other.example.com/"]
                        ++ hookAt 11 demoUrl :: [hookAt 12 demoUrl]))
    by (vm_compute; reflexivity).
  assert (Hpre : Forall (fun h => Webhook.url h <> demoUrl)
                   [hookAt 10 "https://other.example.com/"])
    by (repeat constructor; discriminate).
  destruct (only_first_match_deleted demoUrl "teamA" "svcA" (init demo) _ _ _
              demo_wf Hat eq_refl Hpre) as [(kept & created & Hafter & _ & _ & Hok) _].
  exists kept, created. split; [exact Hafter |]. apply Hok.
  vm_compute. reflexivity.
Defined.

Lemma other_webhooks_untouched_witness :
  exists l',
    Double.hooks
      (remote (GitlabClient.createWebhook demoUrl "teamA" "svcA" (init demo)).1)
      !! 1 = Some l'
    /\ others demoUrl l' = [hookAt 10 "https://other.example.com/"].
Proof.
  destruct (other_webhooks_untouched demoUrl "teamA" "svcA" (init demo) demo_wf)
    as [Hframe _].
  apply (Hframe 1 [ hookAt 10 "https://other.example.com/";
                    hookAt 11 demoUrl; hookAt 12 demoUrl ]).
  vm_compute. reflexivity.
Defined.

(** ** Runs of the script *)

Example split_three : Js.split "/" "group/sub/repo" = ["group"; "sub"; "repo"].
Proof. reflexivity. Qed.

Example split_empty : Js.split "/" "" = [""].
Proof. reflexivity. Qed.

Example split_trailing : Js.split "/" "a//b/" = ["a"; ""; "b"; ""].
Proof. reflexivity. Qed.

Example pop_three :
  Js.pop ["group"; "sub"; "repo"] = (Some "repo", ["group"; "sub"]).
Proof. reflexivity. Qed.

Example join_two : Js.join "/" ["group"; "sub"] = "group/sub".
Proof. reflexivity. Qed.

Example trim_inner : Js.trim "  a b  " = "a b".
Proof. reflexivity. Qed.

(** U+3000 before, SPACE and U+2028 after the letter. *)
Example trim_wide :
  Js.trim (Js.utf8 [227; 128; 128; 97; 32; 226; 128; 168]%N) = "a".
Proof. vm_compute. reflexivity. Qed.

(** A letter with an accent (two bytes, the second one 160) is no white
    space. *)
Example trim_keeps_letters :
  Js.trim (Js.utf8 [32; 195; 160; 32]%N) = Js.utf8 [195; 160]%N.
Proof. vm_compute. reflexivity. Qed.

(** The lines made of U+3000, and of a space and U+FEFF, are dropped; a
    line keeps the white space around its text. *)
Example manifest_wide_blank_lines :
  GitlabClient.manifestLines
    (Js.utf8 ([97; 47; 98; 10] ++ [227; 128; 128; 10] ++ [32; 239; 187; 191; 10]
              ++ [194; 160; 99; 47; 100; 9])%N)
  = [Js.utf8 [97; 47; 98]%N; Js.utf8 [194; 160; 99; 47; 100; 9]%N].
Proof. vm_compute. reflexivity. Qed.

(** Blank lines of the manifest are dropped, the others kept untrimmed. *)
Example manifest_lines :
  GitlabClient.manifestLines "teamA/svcA

 teamB/*
" = ["teamA/svcA"; " teamB/*"].
Proof. reflexivity. Qed.

(** The scenario of a direct entry followed by a wildcard: the repositories
    are reconciled in manifest order, the wildcard's in listed order. *)
Example run_in_manifest_order :
  let out := GitlabClient.main demoEnv (fun _ => true)
               (demoFile "teamA/svcA
teamB/*") (init demo) in
  map (fun e => e.1) (List.filter (fun e => negb (isRemove e)) (log out.1))
  = [ ProjectHooks_all "teamA/svcA";
      ProjectHooks_add "teamA/svcA" demoUrl (GitlabClient.webhookConfig demoUrl);
      Groups_projects "teamB" GitlabClient.groupOptions;
      ProjectHooks_all "teamB/sub/x";
      ProjectHooks_add "teamB/sub/x" demoUrl (GitlabClient.webhookConfig demoUrl);
      ProjectHooks_all "teamB/y";
      ProjectHooks_add "teamB/y" demoUrl (GitlabClient.webhookConfig demoUrl) ]
  /\ out.2 = 0.
Proof. vm_compute. split; reflexivity. Qed.

(** A url that differs from the destination in letter case only is no match:
    nothing is deleted on [teamB/y]. *)
Example letter_case_matters :
  log (GitlabClient.createWebhook demoUrl "teamB" "y" (init demo)).1
  = [ (ProjectHooks_all "teamB/y", true);
      (ProjectHooks_add "teamB/y" demoUrl (GitlabClient.webhookConfig demoUrl), true) ].
Proof. vm_compute. reflexivity. Qed.

(** The create call fails after the delete: the deleted webhook is gone, no
    webhook was created in its place, and the run stops there. *)
Example failed_create_is_not_compensated :
  let out := GitlabClient.main demoEnv (fun _ => true)
               (demoFile "teamA/svcA
teamB/*") (init (Double.withFaults demo [false; false; true])) in
  Double.hooksAt (remote out.1) "teamA/svcA"
  = Some [hookAt 10 "https://other.example.com/"; hookAt 12 demoUrl]
  /\ Double.hooksAt (remote out.1) "teamB/y" = Double.hooksAt demo "teamB/y"
  /\ out.2 = 1.
Proof. vm_compute. repeat split; reflexivity. Qed.

(** An entry without a slash is sought under a slash: the project [solo]
    exists on this remote, the path [/solo] does not. *)
Example bare_entry_misses_its_project :
  GitlabClient.processRepositories demoUrl "repos.txt" (demoFile "solo")
    (init (Double.mk (list_to_map [("solo", 1)]) (list_to_map [(1, [])]) ∅ 100 []))
  = (mkWorld (Double.mk (list_to_map [("solo", 1)]) (list_to_map [(1, [])]) ∅ 100 [])
       [(ProjectHooks_all "/solo", false)], 1).
Proof. vm_compute. reflexivity. Qed.

(** A project listed without a slash in its full path is reconciled under
    a slash as well. *)
Example listed_bare_project_is_sought_under_a_slash :
  log (GitlabClient.processLine demoUrl "g/*"
         (init (Double.mk (list_to_map [("solo", 1)]) (list_to_map [(1, [])])
                  (list_to_map [("g", [Project.mk 1 "solo" "solo" "solo"])])
                  100 []))).1
  = [ (Groups_projects "g" GitlabClient.groupOptions, true);
      (ProjectHooks_all "/solo", false) ].
Proof. vm_compute. reflexivity. Qed.

(* ===================================================================== *)
(** * Further properties of the script over any remote                    *)
(* ===================================================================== *)

Section StrictFacts.

Context {S : Type}.

Lemma Strict_ret {A : Type} (a : A) : Strict (ret a : M S A).
Proof. intros w. exists []. simpl. rewrite app_nil_r. split; [reflexivity | constructor]. Qed.

Lemma Strict_invoke {A : Type} (c : Call) (op : S -> S * Result A) :
  Strict (invoke c op).
Proof.
  intros w. unfold invoke. destruct (op (remote w)) as [s' r]. simpl.
  exists [(c, isOk r)]. split; [reflexivity |].
  destruct r as [a|e]; simpl.
  - repeat constructor.
  - exists [], c. split; [reflexivity | constructor].
Qed.

Lemma Strict_bind {A B : Type} (m : M S A) (k : A -> M S B) :
  Strict m -> (forall a, Strict (k a)) -> Strict (bind m k).
Proof.
  intros Hm Hk w. unfold bind.
  destruct (Hm w) as (d1 & Hlog1 & H1).
  destruct (m w) as [w1 [a|e]]; simpl in *.
  - destruct (Hk a w1) as (d2 & Hlog2 & H2).
    exists (d1 ++ d2). rewrite Hlog2, Hlog1, app_assoc. split; [reflexivity |].
    destruct ((k a w1).2) as [b|e]; simpl in *.
    + now apply Forall_app.
    + destruct H2 as (d0 & c & -> & Hc0). exists (d1 ++ d0), c.
      rewrite app_assoc. split; [reflexivity | now apply Forall_app].
  - now exists d1.
Qed.

Lemma Strict_tryCatch {A : Type} (m : M S A) :
  Strict m -> Strict (tryCatch m (fun error => throw error)).
Proof. intros Hm w. rewrite tryCatch_rethrow. apply Hm. Qed.



End StrictFacts.

Section StrictScript.

Context {S : Type} {api : GitlabApi S}.
Variable dest : string.

Lemma Strict_createWebhook g r : Strict (GitlabClient.createWebhook dest g r).
Proof.
  apply Strict_tryCatch, Strict_bind.
  - apply Strict_tryCatch, Strict_invoke.
  - intros existing. apply Strict_bind.
    + destruct (find _ existing).
      * apply Strict_tryCatch, Strict_invoke.
      * apply Strict_ret.
    + intros _. apply Strict_bind.
      * apply Strict_tryCatch, Strict_invoke.
      * intros h. apply Strict_ret.
Qed.


(** The run over a readable manifest. *)
Lemma manifestRun_read file readFileSync content (w : World S) :
  readFileSync file = Ok content ->
  manifestRun dest file readFileSync w
  = forOf (GitlabClient.manifestLines content) (GitlabClient.processLine dest) w.
Proof. intros Hread. unfold manifestRun, bind. now rewrite Hread. Qed.

Lemma manifestRun_unreadable file readFileSync e (w : World S) :
  readFileSync file = Throw e ->
  manifestRun dest file readFileSync w = (w, Throw e).
Proof. intros Hread. unfold manifestRun, bind. now rewrite Hread. Qed.

End StrictScript.


(** X2: a configuration error -- no access token, no webhook URL, a URL that
    does not parse -- or an unreadable manifest ends the run with exit status
    1 before any call is made: the world is as it was. *)
Theorem configuration_error_makes_no_call :
  forall (S : Type) (api : GitlabApi S) (env : Env.t) (validUrl : string -> bool)
         (readFileSync : string -> Result string) (w : World S),
    missing (Env.GITLAB_PAT env) = true
    \/ missing (Env.WEBHOOK_URL env) = true
    \/ (exists url, Env.WEBHOOK_URL env = Some url /\ validUrl url = false)
    \/ (exists e, readFileSync (orDefault (Env.REPOS_FILE env) "repos.txt") = Throw e) ->
    GitlabClient.main env validUrl readFileSync w = (w, 1).
Proof.
  intros S api env validUrl readFileSync w Hbad. unfold GitlabClient.main.
  destruct (missing (Env.GITLAB_PAT env)) eqn:Hpat; [reflexivity |].
  destruct (Env.WEBHOOK_URL env) as [dest|] eqn:Hurl; [| reflexivity].
  destruct (Js.truthy dest) eqn:Ht; simpl; [| reflexivity].
  destruct (validUrl dest) eqn:Hv; [| reflexivity].
  destruct Hbad as [H | [H | [(u & [= <-] & H) | (e & Hread)]]];
    try congruence.
  - simpl in H. rewrite Ht in H. discriminate.
  - rewrite processRepositories_run, (manifestRun_unreadable dest _ _ _ _ Hread).
    reflexivity.
Qed.

Section TrimFacts.

Lemma string_length_ind (P : string -> Prop) :
  (forall s, (forall t, (String.length t < String.length s)%nat -> P t) -> P s) ->
  forall s, P s.
Proof.
  intros step s. remember (String.length s) as n eqn:Hn. revert s Hn.
  induction n as [n IH] using lt_wf_ind. intros s ->.
  apply step. intros t Ht. now apply (IH _ Ht).
Qed.

Lemma chars_append (a b : string) :
  String.list_ascii_of_string (a +:+ b)
  = String.list_ascii_of_string a ++ String.list_ascii_of_string b.
Proof.
  induction a as [|x a IH]; [reflexivity |].
  rewrite append_cons. simpl. now rewrite IH.
Qed.

Lemma string_of_chars_app (l k : list ascii) :
  String.string_of_list_ascii (l ++ k)
  = String.string_of_list_ascii l +:+ String.string_of_list_ascii k.
Proof.
  induction l as [|x l IH]; [reflexivity |].
  simpl. now rewrite IH, append_cons.
Qed.

Lemma revString_chars (s : string) :
  String.list_ascii_of_string (Js.revString s)
  = rev (String.list_ascii_of_string s).
Proof. unfold Js.revString. apply String.list_ascii_of_string_of_list_ascii. Qed.

Lemma revString_append (a b : string) :
  Js.revString (a +:+ b) = Js.revString b +:+ Js.revString a.
Proof.
  unfold Js.revString. now rewrite chars_append, rev_app_distr, string_of_chars_app.
Qed.

Lemma revString_involutive (s : string) : Js.revString (Js.revString s) = s.
Proof.
  unfold Js.revString at 1. rewrite revString_chars, rev_involutive.
  apply String.string_of_list_ascii_of_string.
Qed.

Lemma append_empty_r (a : string) : a +:+ "" = a.
Proof. induction a as [|x a IH]; [reflexivity |]. now rewrite append_cons, IH. Qed.

Lemma concat_append (l : list string) (x : string) :
  fold_right String.append x l = fold_right String.append "" l +:+ x.
Proof.
  induction l as [|y l IH]; simpl; [now rewrite append_empty_l |].
  now rewrite IH, append_assoc.
Qed.

Lemma revString_concat (ws : list string) :
  Js.revString (fold_right String.append "" ws)
  = fold_right String.append "" (map Js.revString (rev ws)).
Proof.
  induction ws as [|c ws IH]; [reflexivity |]. simpl.
  rewrite revString_append, IH, map_app, fold_right_app. simpl.
  now rewrite append_empty_r, <- concat_append.
Qed.

Lemma truthy_revString (s : string) : Js.truthy (Js.revString s) = Js.truthy s.
Proof.
  unfold Js.revString. destruct s as [|c s]; [reflexivity |]. simpl.
  destruct (rev (String.list_ascii_of_string s)); reflexivity.
Qed.

Lemma truthy_empty (s : string) : Js.truthy s = false <-> s = "".
Proof. destruct s; simpl; split; congruence. Qed.

(** What [strip] leaves begins with no accepted character. *)
Lemma strip_idem (white : string -> bool) (s : string) :
  Js.strip white (Js.strip white s) = Js.strip white s.
Proof.
  induction s as [s IH] using string_length_ind.
  destruct s as [|a r1]; [reflexivity |]. cbn [Js.strip].
  destruct (white (String a "")) eqn:H1; [apply IH; simpl; lia |].
  destruct r1 as [|b r2]; [cbn [Js.strip]; now rewrite H1 |].
  destruct (white (String a (String b ""))) eqn:H2; [apply IH; simpl; lia |].
  destruct r2 as [|c r3]; [cbn [Js.strip]; now rewrite H1, H2 |].
  destruct (white (String a (String b (String c "")))) eqn:H3;
    [apply IH; simpl; lia |].
  cbn [Js.strip]. now rewrite H1, H2, H3.
Qed.

(** A string of which [strip] leaves nothing is a sequence of accepted
    characters. *)
Lemma strip_empty (white : string -> bool) (s : string) :
  Js.strip white s = "" ->
  exists ws, Forall (fun c => white c = true) ws
             /\ s = fold_right String.append "" ws.
Proof.
  induction s as [s IH] using string_length_ind.
  destruct s as [|a r1]; [intros _; now exists [] |]. cbn [Js.strip].
  destruct (white (String a "")) eqn:H1.
  { intros Hs. destruct (IH r1 ltac:(simpl; lia) Hs) as (ws & Hws & ->).
    exists (String a "" :: ws). split; [now constructor | reflexivity]. }
  destruct r1 as [|b r2]; [discriminate |].
  destruct (white (String a (String b ""))) eqn:H2.
  { intros Hs. destruct (IH r2 ltac:(simpl; lia) Hs) as (ws & Hws & ->).
    exists (String a (String b "") :: ws). split; [now constructor | reflexivity]. }
  destruct r2 as [|c r3]; [discriminate |].
  destruct (white (String a (String b (String c "")))) eqn:H3; [| discriminate].
  intros Hs. destruct (IH r3 ltac:(simpl; lia) Hs) as (ws & Hws & ->).
  exists (String a (String b (String c "")) :: ws).
  split; [now constructor | reflexivity].
Qed.

(** No white-space character begins with another one, so the leading one
    is the one removed. *)
Lemma trimStart_char (c rest : string) :
  In c Js.whiteSpace -> Js.trimStart (c +:+ rest) = Js.trimStart rest.
Proof.
  intros Hin. unfold Js.trimStart. simpl in Hin.
  repeat (destruct Hin as [<-|Hin]; [reflexivity |]). contradiction.
Qed.

Lemma trimStart_chars (ws : list string) :
  Forall (fun c => In c Js.whiteSpace) ws ->
  Js.trimStart (fold_right String.append "" ws) = "".
Proof.
  induction 1 as [|c ws Hc _ IH]; [reflexivity |].
  simpl. now rewrite trimStart_char.
Qed.

Lemma isWhiteSpace_In (c : string) : Js.isWhiteSpace c = true <-> In c Js.whiteSpace.
Proof.
  unfold Js.isWhiteSpace. rewrite existsb_exists. split.
  - intros (x & Hx & Heq). apply String.eqb_eq in Heq. now subst.
  - intros Hin. exists c. split; [exact Hin | apply String.eqb_refl].
Qed.

(** A string is blank exactly when it is made of white space. *)
Lemma blank_whiteOnly (s : string) : blank s = true <-> whiteOnly s.
Proof.
  unfold blank, whiteOnly. rewrite negb_true_iff, truthy_empty. split.
  - intros Hs. destruct (strip_empty _ _ Hs) as (ws & Hws & ->).
    exists ws. split; [| reflexivity].
    eapply List.Forall_impl; [| exact Hws]. intros c. apply isWhiteSpace_In.
  - intros (ws & Hws & ->). now apply trimStart_chars.
Qed.

(** [line.trim()] is truthy exactly when the line is not blank: what the
    removal of the leading white space leaves is not emptied from the end. *)
Lemma truthy_trim (s : string) : Js.truthy (Js.trim s) = negb (blank s).
Proof.
  unfold blank. rewrite negb_involutive.
  unfold Js.trim, Js.trimEnd. rewrite truthy_revString.
  destruct (Js.truthy (Js.strip _ (Js.revString (Js.trimStart s)))) eqn:Hend.
  - destruct (Js.trimStart s); [discriminate Hend | reflexivity].
  - apply truthy_empty in Hend.
    destruct (strip_empty _ _ Hend) as (ws & Hws & Hrev).
    apply (f_equal Js.revString) in Hrev.
    rewrite revString_involutive, revString_concat in Hrev.
    assert (Hblank : Js.trimStart (Js.trimStart s) = "").
    { rewrite Hrev. apply trimStart_chars.
      apply Forall_map, Forall_rev.
      eapply List.Forall_impl; [| exact Hws]. intros c. apply isWhiteSpace_In. }
    unfold Js.trimStart in Hblank at 1 2. rewrite strip_idem in Hblank.
    unfold Js.trimStart. now rewrite Hblank.
Qed.

End TrimFacts.

(** X3: the manifest entries are the newline-separated lines of the file
    that are not made of white space only, in the order of the file and as
    often as they occur; they are taken as they stand, untrimmed, and none
    holds a newline.  White space is that of [String.prototype.trim]. *)
Theorem manifest_entries_are_the_nonblank_lines :
  forall content : string,
    GitlabClient.manifestLines content
    = List.filter (fun line => negb (blank line)) (Js.split "010" content)
    /\ Forall (fun line => Js.contains "010" line = false)
              (GitlabClient.manifestLines content)
    /\ forall line : string, blank line = true <-> whiteOnly line.
Proof.
  intros content. split; [| split].
  - unfold GitlabClient.manifestLines. apply filter_ext. intros line.
    apply truthy_trim.
  - unfold GitlabClient.manifestLines. apply List.Forall_forall.
    intros line Hin. apply filter_In in Hin as [Hin _].
    pose proof (split_segments "010" content) as Hseg.
    rewrite List.Forall_forall in Hseg. now apply Hseg.
  - apply blank_whiteOnly.
Qed.

Section PathFacts.

Context {S : Type} {api : GitlabApi S}.
Variable dest : string.

(** A line that ends in slash and star is the wildcard on what precedes. *)
Lemma processLine_star (g : string) (w : World S) :
  GitlabClient.processLine dest (g +:+ "/*") w
  = (repositories <- GitlabClient.getAllGroupRepositories g ;;
     forOf repositories
       (fun repo =>
          GitlabClient.createWebhook dest
            (RepositoryRef.groupPath repo) (RepositoryRef.repoName repo) ;;;
          ret tt)) w.
Proof.
  unfold GitlabClient.processLine.
  change (g +:+ "/*") with (g +:+ "/" +:+ "*").
  rewrite (pop_split_path g "*" eq_refl). cbv beta iota zeta. unfold Js.nonNull.
  simpl String.eqb. cbv iota. now rewrite join_split.
Qed.

Lemma Emits_forOf_in {A : Type} P (xs : list A) (body : A -> M S unit) :
  (forall x, In x xs -> Emits P (body x)) -> Emits P (forOf xs body).
Proof.
  induction xs as [|x xs IH]; intros Hb; simpl.
  - apply Emits_ret.
  - apply Emits_bind; [apply Hb; now left |].
    intros _. apply IH. intros y Hy. apply Hb. now right.
Qed.

(** The reference cut from a path with a slash spells that path again. *)
Lemma refOf_path (project : Project) :
  Js.contains "/" (Project.path_with_namespace project) = true ->
  RepositoryRef.groupPath (refOf project) +:+ "/"
    +:+ RepositoryRef.repoName (refOf project)
  = Project.path_with_namespace project.
Proof.
  intros Hs. destruct (path_segments (Project.path_with_namespace project))
    as (_ & Hpath & _).
  symmetry. exact (Hpath Hs).
Qed.

End PathFacts.

(** X4: for a manifest line that holds a slash and does not end in the star
    segment, the project path sent to the remote is the line itself: the
    first call fetches the webhooks of that path and every further call is a
    webhook call on it. *)
Theorem direct_entry_calls_name_the_line :
  forall (S : Type) (api : GitlabApi S) (dest line : string) (w : World S),
    Js.contains "/" line = true ->
    List.last (Js.split "/" line) "" <> "*" ->
    exists ok rest,
      log (GitlabClient.processLine dest line w).1
        = log w ++ (ProjectHooks_all line, ok) :: rest
      /\ Forall (fun e => hookCallOn line e.1) rest.
Proof.
  intros S api dest line w Hslash Hlast.
  destruct (path_segments line) as (_ & Hpath & _). specialize (Hpath Hslash).
  rewrite (processLine_direct_run dest line w Hlast), discard_run. simpl.
  destruct (createWebhook_first_call dest
              (Js.join "/" (removelast (Js.split "/" line)))
              (List.last (Js.split "/" line) "") w) as (ok & rest & Hlog & _).
  destruct (Emits_createWebhook_on dest
              (Js.join "/" (removelast (Js.split "/" line)))
              (List.last (Js.split "/" line) "") w) as (d & Hlog' & Hd).
  rewrite <- Hpath in *. exists ok, rest. split; [exact Hlog |].
  rewrite Hlog in Hlog'. apply app_inv_head in Hlog'. subst d.
  now apply Forall_inv_tail in Hd.
Qed.

(** X5: a line [g/*] first lists the projects of the group [g], subgroups
    included, with page size 100; when that call fails it is the only call
    made for the line and the line throws. *)
Theorem wildcard_line_lists_its_group :
  forall (S : Type) (api : GitlabApi S) (dest g : string) (w : World S),
    exists ok rest,
      log (GitlabClient.processLine dest (g +:+ "/*") w).1
        = log w ++ (Groups_projects g
                      [ ("include_subgroups", Js.VBool true);
                        ("per_page", Js.VNum 100) ], ok) :: rest
      /\ (ok = false ->
          rest = [] /\ isOk (GitlabClient.processLine dest (g +:+ "/*") w).2 = false).
Proof.
  intros S api dest g w. rewrite processLine_star.
  destruct (groupsProjects g GitlabClient.groupOptions (remote w))
    as [s1 [projects|e]] eqn:Hcall.
  - erewrite bind_ok by (apply getAllGroupRepositories_ok; exact Hcall).
    destruct (Emits_reconcile_all dest (map refOf projects)
                (mkWorld s1 (log w ++ [(Groups_projects g GitlabClient.groupOptions,
                                        true)])))
      as (d & Hlog & _).
    exists true, d. rewrite Hlog. simpl. rewrite <- app_assoc.
    split; [reflexivity | discriminate].
  - erewrite bind_throw by (apply getAllGroupRepositories_fails; exact Hcall).
    exists false, []. simpl. split; [reflexivity |]. now split.
Qed.

Section WildcardOrder.

Context {S : Type} {api : GitlabApi S}.
Variable dest : string.

(** Cut at the last slash and joined again, a path is its reconciled path. *)
Lemma reconciledPath_segments (path : string) :
  Js.join "/" (removelast (Js.split "/" path)) +:+ "/"
    +:+ List.last (Js.split "/" path) ""
  = reconciledPath path.
Proof.
  unfold reconciledPath. destruct (path_segments path) as (_ & Hslash & Hnone).
  destruct (Js.contains "/" path).
  - symmetry. now apply Hslash.
  - destruct (Hnone eq_refl) as [-> ->]. apply append_empty_l.
Qed.

Lemma reconcile_ref_calls (project : Project) (w : World S) :
  exists d,
    log ((GitlabClient.createWebhook dest
            (RepositoryRef.groupPath (refOf project))
            (RepositoryRef.repoName (refOf project)) ;;; ret tt) w).1
    = log w ++ d
    /\ projectCalls project d
    /\ strict d
         ((GitlabClient.createWebhook dest
             (RepositoryRef.groupPath (refOf project))
             (RepositoryRef.repoName (refOf project)) ;;; ret tt) w).2.
Proof.
  destruct (Strict_bind
              (GitlabClient.createWebhook dest
                 (RepositoryRef.groupPath (refOf project))
                 (RepositoryRef.repoName (refOf project)))
              (fun _ => ret tt)
              (Strict_createWebhook dest _ _) (fun _ => Strict_ret tt) w)
    as (d & Hlog & Hstrict).
  exists d. split; [exact Hlog |]. split; [| exact Hstrict].
  rewrite discard_run in Hlog. cbn [fst] in Hlog.
  destruct (createWebhook_first_call dest
              (RepositoryRef.groupPath (refOf project))
              (RepositoryRef.repoName (refOf project)) w) as (ok & rest & Hfirst & _).
  destruct (Emits_createWebhook_on dest
              (RepositoryRef.groupPath (refOf project))
              (RepositoryRef.repoName (refOf project)) w) as (d' & Hlog' & Hd).
  pose proof (reconciledPath_segments (Project.path_with_namespace project)) as Hpath.
  change (RepositoryRef.groupPath (refOf project) +:+ "/"
            +:+ RepositoryRef.repoName (refOf project)
          = reconciledPath (Project.path_with_namespace project)) in Hpath.
  rewrite Hpath in Hfirst, Hd.
  rewrite Hlog in Hlog'. apply app_inv_head in Hlog'. subst d'.
  split; [| exact Hd].
  rewrite Hlog in Hfirst. apply app_inv_head in Hfirst. now exists ok, rest.
Qed.

Lemma reconcile_refs_in_order (projects : list Project) :
  forall w : World S,
    exists ds,
      log (forOf (map refOf projects)
             (fun repo =>
                GitlabClient.createWebhook dest
                  (RepositoryRef.groupPath repo) (RepositoryRef.repoName repo) ;;;
                ret tt) w).1
      = log w ++ concat ds
      /\ Forall2 projectCalls (take (length ds) projects) ds
      /\ stopsAtFailure (length projects) ds
           (forOf (map refOf projects)
              (fun repo =>
                 GitlabClient.createWebhook dest
                   (RepositoryRef.groupPath repo) (RepositoryRef.repoName repo) ;;;
                 ret tt) w).2.
Proof.
  induction projects as [|p ps IH]; intros w.
  - exists []. simpl. rewrite app_nil_r. repeat split; constructor.
  - destruct (reconcile_ref_calls p w) as (d & Hlog & Hd & Hstrict).
    cbn [map forOf].
    destruct ((GitlabClient.createWebhook dest
                 (RepositoryRef.groupPath (refOf p))
                 (RepositoryRef.repoName (refOf p)) ;;; ret tt) w)
      as [w1 [[]|e]] eqn:Hrun; simpl in Hlog, Hstrict.
    + rewrite (bind_ok _ _ _ _ _ Hrun).
      destruct (IH w1) as (ds & Hlog1 & Hds & Hstop).
      exists (d :: ds). cbn [concat length take].
      rewrite Hlog1, Hlog, app_assoc.
      split; [reflexivity |]. split; [now constructor |].
      unfold stopsAtFailure in *.
      destruct (forOf (map refOf ps) _ w1).2 as [[]|e].
      * destruct Hstop as [Hlen Hclean]. simpl. split; [now rewrite Hlen |].
        now constructor.
      * destruct Hstop as (ds0 & d0 & c & -> & Hclean & Hd0).
        exists (d :: ds0), d0, c. split; [reflexivity |]. split; [| exact Hd0].
        now constructor.
    + rewrite (bind_throw _ _ _ _ _ Hrun).
      exists [d]. simpl. rewrite app_nil_r. split; [exact Hlog |].
      split; [rewrite take_0; constructor; [exact Hd | constructor] |].
      destruct Hstrict as (d0 & c & -> & Hd0).
      exists [], d0, c. split; [reflexivity |]. split; [constructor | exact Hd0].
Qed.

End WildcardOrder.

(** X6: when the listing for a line [g/*] returns, the line reconciles the
    listed projects one after the other in the listed order, each at its
    reconciled path -- its own full path, or a slash and the full path when
    that holds no slash -- and stops with the first project that fails: the
    stretches of calls are those of the first projects of the listing, all
    calls completed except, when the line throws, the last call of the last
    stretch; when the line returns there is a stretch for every project. *)
Theorem wildcard_reconciles_in_listed_order :
  forall (S : Type) (api : GitlabApi S) (dest g : string) (w : World S)
         (s1 : S) (projects : list Project),
    groupsProjects g GitlabClient.groupOptions (remote w) = (s1, Ok projects) ->
    exists ds,
      log (GitlabClient.processLine dest (g +:+ "/*") w).1
        = log w ++ (Groups_projects g GitlabClient.groupOptions, true) :: concat ds
      /\ Forall2 projectCalls (take (length ds) projects) ds
      /\ stopsAtFailure (length projects) ds
           (GitlabClient.processLine dest (g +:+ "/*") w).2.
Proof.
  intros S api dest g w s1 projects Hcall. rewrite processLine_star.
  erewrite bind_ok by (apply getAllGroupRepositories_ok; exact Hcall).
  destruct (reconcile_refs_in_order dest projects
              (mkWorld s1 (log w ++ [(Groups_projects g GitlabClient.groupOptions,
                                      true)])))
    as (ds & Hlog & Hds & Hstop).
  exists ds. rewrite Hlog. simpl. rewrite <- app_assoc. now repeat split.
Qed.


(* ===================================================================== *)
(** * Further properties of the script against the double                 *)
(* ===================================================================== *)

Section RelatesFacts.

Variable R : Double.t -> Double.t -> Prop.
Hypothesis R_same : forall s s', same s s' -> R s s'.
Hypothesis R_trans : forall s1 s2 s3, R s1 s2 -> R s2 s3 -> R s1 s3.
Variable onSuccess : bool.

Lemma Relates_ret {A : Type} (a : A) : Relates R onSuccess (ret a).
Proof. intros w Hwf. simpl. split; [exact Hwf |]. intros _. apply R_same, same_refl. Qed.

Lemma Relates_lift {A : Type} (r : Result A) :
  Relates R onSuccess (fun w : World Double.t => (w, r)).
Proof. intros w Hwf. simpl. split; [exact Hwf |]. intros _. apply R_same, same_refl. Qed.

Lemma Relates_bind {A B : Type} (m : M Double.t A) (k : A -> M Double.t B) :
  Relates R onSuccess m -> (forall a, Relates R onSuccess (k a)) ->
  Relates R onSuccess (bind m k).
Proof.
  intros Hm Hk w Hwf. unfold bind. destruct (Hm w Hwf) as [Hwf1 HR1].
  destruct (m w) as [w1 [a|e]]; simpl in *.
  - destruct (Hk a w1 Hwf1) as [Hwf2 HR2]. split; [exact Hwf2 |].
    intros Hc. apply R_trans with (remote w1); [apply HR1; reflexivity | now apply HR2].
  - split; [exact Hwf1 |]. intros Hc. now apply HR1.
Qed.

Lemma Relates_tryCatch {A : Type} (m : M Double.t A) :
  Relates R onSuccess m -> Relates R onSuccess (tryCatch m (fun error => throw error)).
Proof. intros Hm w. rewrite tryCatch_rethrow. apply Hm. Qed.

Lemma Relates_forOf {A : Type} (xs : list A) (body : A -> M Double.t unit) :
  (forall x, Relates R onSuccess (body x)) -> Relates R onSuccess (forOf xs body).
Proof.
  intros Hb. induction xs as [|x xs IH]; simpl.
  - apply Relates_ret.
  - apply Relates_bind; [apply Hb | intros _; exact IH].
Qed.

Lemma Relates_same_op {A : Type} (c : Call) (op : Double.t -> Double.t * Result A) :
  (forall s s' r, op s = (s', r) -> same s s') -> Relates R onSuccess (invoke c op).
Proof.
  intros Hop w Hwf. unfold invoke.
  destruct (op (remote w)) as [s' r] eqn:E. simpl. apply Hop in E.
  split; [eapply same_wf; eassumption | intros _; now apply R_same].
Qed.

Variable dest : string.
Hypothesis R_reconcile :
  forall g r, Relates R onSuccess (GitlabClient.createWebhook dest g r).

Lemma groups_inv g o s s' r : groupsProjects g o s = (s', r) -> same s s'.
Proof.
  intros H. apply request_inv in H as (s0 & Hsame & [[-> _] | H]); [exact Hsame |].
  unfold Double.allGroupProjects in H.
  destruct (Double.groups s0 !! g); now injection H as <- _.
Qed.

Lemma Relates_processLine line :
  Relates R onSuccess (GitlabClient.processLine dest line).
Proof.
  unfold GitlabClient.processLine. destruct (Js.pop _) as [last parts].
  destruct (String.eqb _ _).
  - apply Relates_bind.
    + apply Relates_tryCatch, Relates_bind.
      * apply Relates_tryCatch, Relates_same_op. apply groups_inv.
      * intros projects. apply Relates_ret.
    + intros refs. apply Relates_forOf. intros ref.
      apply Relates_bind; [apply R_reconcile | intros _; apply Relates_ret].
  - apply Relates_bind; [apply R_reconcile | intros _; apply Relates_ret].
Qed.

Lemma Relates_manifestRun file readFileSync :
  Relates R onSuccess (manifestRun dest file readFileSync).
Proof.
  apply Relates_bind; [apply Relates_lift |].
  intros content. apply Relates_forOf, Relates_processLine.
Qed.

End RelatesFacts.

Section FrameFacts.

Import Double.

Variable dest : string.

Lemma Frame_same s s' : same s s' -> Frame dest s s'.
Proof. intros (_ & Hh & _) pid l Hl. exists l. now rewrite Hh. Qed.

Lemma Frame_trans s1 s2 s3 : Frame dest s1 s2 -> Frame dest s2 s3 -> Frame dest s1 s3.
Proof.
  intros H12 H23 pid l Hl. destruct (H12 pid l Hl) as (l2 & Hl2 & E2).
  destruct (H23 pid l2 Hl2) as (l3 & Hl3 & E3). exists l3. split; congruence.
Qed.

Lemma Grows_same s s' : same s s' -> Grows dest s s'.
Proof.
  intros (Hp & Hh & _). split; [exact Hp |]. intros pid l Hl. exists l.
  now rewrite Hh.
Qed.

Lemma Grows_trans s1 s2 s3 : Grows dest s1 s2 -> Grows dest s2 s3 -> Grows dest s1 s3.
Proof.
  intros [Hp12 H12] [Hp23 H23]. split; [congruence |]. intros pid l Hl.
  destruct (H12 pid l Hl) as (l2 & Hl2 & E2).
  destruct (H23 pid l2 Hl2) as (l3 & Hl3 & E3). exists l3. split; [exact Hl3 | lia].
Qed.

Lemma Grows_installed s s' p : Grows dest s s' -> installed dest s p -> installed dest s' p.
Proof.
  intros [Hp Hg] (l & Hl & Hne). unfold installed, hooksAt in *. rewrite Hp.
  destruct (projects s !! p) as [pid|]; [| discriminate].
  destruct (Hg pid l Hl) as (l' & Hl' & Hlen). exists l'. split; [exact Hl' |].
  intros E. rewrite E in Hlen. destruct (matching dest l); [congruence | simpl in Hlen; lia].
Qed.

Lemma Grows_known s s' p : Grows dest s s' -> is_Some (hooksAt s p) -> is_Some (hooksAt s' p).
Proof.
  intros [Hp Hg] [l Hl]. unfold hooksAt in *. rewrite Hp.
  destruct (projects s !! p) as [pid|]; [| discriminate].
  destruct (Hg pid l Hl) as (l' & Hl' & _). now exists l'.
Qed.

Lemma Effect_frame p s s' res : Effect dest p s s' res -> Frame dest s s'.
Proof.
  intros [s1 e Hsame
         | pid l h s1 Hp Hh Hl Hurl Hid Hp1 Hh1 Hn1
         | pid pre hook post s1 e Hp Hh Hurl Hpre Hp1 Hh1 Hn1
         | pid pre hook post h s1 Hp Hh Hurl Hpre Hurl' Hid Hp1 Hh1 Hn1] pid0 l0 Hl0.
  - now apply (Frame_same _ _ Hsame).
  - rewrite Hh1. destruct (decide (pid = pid0)) as [<-|Hne].
    + rewrite lookup_insert_eq. eexists. split; [reflexivity |].
      rewrite Hh in Hl0. injection Hl0 as <-. now apply others_snoc_match.
    + rewrite lookup_insert_ne by exact Hne. now exists l0.
  - rewrite Hh1. destruct (decide (pid = pid0)) as [<-|Hne].
    + rewrite lookup_insert_eq. eexists. split; [reflexivity |].
      rewrite Hh in Hl0. injection Hl0 as <-. symmetry.
      now apply others_remove_match.
    + rewrite lookup_insert_ne by exact Hne. now exists l0.
  - rewrite Hh1. destruct (decide (pid = pid0)) as [<-|Hne].
    + rewrite lookup_insert_eq. eexists. split; [reflexivity |].
      rewrite Hh in Hl0. injection Hl0 as <-.
      rewrite app_assoc, (others_snoc_match _ _ _ Hurl'). symmetry.
      now apply others_remove_match.
    + rewrite lookup_insert_ne by exact Hne. now exists l0.
Qed.

Lemma Effect_grows p s s' res :
  Effect dest p s s' res -> isOk res = true ->
  Grows dest s s' /\ installed dest s' p.
Proof.
  intros [s1 e Hsame
         | pid l h s1 Hp Hh Hl Hurl Hid Hp1 Hh1 Hn1
         | pid pre hook post s1 e Hp Hh Hurl Hpre Hp1 Hh1 Hn1
         | pid pre hook post h s1 Hp Hh Hurl Hpre Hurl' Hid Hp1 Hh1 Hn1] Hok;
    try discriminate.
  - split.
    + split; [exact Hp1 |]. intros pid0 l0 Hl0. rewrite Hh1.
      destruct (decide (pid = pid0)) as [<-|Hne].
      * rewrite lookup_insert_eq. eexists. split; [reflexivity |].
        rewrite Hh in Hl0. injection Hl0 as <-.
        rewrite matching_app, length_app. lia.
      * rewrite lookup_insert_ne by exact Hne. now exists l0.
    + exists (l ++ [h]). unfold hooksAt.
      rewrite Hp1, Hp, Hh1, lookup_insert_eq. split; [reflexivity |].
      rewrite matching_app, (matching_one _ _ Hurl). now destruct (matching dest l).
  - split.
    + split; [exact Hp1 |]. intros pid0 l0 Hl0. rewrite Hh1.
      destruct (decide (pid = pid0)) as [<-|Hne].
      * rewrite lookup_insert_eq. eexists. split; [reflexivity |].
        rewrite Hh in Hl0. injection Hl0 as <-.
        rewrite !matching_app, (matching_cons _ _ _ Hurl), (matching_one _ _ Hurl').
        rewrite !length_app. simpl. rewrite ?length_app. simpl. lia.
      * rewrite lookup_insert_ne by exact Hne. now exists l0.
    + exists (pre ++ post ++ [h]). unfold hooksAt.
      rewrite Hp1, Hp, Hh1, lookup_insert_eq. split; [reflexivity |].
      rewrite !matching_app, (matching_one _ _ Hurl').
      destruct (matching dest pre); [destruct (matching dest post) |]; discriminate.
Qed.

Lemma Relates_createWebhook_frame g r :
  Relates (Frame dest) false (GitlabClient.createWebhook dest g r).
Proof.
  intros w Hwf. pose proof (createWebhook_effect dest g r w Hwf) as E.
  split; [eapply Effect_wf; eassumption |]. intros _. eapply Effect_frame; eassumption.
Qed.

Lemma Relates_createWebhook_grows g r :
  Relates (Grows dest) true (GitlabClient.createWebhook dest g r).
Proof.
  intros w Hwf. pose proof (createWebhook_effect dest g r w Hwf) as E.
  split; [eapply Effect_wf; eassumption |]. intros Hok.
  eapply Effect_grows; [eassumption | now apply Hok].
Qed.

Lemma Relates_grows_forOf lines :
  Relates (Grows dest) true (forOf lines (GitlabClient.processLine dest)).
Proof.
  apply Relates_forOf; [apply Grows_same | apply Grows_trans |].
  intros line. apply Relates_processLine;
    [apply Grows_same | apply Grows_trans | apply Relates_createWebhook_grows].
Qed.

End FrameFacts.

Section RunFacts.

Import Double.

Variable dest : string.

(** A direct entry is reconciled at the reconciled path of the line. *)
Lemma processLine_line (line : string) (w : World Double.t) :
  List.last (Js.split "/" line) "" <> "*" ->
  exists g r,
    reconciledPath line = g +:+ "/" +:+ r
    /\ GitlabClient.processLine dest line w
       = (GitlabClient.createWebhook dest g r ;;; ret tt) w.
Proof.
  intros Hlast.
  exists (Js.join "/" (removelast (Js.split "/" line))),
         (List.last (Js.split "/" line) "").
  split; [symmetry; apply reconciledPath_segments | now apply processLine_direct_run].
Qed.

Lemma forOf_installs (lines : list string) :
  forall w : World Double.t,
    wf (remote w) ->
    isOk (forOf lines (GitlabClient.processLine dest) w).2 = true ->
    forall line,
      In line lines ->
      List.last (Js.split "/" line) "" <> "*" ->
      installed dest (remote (forOf lines (GitlabClient.processLine dest) w).1)
                (reconciledPath line).
Proof.
  induction lines as [|x xs IH]; intros w Hwf Hok line Hin Hlast;
    [contradiction |].
  cbn [forOf] in *.
  destruct (GitlabClient.processLine dest x w) as [w1 [[]|e]] eqn:Hrun.
  2:{ rewrite (bind_throw _ _ _ _ _ Hrun) in Hok. discriminate. }
  rewrite (bind_ok _ _ _ _ _ Hrun) in *.
  assert (Hwf1 : wf (remote w1)).
  { pose proof (Relates_processLine (Grows dest) (Grows_same dest) (Grows_trans dest)
                  true dest (Relates_createWebhook_grows dest) x w Hwf) as [H _].
    now rewrite Hrun in H. }
  destruct Hin as [<-|Hin]; [| now apply IH].
  destruct (processLine_line x w Hlast) as (g & r & Hpath & Hline).
  rewrite Hline, discard_run in Hrun.
  pose proof (createWebhook_effect dest g r w Hwf) as E.
  destruct (GitlabClient.createWebhook dest g r w) as [w' [h|e]];
    simpl in *; [| discriminate].
  injection Hrun as ->.
  destruct (Effect_grows dest _ _ _ _ E eq_refl) as [_ Hinst].
  rewrite <- Hpath in Hinst.
  destruct (Relates_grows_forOf dest xs w1 Hwf1) as [_ Hgrow].
  eapply Grows_installed; [apply Hgrow; intros _; exact Hok | exact Hinst].
Qed.

Lemma forOf_quiet (lines : list string) :
  forall w : World Double.t,
    wf (remote w) ->
    faults (remote w) = [] ->
    (forall line,
        In line lines ->
        List.last (Js.split "/" line) "" <> "*"
        /\ is_Some (hooksAt (remote w) (reconciledPath line))) ->
    isOk (forOf lines (GitlabClient.processLine dest) w).2 = true.
Proof.
  induction lines as [|x xs IH]; intros w Hwf Hf Hlines; [reflexivity |].
  cbn [forOf].
  destruct (Hlines x (or_introl eq_refl)) as (Hlast & [l Hl]).
  destruct (processLine_line x w Hlast) as (g & r & Hpath & Hline).
  rewrite Hpath in Hl.
  destruct (createWebhook_quiet dest g r w l Hf Hl) as [Hok Hf1].
  pose proof (createWebhook_effect dest g r w Hwf) as E.
  pose proof (Effect_wf _ _ _ _ _ E Hwf) as Hwf1.
  destruct (Effect_grows dest _ _ _ _ E Hok) as [Hgrow _].
  unfold bind. rewrite Hline, discard_run.
  destruct (GitlabClient.createWebhook dest g r w) as [w1 [h|e]];
    simpl in *; [| discriminate].
  apply IH; [exact Hwf1 | exact Hf1 |].
  intros line Hin. destruct (Hlines line (or_intror Hin)) as (H1 & H2).
  split; [exact H1 |]. eapply Grows_known; eassumption.
Qed.

(** The webhook a create call on the double returns. *)
Lemma add_hook p s s3 h :
  projectHooksAdd p dest (GitlabClient.webhookConfig dest) s = (s3, Ok h) ->
  exists n, h = newHook n dest (GitlabClient.webhookConfig dest).
Proof.
  intros H. apply request_inv in H as (s0 & _ & [[_ H] | H]); [discriminate |].
  unfold byPath, createHook in H.
  destruct (projects s0 !! p) as [pid|]; [| discriminate].
  destruct (hooks s0 !! pid) as [l|]; [| discriminate].
  simpl in H. injection H as _ <-. now eexists.
Qed.

Lemma result_hook g r (w : World Double.t) h :
  (GitlabClient.createWebhook dest g r w).2 = Ok h ->
  exists n, h = newHook n dest (GitlabClient.webhookConfig dest).
Proof.
  destruct (createWebhook_cases dest g r w) as
    [s1 e H1 | s1 ex s3 res H1 H2 H3 | s1 ex hk s2 e H1 H2 H3
     | s1 ex hk s2 s3 res H1 H2 H3 H4]; simpl; intros E; try discriminate;
    subst res; eapply add_hook; eassumption.
Qed.

End RunFacts.

(** X8: a whole run, however it ends, leaves every webhook whose url differs
    from the configured webhook URL as it was, on every project of the
    remote. *)
Theorem run_leaves_other_webhooks :
  forall (env : Env.t) (validUrl : string -> bool)
         (readFileSync : string -> Result string) (s : Double.t) (dest : string),
    Double.wf s ->
    Env.WEBHOOK_URL env = Some dest ->
    forall (pid : Z) (l : list Webhook),
      Double.hooks s !! pid = Some l ->
      exists l',
        Double.hooks (remote (GitlabClient.main env validUrl readFileSync (init s)).1)
          !! pid = Some l'
        /\ others dest l' = others dest l.
Proof.
  intros env validUrl readFileSync s dest Hwf Hurl pid l Hl.
  unfold GitlabClient.main. rewrite Hurl.
  destruct (missing (Env.GITLAB_PAT env)); [now exists l |].
  destruct (negb (Js.truthy dest)); [now exists l |].
  destruct (validUrl dest); [| now exists l].
  rewrite processRepositories_run. simpl.
  destruct (Relates_manifestRun (Frame dest) (Frame_same dest) (Frame_trans dest)
              false dest (Relates_createWebhook_frame dest)
              (orDefault (Env.REPOS_FILE env) "repos.txt") readFileSync
              (init s) Hwf) as [_ Hframe].
  apply Hframe; [discriminate | exact Hl].
Qed.

(** X9: when a run over a readable manifest ends with exit status 0, the
    project at the reconciled path of every direct entry -- the entry
    itself when it holds a slash, a slash and the entry when it holds none --
    has at least one webhook on the destination URL at the end. *)
Theorem successful_run_installs_direct_entries :
  forall (dest file : string) (readFileSync : string -> Result string)
         (content : string) (w : World Double.t),
    Double.wf (remote w) ->
    readFileSync file = Ok content ->
    (GitlabClient.processRepositories dest file readFileSync w).2 = 0 ->
    forall line,
      In line (GitlabClient.manifestLines content) ->
      List.last (Js.split "/" line) "" <> "*" ->
      exists l,
        Double.hooksAt
          (remote (GitlabClient.processRepositories dest file readFileSync w).1)
          (reconciledPath line)
        = Some l
        /\ matching dest l <> [].
Proof.
  intros dest file readFileSync content w Hwf Hread Hexit line Hin Hlast.
  rewrite processRepositories_run in *. simpl in *.
  rewrite (manifestRun_read dest _ _ _ _ Hread) in *.
  apply (forOf_installs dest _ w Hwf); try assumption.
  destruct (isOk _); [reflexivity | discriminate].
Qed.

(** X10: without outages, a run over a readable manifest of direct entries
    ends with exit status 0 when the remote knows a project at the
    reconciled path of every entry -- the entry itself when it holds a
    slash, a slash and the entry when it holds none. *)
Theorem run_without_outage_succeeds :
  forall (dest file : string) (readFileSync : string -> Result string)
         (content : string) (w : World Double.t),
    Double.wf (remote w) ->
    Double.faults (remote w) = [] ->
    readFileSync file = Ok content ->
    (forall line,
        In line (GitlabClient.manifestLines content) ->
        List.last (Js.split "/" line) "" <> "*"
        /\ is_Some (Double.hooksAt (remote w) (reconciledPath line))) ->
    (GitlabClient.processRepositories dest file readFileSync w).2 = 0.
Proof.
  intros dest file readFileSync content w Hwf Hf Hread Hlines.
  rewrite processRepositories_run. simpl.
  rewrite (manifestRun_read dest _ _ _ _ Hread).
  now rewrite (forOf_quiet dest _ w Hwf Hf Hlines).
Qed.

(** X11: the webhook a successful reconciliation returns is the newest of
    the repository -- last in its list, with an id above all others -- and
    has the destination URL, push, merge-request and issue events and SSL
    verification switched on. *)
Theorem returned_webhook_is_installed :
  forall (dest g r : string) (w : World Double.t) (h : Webhook),
    Double.wf (remote w) ->
    (GitlabClient.createWebhook dest g r w).2 = Ok h ->
    exists before,
      Double.hooksAt (remote (GitlabClient.createWebhook dest g r w).1)
        (g +:+ "/" +:+ r) = Some (before ++ [h])
      /\ Forall (fun x => Webhook.id x < Webhook.id h) before
      /\ Webhook.url h = dest
      /\ Webhook.push_events h = true
      /\ Webhook.merge_requests_events h = true
      /\ Webhook.issues_events h = true
      /\ Webhook.enable_ssl_verification h = true.
Proof.
  intros dest g r w h Hwf Hres.
  destruct (result_hook dest g r w h Hres) as (n & Hh).
  assert (Hflags : Webhook.url h = dest
                   /\ Webhook.push_events h = true
                   /\ Webhook.merge_requests_events h = true
                   /\ Webhook.issues_events h = true
                   /\ Webhook.enable_ssl_verification h = true)
    by (rewrite Hh; repeat split; reflexivity).
  pose proof (createWebhook_effect dest g r w Hwf) as E. rewrite Hres in E.
  unfold Double.hooksAt.
  inversion E as
      [| pid l h' s1 Hp Hl Hno Hurl Hid Hp1 Hh1 Hn1
       | | pid pre hook post h' s1 Hp Hl Hurl Hpre Hurl' Hid Hp1 Hh1 Hn1]; subst h'.
  - exists l. rewrite Hp1, Hp, Hh1, lookup_insert_eq. split; [reflexivity |].
    split; [| exact Hflags]. rewrite Hid. exact (proj2 (Hwf _ _ Hl)).
  - exists (pre ++ post). rewrite Hp1, Hp, Hh1, lookup_insert_eq, app_assoc.
    split; [reflexivity |]. split; [| exact Hflags]. rewrite Hid.
    destruct (Hwf _ _ Hl) as [_ Hlt]. apply Forall_app in Hlt as [H1 H2].
    apply Forall_inv_tail in H2. now apply Forall_app.
Qed.

(** X12: reconciling a project the remote does not know is one failed fetch:
    no delete, no create, and the remote keeps its data. *)
Theorem unknown_project_is_one_failed_fetch :
  forall (dest g r : string) (w : World Double.t),
    Double.hooksAt (remote w) (g +:+ "/" +:+ r) = None ->
    log (GitlabClient.createWebhook dest g r w).1
      = log w ++ [(ProjectHooks_all (g +:+ "/" +:+ r), false)]
    /\ same (remote w) (remote (GitlabClient.createWebhook dest g r w).1)
    /\ isOk (GitlabClient.createWebhook dest g r w).2 = false.
Proof.
  intros dest g r w Hnone.
  destruct (createWebhook_cases dest g r w) as
    [s1 e H1 | s1 ex s3 res H1 H2 H3 | s1 ex hk s2 e H1 H2 H3
     | s1 ex hk s2 s3 res H1 H2 H3 H4]; simpl;
    apply all_inv in H1 as [Hsame Hl];
    try (specialize (Hl _ eq_refl); congruence).
  split; [reflexivity |]. split; [exact Hsame | reflexivity].
Qed.

(* ===================================================================== *)
(** * Further properties of the [axios] revision                          *)
(* ===================================================================== *)

Section AxiosLog.

Context {S : Type} {api : HttpApi S}.
Variable dest : string.

Lemma Orderly_axios_createWebhook g r : Orderly (AxiosClient.createWebhook dest g r).
Proof.
  apply Orderly_tryCatch, Orderly_bind.
  - apply Orderly_tryCatch, Orderly_bind; [apply Orderly_invoke |].
    intros response. apply Orderly_ret.
  - intros pid. apply Orderly_bind; [apply Orderly_invoke |].
    intros existing. apply Orderly_bind.
    + destruct (find _ existing); [apply Orderly_invoke | apply Orderly_ret].
    + intros _. apply Orderly_bind; [apply Orderly_invoke |].
      intros h. apply Orderly_ret.
Qed.

Lemma Orderly_fetchPages fuel g :
  forall page acc, Orderly (AxiosClient.fetchPages fuel g page acc).
Proof.
  induction fuel as [|fuel IH]; intros page acc; simpl.
  - apply Orderly_ret.
  - apply Orderly_bind; [apply Orderly_invoke |]. intros projects.
    destruct (_ <? _); [apply Orderly_ret | apply IH].
Qed.

Lemma Orderly_axios_expansion fuel g :
  Orderly (AxiosClient.getAllGroupRepositories fuel g).
Proof.
  apply Orderly_tryCatch, Orderly_bind; [apply Orderly_fetchPages |].
  intros [all|]; apply Orderly_ret.
Qed.

Lemma Orderly_axios_processLine fuel line :
  Orderly (AxiosClient.processLine dest fuel line).
Proof.
  unfold AxiosClient.processLine. destruct (Js.pop _) as [last parts].
  destruct (String.eqb _ _).
  - apply Orderly_bind; [apply Orderly_axios_expansion |].
    intros [refs|]; [| apply Orderly_ret].
    apply Orderly_bind; [| intros _; apply Orderly_ret].
    apply Orderly_forOf. intros ref.
    apply Orderly_bind; [apply Orderly_axios_createWebhook | intros _; apply Orderly_ret].
  - apply Orderly_bind; [apply Orderly_axios_createWebhook | intros _; apply Orderly_ret].
Qed.

Lemma Orderly_forOfFuel {A : Type} (xs : list A) (body : A -> M S (option unit)) :
  (forall x, Orderly (body x)) -> Orderly (AxiosClient.forOfFuel xs body).
Proof.
  intros Hb. induction xs as [|x xs IH]; simpl.
  - apply Orderly_ret.
  - apply Orderly_bind; [apply Hb |]. intros [u|]; [exact IH | apply Orderly_ret].
Qed.

Lemma Orderly_axiosRun file readFileSync fuel :
  Orderly (axiosRun dest file readFileSync fuel).
Proof.
  apply Orderly_bind; [apply Orderly_lift |].
  intros content. apply Orderly_forOfFuel. intros line.
  apply Orderly_axios_processLine.
Qed.

Lemma Emits_axios_createWebhook g r :
  Emits (fixedPost dest) (AxiosClient.createWebhook dest g r).
Proof.
  apply Emits_tryCatch, Emits_bind.
  - apply Emits_tryCatch, Emits_bind; [apply Emits_invoke; exact I |].
    intros response. apply Emits_ret.
  - intros pid. apply Emits_bind; [apply Emits_invoke; exact I |].
    intros existing. apply Emits_bind.
    + destruct (find _ existing); [apply Emits_invoke; exact I | apply Emits_ret].
    + intros _. apply Emits_bind; [apply Emits_invoke; reflexivity |].
      intros h. apply Emits_ret.
Qed.

Lemma Emits_fetchPages P fuel g :
  (forall page, P (GET_group_projects g (AxiosClient.pageParams page))) ->
  forall page acc, Emits P (AxiosClient.fetchPages fuel g page acc).
Proof.
  intros HP. induction fuel as [|fuel IH]; intros page acc; simpl.
  - apply Emits_ret.
  - apply Emits_bind; [apply Emits_invoke, HP |]. intros projects.
    destruct (_ <? _); [apply Emits_ret | apply IH].
Qed.

Lemma Emits_axios_processLine fuel line :
  Emits (fixedPost dest) (AxiosClient.processLine dest fuel line).
Proof.
  unfold AxiosClient.processLine. destruct (Js.pop _) as [last parts].
  destruct (String.eqb _ _).
  - apply Emits_bind.
    + apply Emits_tryCatch, Emits_bind.
      * apply Emits_fetchPages. intros page. exact I.
      * intros [all|]; apply Emits_ret.
    + intros [refs|]; [| apply Emits_ret].
      apply Emits_bind; [| intros _; apply Emits_ret].
      apply Emits_forOf. intros ref.
      apply Emits_bind; [apply Emits_axios_createWebhook | intros _; apply Emits_ret].
  - apply Emits_bind; [apply Emits_axios_createWebhook | intros _; apply Emits_ret].
Qed.

Lemma Emits_forOfFuel {A : Type} P (xs : list A) (body : A -> M S (option unit)) :
  (forall x, Emits P (body x)) -> Emits P (AxiosClient.forOfFuel xs body).
Proof.
  intros Hb. induction xs as [|x xs IH]; simpl.
  - apply Emits_ret.
  - apply Emits_bind; [apply Hb |]. intros [u|]; [exact IH | apply Emits_ret].
Qed.

Lemma Emits_axiosRun file readFileSync fuel :
  Emits (fixedPost dest) (axiosRun dest file readFileSync fuel).
Proof.
  apply Emits_bind; [apply Emits_lift |].
  intros content. apply Emits_forOfFuel. intros line.
  apply Emits_axios_processLine.
Qed.

Lemma axios_processRepositories_run file readFileSync fuel (w : World S) :
  AxiosClient.processRepositories dest file readFileSync fuel w
  = ((axiosRun dest file readFileSync fuel w).1,
     exitStatus (axiosRun dest file readFileSync fuel w).2).
Proof.
  unfold AxiosClient.processRepositories. fold (axiosRun dest file readFileSync fuel).
  destruct (axiosRun dest file readFileSync fuel w) as [w' [[[]|]|e]]; reflexivity.
Qed.

End AxiosLog.

(** X13: in the [axios] revision too, every webhook posted during a run has
    the configured webhook URL unchanged, push, merge-request and issue
    events and SSL verification true, no other flag and the hard-coded
    token. *)
Theorem axios_posted_webhook_is_fixed :
  forall (S : Type) (api : HttpApi S) (env : Env.t) (validUrl : string -> bool)
         (readFileSync : string -> Result string) (fuel : nat) (s : S),
    Forall
      (fun e =>
         forall pid body,
           e.1 = POST_project_hooks pid body ->
           exists url,
             Env.WEBHOOK_URL env = Some url
             /\ body = [ ("url", Js.VStr url);
                         ("push_events", Js.VBool true);
                         ("merge_requests_events", Js.VBool true);
                         ("issues_events", Js.VBool true);
                         ("enable_ssl_verification", Js.VBool true);
                         ("token", Js.VStr "secret-token") ])
      (log (AxiosClient.main env validUrl readFileSync fuel (init s)).1).
Proof.
  intros S api env validUrl readFileSync fuel s. unfold AxiosClient.main.
  destruct (missing (Env.GITLAB_PAT env)); [constructor |].
  destruct (Env.WEBHOOK_URL env) as [dest|]; [| constructor].
  destruct (negb (Js.truthy dest)); [constructor |].
  destruct (validUrl dest); [| constructor].
  rewrite axios_processRepositories_run. simpl.
  destruct (Emits_axiosRun dest (orDefault (Env.REPOS_FILE env) "repos.txt")
              readFileSync fuel (init s)) as (d & -> & Hd).
  simpl. eapply Forall_impl; [exact Hd |].
  intros [c ok] Hc pid body E. simpl in *. subst c. simpl in Hc.
  exists dest. now split.
Qed.

(** X14: in the [axios] revision, a request that fails during a run -- a
    project lookup, a page of a group, a fetch, a delete or a post -- is the
    last request of the run, and the exit status is 1. *)
Theorem axios_failed_request_ends_run :
  forall (S : Type) (api : HttpApi S) (env : Env.t) (validUrl : string -> bool)
         (readFileSync : string -> Result string) (fuel : nat) (s : S)
         (pre post : list (Call * bool)) (c : Call),
    log (AxiosClient.main env validUrl readFileSync fuel (init s)).1
      = pre ++ (c, false) :: post ->
    post = []
    /\ (AxiosClient.main env validUrl readFileSync fuel (init s)).2 = Some 1.
Proof.
  intros S api env validUrl readFileSync fuel s pre post c. unfold AxiosClient.main.
  assert (Hnil : forall l : list (Call * bool), [] = pre ++ (c, false) :: l -> False)
    by (intros l E; now destruct pre).
  destruct (missing (Env.GITLAB_PAT env)); [intros E; now destruct (Hnil _ E) |].
  destruct (Env.WEBHOOK_URL env) as [dest|]; [| intros E; now destruct (Hnil _ E)].
  destruct (negb (Js.truthy dest)); [intros E; now destruct (Hnil _ E) |].
  destruct (validUrl dest); [| intros E; now destruct (Hnil _ E)].
  rewrite axios_processRepositories_run. simpl.
  destruct (Orderly_axiosRun dest (orDefault (Env.REPOS_FILE env) "repos.txt")
              readFileSync fuel (init s)) as (d & Hlog & Hd).
  rewrite Hlog. simpl. intros E.
  destruct (orderly_failed_last _ _ _ _ _ Hd E) as [-> Hr].
  split; [reflexivity |].
  destruct ((axiosRun dest _ readFileSync fuel (init s)).2); [discriminate | reflexivity].
Qed.

Section AxiosSteps.

Context {S : Type} {api : HttpApi S}.
Variable dest : string.

Lemma axios_lookup_fails g r (w : World S) s0 e :
  getProject (g +:+ "/" +:+ r) (remote w) = (s0, Throw e) ->
  AxiosClient.createWebhook dest g r w
  = (mkWorld s0 (log w ++ [(GET_project (g +:+ "/" +:+ r), false)]), Throw e).
Proof.
  intros Hp. unfold AxiosClient.createWebhook, AxiosClient.getProjectId.
  rewrite tryCatch_rethrow. erewrite bind_throw; [reflexivity |].
  rewrite tryCatch_rethrow. erewrite bind_throw; [reflexivity |].
  apply (invoke_run _ _ _ _ _ Hp).
Qed.

Lemma axios_after_lookup g r (w : World S) s0 project :
  getProject (g +:+ "/" +:+ r) (remote w) = (s0, Ok project) ->
  exists ok rest,
    log (AxiosClient.createWebhook dest g r w).1
      = log w ++ (GET_project (g +:+ "/" +:+ r), true)
              :: (GET_project_hooks (Project.id project), ok) :: rest
    /\ Forall (fun e => addressedTo (g +:+ "/" +:+ r) (Project.id project) e.1) rest.
Proof.
  intros Hp. unfold AxiosClient.createWebhook, AxiosClient.getProjectId.
  rewrite tryCatch_rethrow.
  erewrite bind_ok;
    [| rewrite tryCatch_rethrow; erewrite bind_ok by apply (invoke_run _ _ _ _ _ Hp);
       reflexivity].
  simpl isOk. unfold bind at 1. unfold invoke at 1. simpl.
  destruct (getProjectHooks (Project.id project) s0) as [s1 [existing|e]]; simpl.
  2:{ exists false, []. rewrite <- app_assoc. split; [reflexivity | constructor]. }
  destruct (find _ existing) as [hook|].
  - unfold bind at 1. unfold invoke at 1. simpl.
    destruct (deleteProjectHook (Project.id project) (Webhook.id hook) s1)
      as [s2 [[]|e]]; simpl.
    + unfold bind, invoke, ret. simpl.
      destruct (postProjectHooks (Project.id project)
                  (AxiosClient.webhookConfig dest) s2) as [s3 [h|e]]; simpl;
        rewrite <- !app_assoc; eexists true, _; (split; [reflexivity |]);
        repeat constructor.
    + rewrite <- !app_assoc. eexists true, _. split; [reflexivity |].
      repeat constructor.
  - unfold bind, invoke, ret. simpl.
    destruct (postProjectHooks (Project.id project)
                (AxiosClient.webhookConfig dest) s1) as [s3 [h|e]]; simpl;
      rewrite <- !app_assoc; eexists true, _; (split; [reflexivity |]);
      repeat constructor.
Qed.

Lemma fetchPages_fails g page s n s' e :
  PagedThenFails g page s n s' e ->
  forall fuel lg acc,
    (n < fuel)%nat ->
    AxiosClient.fetchPages fuel g page acc (mkWorld s lg)
    = (mkWorld s' (lg ++ pageRequests g page n
                      ++ [(GET_group_projects g
                             (AxiosClient.pageParams (page + Z.of_nat n)), false)]),
       Throw e).
Proof.
  induction 1 as [page s s' e Hget
                 | page s s1 s' projects n e Hget Hfull Hrest IH];
    intros fuel lg acc Hfuel;
    (destruct fuel as [|fuel]; [lia |]); cbn [AxiosClient.fetchPages pageRequests].
  - erewrite bind_throw by (apply invoke_run; simpl; exact Hget).
    simpl. now rewrite Z.add_0_r.
  - erewrite bind_ok by (apply invoke_run; simpl; exact Hget).
    assert (Hge : (Z.of_nat (length projects) <? 100) = false)
      by (apply Z.ltb_ge; exact Hfull).
    unfold AxiosClient.perPage. rewrite Hge.
    rewrite IH by lia. simpl.
    rewrite <- !app_assoc. simpl.
    replace (page + 1 + Z.of_nat n) with (page + Z.of_nat (Datatypes.S n)) by lia.
    reflexivity.
Qed.

End AxiosSteps.

(** X15: the [axios] reconciler first looks the project path up; when the
    lookup fails it is the only request made, and when it returns a project
    the webhooks are fetched by that project's numeric id and every later
    request (delete, post) is addressed to the same id. *)
Theorem axios_requests_follow_the_lookup :
  forall (S : Type) (api : HttpApi S) (dest g r : string) (w : World S)
         (s0 : S) (answer : Result Project),
    getProject (g +:+ "/" +:+ r) (remote w) = (s0, answer) ->
    match answer with
    | Throw e =>
        AxiosClient.createWebhook dest g r w
        = (mkWorld s0 (log w ++ [(GET_project (g +:+ "/" +:+ r), false)]), Throw e)
    | Ok project =>
        exists ok rest,
          log (AxiosClient.createWebhook dest g r w).1
            = log w ++ (GET_project (g +:+ "/" +:+ r), true)
                    :: (GET_project_hooks (Project.id project), ok) :: rest
          /\ Forall
               (fun e => addressedTo (g +:+ "/" +:+ r) (Project.id project) e.1)
               rest
    end.
Proof.
  intros S api dest g r w s0 [project|e] Hp.
  - exact (axios_after_lookup dest g r w s0 project Hp).
  - exact (axios_lookup_fails dest g r w s0 e Hp).
Qed.

(** X16: when a page request of an expansion fails after [n] full pages, the
    expansion throws that error: it has requested the pages 1 to n+1 in
    order and hands back none of the projects already fetched. *)
Theorem expansion_fails_with_its_page :
  forall (S : Type) (api : HttpApi S) (g : string) (w : World S)
         (n : nat) (s' : S) (e : Error) (fuel : nat),
    PagedThenFails g 1 (remote w) n s' e ->
    (n < fuel)%nat ->
    AxiosClient.getAllGroupRepositories fuel g w
    = (mkWorld s' (log w ++ pageRequests g 1 n
                         ++ [(GET_group_projects g
                                [ ("page", Js.VNum (1 + Z.of_nat n));
                                  ("per_page", Js.VNum 100);
                                  ("include_subgroups", Js.VBool true) ], false)]),
       Throw e).
Proof.
  intros S api g w n s' e fuel Hpaged Hfuel.
  unfold AxiosClient.getAllGroupRepositories. rewrite tryCatch_rethrow.
  destruct w as [s lg]. simpl in Hpaged.
  erewrite bind_throw by (apply (fetchPages_fails _ _ _ _ _ _ Hpaged); exact Hfuel).
  reflexivity.
Qed.

Section FiniteCount.

Import Double.

Lemma chunks_count fuel :
  forall l : list Project,
    (length l < 100 * (fuel + 1))%nat ->
    length (chunks fuel l) = (length l / 100 + 1)%nat.
Proof.
  induction fuel as [|fuel IH]; intros l Hlen; cbn [chunks].
  - rewrite Nat.div_small by lia. reflexivity.
  - destruct (Nat.ltb_spec (length l) 100) as [Hshort|Hfull].
    + rewrite Nat.div_small by lia. reflexivity.
    + cbn [length]. rewrite IH by (rewrite length_drop; lia).
      rewrite length_drop.
      replace (length l) with ((length l - 100) + 1 * 100)%nat at 2 by lia.
      rewrite Nat.div_add by lia. lia.
Qed.

Lemma finite_group_paged s g (l : list Project) :
  groups s !! g = Some l ->
  faults s = [] ->
  Paged g 1 s (chunks (length l / 100) l) s.
Proof.
  intros Hg Hf. apply (double_paged s g l Hg Hf (length l / 100) 0).
  rewrite Nat.mul_0_r, drop_0.
  pose proof (Nat.mul_succ_div_gt (length l) 100 ltac:(lia)). lia.
Qed.

End FiniteCount.

(** X17: on a remote that serves a group of n projects in pages and answers
    every request, the expansion ends after n/100 + 1 page requests -- one
    more than the full pages, so an empty last page when n is a multiple of
    100 -- and returns the references of all n projects in catalog order. *)
Theorem finite_group_expansion :
  forall (s : Double.t) (g : string) (l : list Project)
         (lg : list (Call * bool)) (fuel : nat),
    Double.groups s !! g = Some l ->
    Double.faults s = [] ->
    (length l / 100 < fuel)%nat ->
    AxiosClient.getAllGroupRepositories fuel g (mkWorld s lg)
    = (mkWorld s (lg ++ pageRequests g 1 (length l / 100 + 1)),
       Ok (Some (map refOf l))).
Proof.
  intros s g l lg fuel Hg Hf Hfuel.
  pose proof (finite_group_paged s g l Hg Hf) as Hpaged.
  assert (Hcount : length (chunks (length l / 100) l) = (length l / 100 + 1)%nat).
  { apply chunks_count.
    pose proof (Nat.mul_succ_div_gt (length l) 100 ltac:(lia)). lia. }
  rewrite (getAllGroupRepositories_paged g (mkWorld s lg) _ s fuel Hpaged)
    by (rewrite Hcount; lia).
  now rewrite Hcount, concat_chunks.
Qed.

(* ===================================================================== *)
(** * The revisions compared                                              *)
(* ===================================================================== *)

Section Revisions.

Import Double.

Variable dest : string.

(** On the double the url handed over as argument and the url repeated in
    the options make the same request body. *)
Lemma add_legacy p s :
  projectHooksAdd p dest LegacyClient.addOptions s
  = projectHooksAdd p dest (GitlabClient.webhookConfig dest) s.
Proof. reflexivity. Qed.

Lemma legacy_same_run g r (w : World Double.t) :
  exists d,
    GitlabClient.createWebhook dest g r w
      = (mkWorld (remote (GitlabClient.createWebhook dest g r w).1) (log w ++ d),
         (GitlabClient.createWebhook dest g r w).2)
    /\ LegacyClient.createWebhook dest g r w
       = (mkWorld (remote (GitlabClient.createWebhook dest g r w).1)
            (log w ++ map (fun e => (legacyCall e.1, e.2)) d),
          (GitlabClient.createWebhook dest g r w).2).
Proof.
  unfold LegacyClient.createWebhook. rewrite tryCatch_rethrow.
  destruct (createWebhook_cases dest g r w) as
    [s1 e H1 | s1 ex s3 res H1 H2 H3 | s1 ex hk s2 e H1 H2 H3
     | s1 ex hk s2 s3 res H1 H2 H3 H4]; simpl remote; simpl log.
  - rewrite (createWebhook_fetch_fails _ _ _ _ _ _ H1).
    eexists. split; [reflexivity |].
    erewrite bind_throw by (apply (invoke_run _ _ _ _ _ H1)). reflexivity.
  - rewrite (createWebhook_no_match _ _ _ _ _ _ _ _ H1 H2 H3).
    eexists. split; [reflexivity |].
    erewrite bind_ok by (apply (invoke_run _ _ _ _ _ H1)).
    rewrite H2. unfold bind at 1. unfold ret at 1.
    unfold bind. erewrite invoke_run by (simpl remote; rewrite add_legacy; exact H3).
    simpl. rewrite <- app_assoc. destruct res; reflexivity.
  - rewrite (createWebhook_delete_fails _ _ _ _ _ _ _ _ _ H1 H2 H3).
    eexists. split; [reflexivity |].
    erewrite bind_ok by (apply (invoke_run _ _ _ _ _ H1)).
    rewrite H2. erewrite bind_throw by (apply invoke_run; simpl; exact H3).
    simpl. now rewrite <- app_assoc.
  - rewrite (createWebhook_match _ _ _ _ _ _ _ _ _ _ H1 H2 H3 H4).
    eexists. split; [reflexivity |].
    erewrite bind_ok by (apply (invoke_run _ _ _ _ _ H1)).
    rewrite H2. erewrite bind_ok by (apply invoke_run; simpl; exact H3).
    unfold bind. erewrite invoke_run by (simpl remote; rewrite add_legacy; exact H4).
    simpl. rewrite <- !app_assoc. destruct res; reflexivity.
Qed.

End Revisions.

(** X18: against the double, the reconciler of the older revision -- which
    hands the url over as argument only -- leaves the same remote and returns
    the same outcome as the current one, and makes the same calls with the
    same answers, the create call without the url among its options. *)
Theorem legacy_reconciler_agrees :
  forall (dest g r : string) (w : World Double.t),
    remote (LegacyClient.createWebhook dest g r w).1
      = remote (GitlabClient.createWebhook dest g r w).1
    /\ (LegacyClient.createWebhook dest g r w).2
       = (GitlabClient.createWebhook dest g r w).2
    /\ exists d,
        log (GitlabClient.createWebhook dest g r w).1 = log w ++ d
        /\ log (LegacyClient.createWebhook dest g r w).1
           = log w ++ map (fun e => (legacyCall e.1, e.2)) d.
Proof.
  intros dest g r w. destruct (legacy_same_run dest g r w) as (d & Hnew & Hold).
  rewrite Hold. simpl. split; [reflexivity |]. split; [reflexivity |].
  exists d. split; [| reflexivity]. now rewrite Hnew at 1.
Qed.

Section AxiosRuns.

Context {S : Type} {api : HttpApi S}.
Variable dest : string.
Variables g r : string.

Local Abbreviation p := (g +:+ "/" +:+ r).
Local Abbreviation matches := (fun hook => String.eqb (Webhook.url hook) dest).
Local Abbreviation body := (AxiosClient.webhookConfig dest).

Lemma axios_lookup_ok (w : World S) s0 project :
  getProject p (remote w) = (s0, Ok project) ->
  AxiosClient.getProjectId p w
  = (mkWorld s0 (log w ++ [(GET_project p, true)]), Ok (Project.id project)).
Proof.
  intros Hp. unfold AxiosClient.getProjectId. rewrite tryCatch_rethrow.
  erewrite bind_ok by (apply (invoke_run _ _ _ _ _ Hp)). reflexivity.
Qed.

Lemma axios_fetch_fails (w : World S) s0 project s1 e :
  getProject p (remote w) = (s0, Ok project) ->
  getProjectHooks (Project.id project) s0 = (s1, Throw e) ->
  AxiosClient.createWebhook dest g r w
  = (mkWorld s1 (log w ++ [ (GET_project p, true);
                            (GET_project_hooks (Project.id project), false) ]),
     Throw e).
Proof.
  intros Hp Hh. unfold AxiosClient.createWebhook. rewrite tryCatch_rethrow.
  erewrite bind_ok by (apply axios_lookup_ok; exact Hp).
  erewrite bind_throw by (apply invoke_run; simpl; exact Hh).
  simpl. now rewrite <- app_assoc.
Qed.

Lemma axios_no_match (w : World S) s0 project s1 existing s3 res :
  getProject p (remote w) = (s0, Ok project) ->
  getProjectHooks (Project.id project) s0 = (s1, Ok existing) ->
  find matches existing = None ->
  postProjectHooks (Project.id project) body s1 = (s3, res) ->
  AxiosClient.createWebhook dest g r w
  = (mkWorld s3 (log w ++ [ (GET_project p, true);
                            (GET_project_hooks (Project.id project), true);
                            (POST_project_hooks (Project.id project) body, isOk res) ]),
     res).
Proof.
  intros Hp Hh Hfind Hpost. unfold AxiosClient.createWebhook. rewrite tryCatch_rethrow.
  erewrite bind_ok by (apply axios_lookup_ok; exact Hp).
  erewrite bind_ok by (apply invoke_run; simpl; exact Hh).
  rewrite Hfind. unfold bind at 1. unfold ret at 1.
  unfold bind. erewrite invoke_run by (simpl; exact Hpost).
  simpl. rewrite <- !app_assoc. destruct res; reflexivity.
Qed.

Lemma axios_delete_fails (w : World S) s0 project s1 existing hook s2 e :
  getProject p (remote w) = (s0, Ok project) ->
  getProjectHooks (Project.id project) s0 = (s1, Ok existing) ->
  find matches existing = Some hook ->
  deleteProjectHook (Project.id project) (Webhook.id hook) s1 = (s2, Throw e) ->
  AxiosClient.createWebhook dest g r w
  = (mkWorld s2 (log w ++ [ (GET_project p, true);
                            (GET_project_hooks (Project.id project), true);
                            (DELETE_project_hook (Project.id project) (Webhook.id hook),
                             false) ]),
     Throw e).
Proof.
  intros Hp Hh Hfind Hdel. unfold AxiosClient.createWebhook. rewrite tryCatch_rethrow.
  erewrite bind_ok by (apply axios_lookup_ok; exact Hp).
  erewrite bind_ok by (apply invoke_run; simpl; exact Hh).
  rewrite Hfind. erewrite bind_throw by (apply invoke_run; simpl; exact Hdel).
  simpl. now rewrite <- !app_assoc.
Qed.

Lemma axios_match (w : World S) s0 project s1 existing hook s2 s3 res :
  getProject p (remote w) = (s0, Ok project) ->
  getProjectHooks (Project.id project) s0 = (s1, Ok existing) ->
  find matches existing = Some hook ->
  deleteProjectHook (Project.id project) (Webhook.id hook) s1 = (s2, Ok tt) ->
  postProjectHooks (Project.id project) body s2 = (s3, res) ->
  AxiosClient.createWebhook dest g r w
  = (mkWorld s3 (log w ++ [ (GET_project p, true);
                            (GET_project_hooks (Project.id project), true);
                            (DELETE_project_hook (Project.id project) (Webhook.id hook),
                             true);
                            (POST_project_hooks (Project.id project) body, isOk res) ]),
     res).
Proof.
  intros Hp Hh Hfind Hdel Hpost. unfold AxiosClient.createWebhook.
  rewrite tryCatch_rethrow.
  erewrite bind_ok by (apply axios_lookup_ok; exact Hp).
  erewrite bind_ok by (apply invoke_run; simpl; exact Hh).
  rewrite Hfind. erewrite bind_ok by (apply invoke_run; simpl; exact Hdel).
  unfold bind. erewrite invoke_run by (simpl; exact Hpost).
  simpl. rewrite <- !app_assoc. destruct res; reflexivity.
Qed.

End AxiosRuns.

Section QuietRequests.

Import Double.

Lemma getProject_quiet p s :
  faults s = [] -> getProject p s = showProject p s.
Proof. intros Hf. exact (request_quiet (showProject p) s Hf). Qed.

Lemma getProjectHooks_quiet pid s :
  faults s = [] -> getProjectHooks pid s = listHooks pid s.
Proof. intros Hf. exact (request_quiet (listHooks pid) s Hf). Qed.

Lemma deleteProjectHook_quiet pid i s :
  faults s = [] -> deleteProjectHook pid i s = deleteHook pid i s.
Proof. intros Hf. exact (request_quiet (deleteHook pid i) s Hf). Qed.

Lemma postProjectHooks_quiet pid body s :
  faults s = [] -> postProjectHooks pid body s = createHook pid body s.
Proof. intros Hf. exact (request_quiet (createHook pid body) s Hf). Qed.

Lemma projectHooksAll_quiet p s :
  faults s = [] -> projectHooksAll p s = byPath p listHooks s.
Proof. intros Hf. exact (request_quiet (byPath p listHooks) s Hf). Qed.

End QuietRequests.

(** X19: against the double and without outages, the reconciler of the
    [axios] revision and the one over the client library leave the same
    remote and return the same outcome, whether the project is unknown, has
    no webhook on the destination or has one. *)
Theorem axios_reconciler_agrees_without_outage :
  forall (dest g r : string) (w : World Double.t),
    Double.faults (remote w) = [] ->
    remote (AxiosClient.createWebhook dest g r w).1
      = remote (GitlabClient.createWebhook dest g r w).1
    /\ (AxiosClient.createWebhook dest g r w).2
       = (GitlabClient.createWebhook dest g r w).2.
Proof.
  intros dest g r w Hf.
  destruct (Double.projects (remote w) !! (g +:+ "/" +:+ r)) as [pid|] eqn:Hp.
  2:{ assert (Hlook : getProject (g +:+ "/" +:+ r) (remote w)
                      = (remote w, Throw (HttpError 404))).
      { rewrite (getProject_quiet _ _ Hf). unfold Double.showProject.
        now rewrite Hp. }
      assert (Hall : projectHooksAll (g +:+ "/" +:+ r) (remote w)
                     = (remote w, Throw (HttpError 404))).
      { rewrite (projectHooksAll_quiet _ _ Hf). unfold Double.byPath.
        now rewrite Hp. }
      rewrite (axios_lookup_fails dest g r w _ _ Hlook).
      rewrite (createWebhook_fetch_fails dest g r w _ _ Hall). now split. }
  assert (Hlook : getProject (g +:+ "/" +:+ r) (remote w)
                  = (remote w, Ok (Project.mk pid (g +:+ "/" +:+ r) "" ""))).
  { rewrite (getProject_quiet _ _ Hf). unfold Double.showProject. now rewrite Hp. }
  destruct (Double.hooks (remote w) !! pid) as [l|] eqn:Hh.
  2:{ assert (Hfetch : getProjectHooks pid (remote w)
                       = (remote w, Throw (HttpError 404))).
      { rewrite (getProjectHooks_quiet _ _ Hf). unfold Double.listHooks.
        now rewrite Hh. }
      assert (Hall : projectHooksAll (g +:+ "/" +:+ r) (remote w)
                     = (remote w, Throw (HttpError 404))).
      { rewrite (projectHooksAll_quiet _ _ Hf). unfold Double.byPath, Double.listHooks.
        now rewrite Hp, Hh. }
      rewrite (axios_fetch_fails dest g r w _ _ _ _ Hlook Hfetch).
      rewrite (createWebhook_fetch_fails dest g r w _ _ Hall). now split. }
  assert (Hfetch : getProjectHooks pid (remote w) = (remote w, Ok l)).
  { rewrite (getProjectHooks_quiet _ _ Hf). unfold Double.listHooks. now rewrite Hh. }
  assert (Hat : Double.hooksAt (remote w) (g +:+ "/" +:+ r) = Some l)
    by (unfold Double.hooksAt; now rewrite Hp).
  pose proof (all_quiet _ _ _ Hf Hat) as Hall.
  destruct (find (fun hook => String.eqb (Webhook.url hook) dest) l)
    as [hook|] eqn:Hfind.
  - pose proof (find_some _ _ Hfind) as [Hin _].
    pose proof (remove_quiet _ _ _ _ _ Hf Hp Hh Hin) as Hdel.
    assert (Hdel' : deleteProjectHook pid (Webhook.id hook) (remote w)
                    = (Double.withHooks (remote w)
                         (<[pid := List.filter
                                     (fun x => negb (Webhook.id x =? Webhook.id hook)) l]>
                            (Double.hooks (remote w)))
                         (Double.next_id (remote w)), Ok tt)).
    { rewrite (deleteProjectHook_quiet _ _ _ Hf). unfold Double.deleteHook. rewrite Hh.
      assert (Hex : existsb (fun x => Webhook.id x =? Webhook.id hook) l = true).
      { apply existsb_exists. exists hook. split; [exact Hin | apply Z.eqb_refl]. }
      now rewrite Hex. }
    erewrite (axios_match dest g r w _ _ _ _ _ _ _ _ Hlook Hfetch Hfind Hdel');
      [| rewrite postProjectHooks_quiet by exact Hf; unfold Double.createHook; simpl;
         rewrite lookup_insert_eq; reflexivity].
    erewrite (createWebhook_match dest g r w _ _ _ _ _ _ Hall Hfind Hdel);
      [| apply (add_quiet dest) with (pid := pid); simpl;
         [exact Hf | exact Hp | apply lookup_insert_eq]].
    now split.
  - erewrite (axios_no_match dest g r w _ _ _ _ _ _ Hlook Hfetch Hfind);
      [| rewrite postProjectHooks_quiet by exact Hf; unfold Double.createHook;
         cbn [Project.id]; rewrite Hh; reflexivity].
    erewrite (createWebhook_no_match dest g r w _ _ _ _ Hall Hfind);
      [| apply (add_quiet dest) with (pid := pid); eassumption].
    now split.
Qed.

(* ===================================================================== *)
(** * Lines, paths and the size of a reconciliation                       *)
(* ===================================================================== *)

Section LineOrder.

Context {S : Type} {api : GitlabApi S}.
Variable dest : string.

Lemma processLine_first_call (line : string) (w : World S) :
  exists d,
    log (GitlabClient.processLine dest line w).1 = log w ++ d /\ lineCalls line d.
Proof.
  unfold lineCalls, firstCallOf. cbv zeta.
  destruct (String.eqb_spec (List.last (Js.split "/" line) "") "*") as [Hstar|Hnot].
  - rewrite (processLine_wildcard_run dest line w Hstar).
    set (g := Js.join "/" (removelast (Js.split "/" line))).
    destruct (groupsProjects g GitlabClient.groupOptions (remote w))
      as [s1 [projects|e]] eqn:Hcall.
    + erewrite bind_ok by (apply getAllGroupRepositories_ok; exact Hcall).
      destruct (Emits_reconcile_all dest (map refOf projects)
                  (mkWorld s1 (log w ++ [(Groups_projects g GitlabClient.groupOptions,
                                          true)])))
        as (d & Hlog & _).
      eexists. rewrite Hlog. simpl. rewrite <- app_assoc.
      split; [reflexivity |]. now eexists _, _.
    + erewrite bind_throw by (apply getAllGroupRepositories_fails; exact Hcall).
      eexists. split; [reflexivity |]. now eexists _, _.
  - rewrite (processLine_direct_run dest line w Hnot), discard_run. simpl.
    destruct (createWebhook_first_call dest
                (Js.join "/" (removelast (Js.split "/" line)))
                (List.last (Js.split "/" line) "") w) as (ok & rest & Hlog & _).
    eexists. split; [exact Hlog |]. now eexists _, _.
Qed.

Lemma lines_in_order (lines : list string) :
  forall w : World S,
    exists ds,
      log (forOf lines (GitlabClient.processLine dest) w).1 = log w ++ concat ds
      /\ Forall2 lineCalls (take (length ds) lines) ds
      /\ (isOk (forOf lines (GitlabClient.processLine dest) w).2 = true ->
          length ds = length lines).
Proof.
  induction lines as [|x xs IH]; intros w.
  - exists []. simpl. rewrite app_nil_r. repeat split; constructor.
  - destruct (processLine_first_call x w) as (d & Hlog & Hd). cbn [forOf].
    destruct (GitlabClient.processLine dest x w) as [w1 [[]|e]] eqn:Hrun;
      simpl in Hlog.
    + rewrite (bind_ok _ _ _ _ _ Hrun).
      destruct (IH w1) as (ds & Hlog1 & Hds & Hall).
      exists (d :: ds). cbn [concat length take].
      rewrite Hlog1, Hlog, app_assoc.
      split; [reflexivity |]. split; [now constructor |].
      intros Hok. now rewrite (Hall Hok).
    + rewrite (bind_throw _ _ _ _ _ Hrun).
      exists [d]. simpl. rewrite app_nil_r. split; [exact Hlog |].
      split; [| discriminate]. rewrite take_0.
      constructor; [exact Hd | constructor].
Qed.

End LineOrder.

(** X20: a run over a readable manifest handles the entries in manifest
    order: its calls are the calls of the first entry, then those of the
    second, and so on, each entry starting with the listing of its group (a
    wildcard) or the fetch of its project's webhooks; it stops with the first
    entry that fails, and with exit status 0 every entry was handled. *)
Theorem run_handles_entries_in_order :
  forall (S : Type) (api : GitlabApi S) (dest file : string)
         (readFileSync : string -> Result string) (content : string) (w : World S),
    readFileSync file = Ok content ->
    exists ds,
      log (GitlabClient.processRepositories dest file readFileSync w).1
        = log w ++ concat ds
      /\ Forall2 lineCalls
           (take (length ds) (GitlabClient.manifestLines content)) ds
      /\ ((GitlabClient.processRepositories dest file readFileSync w).2 = 0 ->
          length ds = length (GitlabClient.manifestLines content)).
Proof.
  intros S api dest file readFileSync content w Hread.
  rewrite processRepositories_run. simpl.
  rewrite (manifestRun_read dest _ _ _ _ Hread).
  destruct (lines_in_order dest (GitlabClient.manifestLines content) w)
    as (ds & Hlog & Hds & Hall).
  exists ds. split; [exact Hlog |]. split; [exact Hds |].
  intros Hexit. apply Hall. destruct (isOk _); [reflexivity | discriminate].
Qed.

(** X21: what [split('/')], [pop()] and [join('/')] make of any path: the
    popped segment is never undefined and holds no slash; for a path with a
    slash, group path, slash and popped segment spell the path again; a
    path without a slash is popped whole, leaving the empty group path. *)
Theorem path_split_round_trip :
  forall s : string,
    exists (last : string) (parts : list string),
      Js.pop (Js.split "/" s) = (Some last, parts)
      /\ Js.contains "/" last = false
      /\ (Js.contains "/" s = true -> s = Js.join "/" parts +:+ "/" +:+ last)
      /\ (Js.contains "/" s = false -> Js.join "/" parts = "" /\ last = s).
Proof.
  intros s. exists (List.last (Js.split "/" s) ""), (removelast (Js.split "/" s)).
  split; [apply pop_split |]. apply path_segments.
Qed.

(** X22: one reconciliation makes at least one and at most three calls -- a
    fetch, at most one delete and at most one create -- however many
    webhooks the repository has. *)
Theorem reconciliation_makes_at_most_three_calls :
  forall (S : Type) (api : GitlabApi S) (dest g r : string) (w : World S),
    exists d,
      log (GitlabClient.createWebhook dest g r w).1 = log w ++ d
      /\ (1 <= length d <= 3)%nat
      /\ (length (List.filter isRemove d) <= 1)%nat
      /\ (length (List.filter
                    (fun e => match e.1 with ProjectHooks_add _ _ _ => true | _ => false end)
                    d) <= 1)%nat.
Proof.
  intros S api dest g r w.
  destruct (createWebhook_cases dest g r w) as
    [s1 e H1 | s1 ex s3 res H1 H2 H3 | s1 ex hk s2 e H1 H2 H3
     | s1 ex hk s2 s3 res H1 H2 H3 H4];
    simpl; eexists; (split; [reflexivity |]); simpl; lia.
Qed.

(* ===================================================================== *)
(** * The further statements at work on the small remote                  *)
(* ===================================================================== *)

Lemma configuration_error_makes_no_call_witness :
  GitlabClient.main (Env.mk None None (Some demoUrl) None) (fun _ => true)
    (demoFile "teamA/svcA") (init demo)
  = (init demo, 1).
Proof.
  apply (configuration_error_makes_no_call Double.t Double.gitlab
           (Env.mk None None (Some demoUrl) None) (fun _ => true)
           (demoFile "teamA/svcA") (init demo)).
  left. reflexivity.
Defined.

Lemma direct_entry_calls_name_the_line_witness :
  exists ok rest,
    log (GitlabClient.processLine demoUrl "teamA/svcA" (init demo)).1
      = log (init demo) ++ (ProjectHooks_all "teamA/svcA", ok) :: rest
    /\ Forall (fun e => hookCallOn "teamA/svcA" e.1) rest.
Proof.
  apply (direct_entry_calls_name_the_line Double.t Double.gitlab demoUrl
           "teamA/svcA" (init demo)).
  - reflexivity.
  - vm_compute. discriminate.
Defined.

Lemma wildcard_reconciles_in_listed_order_witness :
  exists ds,
    log (GitlabClient.processLine demoUrl ("teamB" +:+ "/*") (init demo)).1
      = log (init demo)
        ++ (Groups_projects "teamB" GitlabClient.groupOptions, true) :: concat ds
    /\ length ds = 2%nat.
Proof.
  assert (Hlist : groupsProjects "teamB" GitlabClient.groupOptions (remote (init demo))
                  = (demo, Ok [demoProject; Project.mk 3 "teamB/y" "y" "y"]))
    by (vm_compute; reflexivity).
  destruct (wildcard_reconciles_in_listed_order Double.t Double.gitlab demoUrl "teamB"
              (init demo) demo _ Hlist) as (ds & Hlog & _ & Hstop).
  exists ds. split; [exact Hlog |].
  assert (Hres : (GitlabClient.processLine demoUrl ("teamB" +:+ "/*") (init demo)).2
                 = Ok tt) by (vm_compute; reflexivity).
  rewrite Hres in Hstop. exact (proj1 Hstop).
Defined.

Lemma run_leaves_other_webhooks_witness :
  exists l',
    Double.hooks
      (remote (GitlabClient.main demoEnv (fun _ => true)
                 (demoFile "teamA/svcA
teamB/*") (init demo)).1) !! 1 = Some l'
    /\ others demoUrl l' = others demoUrl [ hookAt 10 "https://other.example.com/";
                                            hookAt 11 demoUrl; hookAt 12 demoUrl ].
Proof.
  apply (run_leaves_other_webhooks demoEnv (fun _ => true)
           (demoFile "teamA/svcA
teamB/*") demo demoUrl demo_wf eq_refl 1).
  vm_compute. reflexivity.
Defined.

Lemma successful_run_installs_direct_entries_witness :
  exists l,
    Double.hooksAt
      (remote (GitlabClient.processRepositories demoUrl "repos.txt"
                 (demoFile "teamA/svcA
teamB/y") (init demo)).1) (reconciledPath "teamB/y")
    = Some l
    /\ matching demoUrl l <> [].
Proof.
  apply (successful_run_installs_direct_entries demoUrl "repos.txt"
           (demoFile "teamA/svcA
teamB/y") "teamA/svcA
teamB/y" (init demo)).
  - exact demo_wf.
  - reflexivity.
  - vm_compute. reflexivity.
  - vm_compute. right. left. reflexivity.
  - vm_compute. discriminate.
Defined.

Lemma run_without_outage_succeeds_witness :
  (GitlabClient.processRepositories demoUrl "repos.txt"
     (demoFile "teamA/svcA
teamB/y") (init demo)).2 = 0.
Proof.
  apply (run_without_outage_succeeds demoUrl "repos.txt"
           (demoFile "teamA/svcA
teamB/y") "teamA/svcA
teamB/y" (init demo)).
  - exact demo_wf.
  - reflexivity.
  - reflexivity.
  - intros line Hin.
    assert (Hlines : GitlabClient.manifestLines "teamA/svcA
teamB/y" = ["teamA/svcA"; "teamB/y"]) by reflexivity.
    rewrite Hlines in Hin. destruct Hin as [<-|[<-|[]]].
    + split; [vm_compute; discriminate |].
      eexists. vm_compute. reflexivity.
    + split; [vm_compute; discriminate |].
      eexists. vm_compute. reflexivity.
Defined.

Lemma returned_webhook_is_installed_witness :
  exists before,
    Double.hooksAt (remote (GitlabClient.createWebhook demoUrl "teamB" "y" (init demo)).1)
      ("teamB" +:+ "/" +:+ "y")
    = Some (before ++ [Double.newHook 100 demoUrl (GitlabClient.webhookConfig demoUrl)])
    /\ Forall (fun x => Webhook.id x < 100) before.
Proof.
  assert (Hres : (GitlabClient.createWebhook demoUrl "teamB" "y" (init demo)).2
                 = Ok (Double.newHook 100 demoUrl (GitlabClient.webhookConfig demoUrl)))
    by (vm_compute; reflexivity).
  destruct (returned_webhook_is_installed demoUrl "teamB" "y" (init demo) _
              demo_wf Hres) as (before & Hat & Hids & _).
  exists before. split; [exact Hat | exact Hids].
Defined.

Lemma unknown_project_is_one_failed_fetch_witness :
  log (GitlabClient.createWebhook demoUrl "" "onlyname" (init demo)).1
    = log (init demo) ++ [(ProjectHooks_all ("" +:+ "/" +:+ "onlyname"), false)]
  /\ same (remote (init demo))
          (remote (GitlabClient.createWebhook demoUrl "" "onlyname" (init demo)).1)
  /\ isOk (GitlabClient.createWebhook demoUrl "" "onlyname" (init demo)).2 = false.
Proof.
  apply (unknown_project_is_one_failed_fetch demoUrl "" "onlyname" (init demo)).
  vm_compute. reflexivity.
Defined.

Lemma axios_failed_request_ends_run_witness :
  ([] : list (Call * bool)) = []
  /\ (AxiosClient.main demoEnv (fun _ => true) (demoFile "teamA/svcA
teamB/*") 3 (init (Double.withFaults demo [false; false; false; true]))).2 = Some 1.
Proof.
  apply (axios_failed_request_ends_run Double.t Double.http demoEnv (fun _ => true)
           (demoFile "teamA/svcA
teamB/*") 3 (Double.withFaults demo [false; false; false; true])
           [ (GET_project "teamA/svcA", true);
             (GET_project_hooks 1, true);
             (DELETE_project_hook 1 11, true) ]
           []
           (POST_project_hooks 1 (AxiosClient.webhookConfig demoUrl))).
  vm_compute. reflexivity.
Defined.

Lemma axios_requests_follow_the_lookup_witness :
  exists ok rest,
    log (AxiosClient.createWebhook demoUrl "teamA" "svcA" (init demo)).1
      = log (init demo)
        ++ (GET_project ("teamA" +:+ "/" +:+ "svcA"), true)
           :: (GET_project_hooks 1, ok) :: rest
    /\ Forall (fun e => addressedTo ("teamA" +:+ "/" +:+ "svcA") 1 e.1) rest.
Proof.
  assert (Hlook : getProject ("teamA" +:+ "/" +:+ "svcA") (remote (init demo))
                  = (demo, Ok (Project.mk 1 "teamA/svcA" "" "")))
    by (vm_compute; reflexivity).
  exact (axios_requests_follow_the_lookup Double.t Double.http demoUrl "teamA" "svcA"
           (init demo) demo _ Hlook).
Defined.

Lemma expansion_fails_with_its_page_witness :
  AxiosClient.getAllGroupRepositories 2 "big"
    (init (Double.withFaults demo [false; true]))
  = (mkWorld demo
       (log (init (Double.withFaults demo [false; true]))
        ++ pageRequests "big" 1 1
        ++ [(GET_group_projects "big"
               [ ("page", Js.VNum (1 + Z.of_nat 1));
                 ("per_page", Js.VNum 100);
                 ("include_subgroups", Js.VBool true) ], false)]),
     Throw NetworkError).
Proof.
  apply (expansion_fails_with_its_page Double.t Double.http "big"
           (init (Double.withFaults demo [false; true])) 1 demo NetworkError 2).
  - apply FullThenFails with (s1 := Double.withFaults demo [true])
                             (projects := repeat demoProject 100);
      [vm_compute; reflexivity | vm_compute; discriminate |].
    apply FailsNow. vm_compute. reflexivity.
  - lia.
Defined.

Lemma finite_group_expansion_witness :
  AxiosClient.getAllGroupRepositories 2 "big" (mkWorld demo [])
  = (mkWorld demo ([] ++ pageRequests "big" 1 (length (repeat demoProject 100) / 100 + 1)),
     Ok (Some (map refOf (repeat demoProject 100)))).
Proof.
  apply (finite_group_expansion demo "big" (repeat demoProject 100) [] 2).
  - vm_compute. reflexivity.
  - reflexivity.
  - vm_compute. lia.
Defined.

Lemma axios_reconciler_agrees_without_outage_witness :
  remote (AxiosClient.createWebhook demoUrl "teamA" "svcA" (init demo)).1
    = remote (GitlabClient.createWebhook demoUrl "teamA" "svcA" (init demo)).1
  /\ (AxiosClient.createWebhook demoUrl "teamA" "svcA" (init demo)).2
     = (GitlabClient.createWebhook demoUrl "teamA" "svcA" (init demo)).2.
Proof.
  apply (axios_reconciler_agrees_without_outage demoUrl "teamA" "svcA" (init demo)).
  reflexivity.
Defined.

Lemma run_handles_entries_in_order_witness :
  exists ds,
    log (GitlabClient.processRepositories demoUrl "repos.txt"
           (demoFile "teamA/svcA
teamB/*") (init demo)).1
      = log (init demo) ++ concat ds
    /\ length ds = 2%nat.
Proof.
  destruct (run_handles_entries_in_order Double.t Double.gitlab demoUrl "repos.txt"
              (demoFile "teamA/svcA
teamB/*") "teamA/svcA
teamB/*" (init demo) eq_refl) as (ds & Hlog & _ & Hall).
  exists ds. split; [exact Hlog |]. apply Hall. vm_compute. reflexivity.
Defined.
